(** * Mesh-state aggregation daemon (mesh_simple.py): model and properties

    A shallow embedding of [SimpleMeshtasticBYOS]: the three stores
    (node registry, message history with its counters, channel registry),
    the event handlers that mutate them, the online classifier, the
    snapshot builder, the publish call and the control skeleton of the
    main loop.

    Modelling conventions.
    - A Python [dict] whose iteration order is observable ([self.nodes],
      [self.channels]) is an insertion-ordered association list with
      unique keys ([PyDict]); [self.message_stats], a [defaultdict(int)]
      whose order is never observed, is a [gmap string Z] where an absent
      key reads as 0.
    - [deque(maxlen=10)] is a list, oldest element first.
    - Numbers that are times or signal readings are rationals ([Q]);
      integers are [Z].  Python strings are [string]s over code points
      0..255.
    - A [try]/[except Exception] block is a computation in the [outcome]
      monad run under [try_except].
    - The clock, the local time zone and [round] are a [Platform]; the
      answers of the radio transport and of the HTTP sink are explicit
      arguments.  Converting a time stamp to a local date can raise, and
      subtracting minutes from the local time need not subtract that many
      seconds from the time stamp: both are left to the platform. *)

From Stdlib Require Import ZArith QArith Qround String Ascii List Bool Lia.
From Stdlib Require Import Sorted.
From stdpp Require Import base option list gmap strings.
From stdpp Require pretty.

Local Open Scope string_scope.
Local Open Scope Z_scope.
Local Open Scope list_scope.

(** ** Exceptions *)

Inductive exn :=
| AttributeError
| ConnectionError
| ReadTimeout
| ValueError
| OverflowError
| OSError
| OtherError (msg : string).

Inductive outcome (A : Type) :=
| Ret (a : A)
| Raise (e : exn).
Arguments Ret {A} a.
Arguments Raise {A} e.

Definition obind {A B} (m : outcome A) (k : A -> outcome B) : outcome B :=
  match m with
  | Ret a => k a
  | Raise e => Raise e
  end.

Notation "'let!' x ':=' m 'in' k" := (obind m (fun x => k))
  (at level 10, x name, m at level 100, k at level 200).

Definition raises {A} (m : outcome A) : Prop := exists e, m = Raise e.

(** [try: body except Exception as e: handler e] *)
Definition try_except {A} (body : outcome A) (handler : exn -> A) : A :=
  match body with
  | Ret a => a
  | Raise e => handler e
  end.

(** ** Insertion-ordered dictionaries

    [d[k] = v] overwrites in place when [k] is present and appends at the
    end otherwise; iteration follows the list. *)

Module PyDict.
Section Dict.
Context {K V : Type} `{EqDecision K}.

Definition t := list (K * V).

Definition empty : t := [].

Fixpoint get (d : t) (k : K) : option V :=
  match d with
  | [] => None
  | (k', v) :: d' => if decide (k' = k) then Some v else get d' k
  end.

Fixpoint set (d : t) (k : K) (v : V) : t :=
  match d with
  | [] => [(k, v)]
  | (k', v') :: d' =>
      if decide (k' = k) then (k', v) :: d' else (k', v') :: set d' k v
  end.

(** [d.update(l)]: the bindings of [l] written one after the other. *)
Definition update (d : t) (l : list (K * V)) : t :=
  foldl (fun d kv => set d (fst kv) (snd kv)) d l.

Definition keys (d : t) : list K := map fst d.
Definition values (d : t) : list V := map snd d.
Definition items (d : t) : list (K * V) := d.
Definition len (d : t) : nat := length d.
End Dict.
Arguments t : clear implicits.
End PyDict.

(** ** Python strings *)

(** [str.isspace] on the code points below 256. *)
Definition isspace (a : ascii) : bool :=
  let n := Z.of_N (N_of_ascii a) in
  ((9 <=? n) && (n <=? 13)) || ((28 <=? n) && (n <=? 32))
  || (n =? 133) || (n =? 160).

Fixpoint lstrip (s : string) : string :=
  match s with
  | EmptyString => EmptyString
  | String a s' => if isspace a then lstrip s' else s
  end.

Definition rstrip (s : string) : string := String.rev (lstrip (String.rev s)).

(** [s.strip()] *)
Definition strip (s : string) : string := rstrip (lstrip s).

(** Truth value of a string: non-empty. *)
Definition str_truthy (s : string) : bool :=
  match s with EmptyString => false | String _ _ => true end.

(** Values of dynamically typed payload fields. *)
Inductive pyval :=
| PyNone
| PyInt (n : Z)
| PyStr (s : string).

(** [str(v)] *)
Definition py_str (v : pyval) : string :=
  match v with
  | PyNone => "None"
  | PyInt n => pretty.pretty n
  | PyStr s => s
  end.

(** A dictionary of numeric readings (position, device metrics); the
    daemon stores these verbatim and never looks inside. *)
Definition readings := list (string * Q).

(** ** Platform services

    A clock reading [now] is the POSIX time stamp of the instant at which
    [datetime.now()] is called.  A [datetime] made by
    [datetime.fromtimestamp] is represented by its time stamp; making it
    goes through the local time zone and fails outside the range of dates
    (or of the platform's [time_t]).  Formatting is meaningful on
    representable time stamps. *)

Class Platform := {
  (** whether [datetime.fromtimestamp(t)] returns *)
  representable : Q -> bool;
  (** the exception it raises when it does not: [ValueError] for a year
      outside 1..9999, [OSError] or [OverflowError] further out *)
  conversion_error : Q -> exn;
  (** [datetime.fromtimestamp(t).strftime('%H:%M')] *)
  strftime_HM : Q -> string;
  (** [datetime.fromtimestamp(t).strftime('%H:%M:%S')] *)
  strftime_HMS : Q -> string;
  (** [datetime.fromtimestamp(t).isoformat()] *)
  isoformat : Q -> string;
  (** [round(x, 1)] *)
  round1 : Q -> Q;
  (** [(datetime.now() - timedelta(minutes=m)).timestamp()] at the clock
      reading [now]: the naive local time of [now], moved back by [m]
      minutes on the wall clock and read as a local time again *)
  minutes_before : Z -> Q -> Q
}.

(** [datetime.fromtimestamp(t)] *)
Definition fromtimestamp `{Platform} (t : Q) : outcome Q :=
  if representable t then Ret t else Raise (conversion_error t).

(** ** Configuration defaults *)

Definition DEFAULT_UPDATE_INTERVAL : Z := 300.
Definition DEFAULT_BYOS_URL : string := "http://localhost:4567".
Definition MAX_RECENT_MESSAGES : nat := 10.
Definition MAX_RECONNECT_ATTEMPTS : Z := 5.
Definition ONLINE_THRESHOLD_MINUTES : Z := 30.

(** ** Data model *)

(** What the transport delivers for a node: a dict in which any key may be
    missing. *)
Record user_info := {
  u_longName : option string;
  u_shortName : option string
}.

Record node_payload := {
  nd_num : option Z;
  nd_user : option user_info;
  nd_lastHeard : option Q;
  nd_snr : option Q;
  nd_position : option readings;
  nd_deviceMetrics : option readings
}.

(** An entry of [self.nodes]. *)
Record node_entry := {
  n_id : Z;
  n_longName : string;
  n_shortName : string;
  n_lastHeard : Q;
  n_snr : Q;
  n_position : readings;
  n_telemetry : readings
}.

(** An entry of [self.recent_messages]. *)
Record message := {
  m_text : string;
  m_from : string;
  m_from_id : string;
  m_channel : Z;
  m_time : string;
  m_timestamp : string
}.

(** An entry of [self.channels]. *)
Record channel := {
  c_index : nat;
  c_name : string;
  c_psk : bool;
  c_role : pyval
}.

(** The channel objects of the local node, with optional attributes. *)
Record channel_settings := {
  cs_name : option string;
  cs_psk : option (list Byte.byte)
}.

Record radio_channel := {
  rc_settings : option channel_settings;
  rc_role : option pyval
}.

(** What [getMyNodeInfo()] returns: [None], or an object that may or may
    not have a [channels] attribute. *)
Inductive my_node_info :=
| InfoNone
| InfoObject (channels : option (list radio_channel)).

(** The transport handle: its node table (values of [interface.nodes] in
    iteration order, [None] while the radio has not reported it) and the
    answer of [getMyNodeInfo()]. *)
Record transport := {
  t_nodes : option (list node_payload);
  t_getMyNodeInfo : outcome my_node_info
}.

(** The decoded part of a packet: a dict, or an object with optional
    attributes [text] and [data] (whose [text] attribute is optional). *)
Inductive decoded :=
| DecodedDict (text : option pyval)
| DecodedObject (text : option pyval) (data : option (option pyval)).

Record packet := {
  p_decoded : option decoded;
  p_fromId : option pyval;
  p_from : option Z;
  p_channel : option Z;
  p_rxTime : option Q;
  p_time : option Q
}.

(** The daemon object. *)
Record plugin := {
  device_path : option string;
  byos_url : string;
  update_interval : Z;
  interface : option transport;
  running : bool;
  recent_messages : list message;
  nodes : PyDict.t Z node_entry;
  channels : PyDict.t nat channel;
  message_stats : gmap string Z
}.

(** [__init__] *)
Definition new_plugin (device_path : option string) (byos_url : option string)
    (update_interval : Z) : plugin :=
  {| device_path := device_path;
     byos_url := match byos_url with
                 | Some u => if str_truthy u then u else DEFAULT_BYOS_URL
                 | None => DEFAULT_BYOS_URL
                 end;
     update_interval := update_interval;
     interface := None;
     running := false;
     recent_messages := [];
     nodes := PyDict.empty;
     channels := PyDict.empty;
     message_stats := ∅ |}.

Definition set_interface (st : plugin) (i : option transport) : plugin :=
  {| device_path := device_path st; byos_url := byos_url st;
     update_interval := update_interval st; interface := i;
     running := running st; recent_messages := recent_messages st;
     nodes := nodes st; channels := channels st;
     message_stats := message_stats st |}.

Definition set_running (st : plugin) (b : bool) : plugin :=
  {| device_path := device_path st; byos_url := byos_url st;
     update_interval := update_interval st; interface := interface st;
     running := b; recent_messages := recent_messages st;
     nodes := nodes st; channels := channels st;
     message_stats := message_stats st |}.

Definition set_nodes (st : plugin) (n : PyDict.t Z node_entry) : plugin :=
  {| device_path := device_path st; byos_url := byos_url st;
     update_interval := update_interval st; interface := interface st;
     running := running st; recent_messages := recent_messages st;
     nodes := n; channels := channels st;
     message_stats := message_stats st |}.

Definition set_channels (st : plugin) (c : PyDict.t nat channel) : plugin :=
  {| device_path := device_path st; byos_url := byos_url st;
     update_interval := update_interval st; interface := interface st;
     running := running st; recent_messages := recent_messages st;
     nodes := nodes st; channels := c;
     message_stats := message_stats st |}.

Definition set_messages (st : plugin) (ms : list message)
    (stats : gmap string Z) : plugin :=
  {| device_path := device_path st; byos_url := byos_url st;
     update_interval := update_interval st; interface := interface st;
     running := running st; recent_messages := ms;
     nodes := nodes st; channels := channels st;
     message_stats := stats |}.

(** ** Event processor: node-updated *)

Definition no_user : user_info := {| u_longName := None; u_shortName := None |}.

(** [node.get('num', 0)] *)
Definition node_num (node : node_payload) : Z := default 0 (nd_num node).

(** The dict literal stored under [node_id]. *)
Definition node_profile (node_id : Z) (node : node_payload) : node_entry :=
  let user_info := default no_user (nd_user node) in
  {| n_id := node_id;
     n_longName := default "Unknown" (u_longName user_info);
     n_shortName := default "UNK" (u_shortName user_info);
     n_lastHeard := default 0%Q (nd_lastHeard node);
     n_snr := default 0%Q (nd_snr node);
     n_position := default [] (nd_position node);
     n_telemetry := default [] (nd_deviceMetrics node) |}.

Definition on_node_updated (st : plugin) (node : node_payload) : plugin :=
  try_except
    (let node_id := node_num node in
     if negb (node_id =? 0)
     then Ret (set_nodes st (PyDict.set (nodes st) node_id (node_profile node_id node)))
     else Ret st)
    (fun _ => st).

(** The event that was processed last among those carrying id [k]. *)
Definition last_event_for (k : Z) (evs : list node_payload) : option node_payload :=
  List.find (fun e => node_num e =? k) (rev evs).

(** [update_node_data]: replays the transport's node table through
    [on_node_updated]; a table that is still [None] makes [.items()] raise
    inside the [try]. *)
Definition update_node_data (st : plugin) : plugin :=
  match interface st with
  | None => st
  | Some tr =>
      try_except
        (let! nodes := match t_nodes tr with
                       | Some l => Ret l
                       | None => Raise AttributeError
                       end in
         Ret (foldl on_node_updated st nodes))
        (fun _ => st)
  end.

(** ** Event processor: packet-received *)

(** The [if]/[elif] chain that picks the text; [PyNone] is the initial
    [message_text = None]. *)
Definition extract_text (d : decoded) : pyval :=
  match d with
  | DecodedObject (Some t) _ => t
  | DecodedDict (Some t) => t
  | DecodedObject None (Some (Some t)) => t
  | _ => PyNone
  end.

(** [message_text and message_text.strip()]: the text when the condition
    is true, [None] when it is false; a non-zero integer has no [strip]. *)
Definition nonempty_text (message_text : pyval) : outcome (option string) :=
  match message_text with
  | PyNone => Ret None
  | PyInt n => if n =? 0 then Ret None else Raise AttributeError
  | PyStr s => Ret (if str_truthy s && str_truthy (strip s) then Some s else None)
  end.

(** [deque.append] with [maxlen]: append, then drop from the left while
    the bound is exceeded. *)
Definition deque_append {A} (maxlen : nat) (d : list A) (x : A) : list A :=
  let d' := d ++ [x] in
  if (maxlen <? length d')%nat then tail d' else d'.

(** [stats[k] += 1] on a [defaultdict(int)] *)
Definition stats_incr (stats : gmap string Z) (k : string) : gmap string Z :=
  <[k := default 0 (stats !! k) + 1]> stats.

(** [packet.get('fromId', packet.get('from', 'Unknown'))] *)
Definition packet_from_id (p : packet) : pyval :=
  match p_fromId p with
  | Some v => v
  | None => match p_from p with
            | Some n => PyInt n
            | None => PyStr "Unknown"
            end
  end.

(** [packet.get('rxTime', packet.get('time', time.time()))] *)
Definition packet_rx_time (now : Q) (p : packet) : Q :=
  default (default now (p_time p)) (p_rxTime p).

Section WithPlatform.
Context `{Platform}.

(** The [message_data] dict built for a text packet; converting the
    receive time can raise. *)
Definition message_data (registry : PyDict.t Z node_entry) (now : Q)
    (p : packet) (message_text : string) : outcome message :=
  let from_id := packet_from_id p in
  let channel := default 0 (p_channel p) in
  let rx_time := packet_rx_time now p in
  let! timestamp := fromtimestamp rx_time in
  let from_num := default 0 (p_from p) in
  let display_name :=
    match PyDict.get registry from_num with
    | Some node_info => n_shortName node_info
    | None => py_str from_id
    end in
  Ret {| m_text := message_text;
         m_from := display_name;
         m_from_id := py_str from_id;
         m_channel := channel;
         m_time := strftime_HM timestamp;
         m_timestamp := isoformat timestamp |}.

Definition on_receive (st : plugin) (now : Q) (p : packet) : plugin :=
  try_except
    (let decoded := default (DecodedDict None) (p_decoded p) in
     let message_text := extract_text decoded in
     let! text := nonempty_text message_text in
     match text with
     | Some message_text =>
         let! message_data := message_data (nodes st) now p message_text in
         let from_id := packet_from_id p in
         let recent := deque_append MAX_RECENT_MESSAGES (recent_messages st) message_data in
         let stats := stats_incr (message_stats st) (py_str from_id) in
         let stats := stats_incr stats "total" in
         Ret (set_messages st recent stats)
     | None => Ret st
     end)
    (fun _ => st).

(** The message a packet contributes to the history, if any. *)
Definition retained (st : plugin) (now : Q) (p : packet) : option message :=
  match nonempty_text (extract_text (default (DecodedDict None) (p_decoded p))) with
  | Ret (Some text) =>
      match message_data (nodes st) now p text with
      | Ret m => Some m
      | Raise _ => None
      end
  | _ => None
  end.

End WithPlatform.

(** ** Channel resynchronisation *)

Definition default_channel : channel :=
  {| c_index := 0; c_name := "Default"; c_psk := true; c_role := PyStr "primary" |}.

(** [getattr(channel.settings, 'name', f"Channel {i}")] *)
Definition channel_name (i : nat) (settings : channel_settings) : string :=
  default ("Channel " ++ pretty.pretty i)%string (cs_name settings).

Definition channel_record (i : nat) (ch : radio_channel)
    (settings : channel_settings) : channel :=
  {| c_index := i;
     c_name := channel_name i settings;
     c_psk := (0 <? length (default [] (cs_psk settings)))%nat;
     c_role := default (PyStr "secondary") (rc_role ch) |}.

(** Whether channel [ch] at position [i] passes both tests of the loop
    body: it has settings and its name is non-blank. *)
Definition named_channel (i : nat) (ch : radio_channel) : option channel :=
  match rc_settings ch with
  | Some settings =>
      let name := channel_name i settings in
      if str_truthy name && str_truthy (strip name)
      then Some (channel_record i ch settings)
      else None
  | None => None
  end.

(** [for i, channel in enumerate(channels)], from index [i] on; the
    accumulator is [(self.channels, channels_found)]. *)
Fixpoint scan_channels (i : nat) (chs : list radio_channel)
    (acc : PyDict.t nat channel * Z) : PyDict.t nat channel * Z :=
  match chs with
  | [] => acc
  | ch :: rest =>
      scan_channels (S i) rest
        match named_channel i ch with
        | Some c => (PyDict.set (fst acc) i c, snd acc + 1)
        | None => acc
        end
  end.

Definition update_channel_data (st : plugin) : plugin :=
  match interface st with
  | None => st
  | Some tr =>
      try_except
        (let '(chans, channels_found) :=
           try_except
             (let! local_node := t_getMyNodeInfo tr in
              Ret match local_node with
                  | InfoObject (Some chs) => scan_channels 0 chs (channels st, 0)
                  | _ => (channels st, 0)
                  end)
             (fun _ => (channels st, 0)) in
         Ret (set_channels st
                (if channels_found =? 0
                 then PyDict.set chans 0%nat default_channel
                 else chans)))
        (fun _ => st)
  end.

(** ** Online classifier *)

(** The projected display record. *)
Record online_node := {
  o_name : string;
  o_longName : string;
  o_lastHeard : string;
  o_snr : Q;
  o_id : Z
}.

(** [a > b] on numbers *)
Definition Qgtb (a b : Q) : bool := negb (Qle_bool a b).

(** [list.sort(key=key, reverse=True)] with string keys.  The sort is
    stable, also under [reverse=True]: items with equal keys keep their
    original order.  A stable sort has one possible result, given here by
    insertion from the right. *)
Fixpoint insert_desc {A} (key : A -> string) (x : A) (l : list A) : list A :=
  match l with
  | [] => [x]
  | y :: l' =>
      if String.ltb (key x) (key y) then y :: insert_desc key x l' else x :: l
  end.

Definition sort_reverse {A} (key : A -> string) (l : list A) : list A :=
  foldr (insert_desc key) [] l.

(** [a] may stand before [b] in descending key order: the key of [a] is
    not below the key of [b]. *)
Definition key_ge {A} (key : A -> string) (a b : A) : Prop :=
  String.ltb (key a) (key b) = false.

Section WithPlatform.
Context `{Platform}.

(** [(datetime.now() - timedelta(minutes=ONLINE_THRESHOLD_MINUTES)).timestamp()] *)
Definition threshold_timestamp (now : Q) : Q :=
  minutes_before ONLINE_THRESHOLD_MINUTES now.

Definition is_online (now : Q) (node : node_entry) : bool :=
  Qgtb (n_lastHeard node) (threshold_timestamp now).

(** The dict appended for an online node, once its last-heard time is
    converted. *)
Definition display_record (item : Z * node_entry) (last_heard_time : Q) : online_node :=
  let '(node_id, node) := item in
  {| o_name := n_shortName node;
     o_longName := n_longName node;
     o_lastHeard := strftime_HM last_heard_time;
     o_snr := round1 (n_snr node);
     o_id := node_id |}.

Definition online_record (item : Z * node_entry) : outcome online_node :=
  let! last_heard_time := fromtimestamp (n_lastHeard (snd item)) in
  Ret (display_record item last_heard_time).

(** The record of an item whose last-heard time converts. *)
Definition converted_record (item : Z * node_entry) : online_node :=
  display_record item (n_lastHeard (snd item)).

(** The registry items that pass the test of the loop. *)
Definition online_items (now : Q) (items : list (Z * node_entry)) :
    list (Z * node_entry) :=
  List.filter (fun item => is_online now (snd item)) items.

(** The [for] loop over [self.nodes.items()]: the list built, or the
    exception of the first conversion that fails. *)
Fixpoint collect_online (now : Q) (items : list (Z * node_entry)) :
    outcome (list online_node) :=
  match items with
  | [] => Ret []
  | item :: rest =>
      if is_online now (snd item) then
        let! record := online_record item in
        let! records := collect_online now rest in
        Ret (record :: records)
      else collect_online now rest
  end.

(** The list built by the [for] loop, before sorting. *)
Definition online_unsorted (st : plugin) (now : Q) : outcome (list online_node) :=
  collect_online now (PyDict.items (nodes st)).

(** No handler inside: an exception of the loop leaves the function. *)
Definition get_online_nodes (st : plugin) (now : Q) : outcome (list online_node) :=
  let! online_nodes := online_unsorted st now in
  Ret (sort_reverse o_lastHeard online_nodes).

(** ** Snapshot builder *)

Record message_summary := {
  s_total : Z;
  s_recent : list message;
  s_active_users : option nat
}.

Definition get_message_summary (st : plugin) : message_summary :=
  match recent_messages st with
  | [] => {| s_total := 0; s_recent := []; s_active_users := None |}
  | _ =>
      let recent_list := rev (recent_messages st) in
      {| s_total := default 0 (message_stats st !! "total");
         s_recent := firstn 10 recent_list;
         s_active_users :=
           Some (size (filter (fun kv => fst kv <> "total" /\ 0 < snd kv)
                              (message_stats st))) |}
  end.

Record network_stats := {
  ns_total_nodes : nat;
  ns_online_nodes : nat;
  ns_channels : nat;
  ns_last_update : string
}.

(** [now_online] is the clock reading of the nested [get_online_nodes]
    call, [now_update] the one formatted into [last_update]. *)
Definition get_network_stats (st : plugin) (now_online now_update : Q) :
    outcome network_stats :=
  let! online_nodes := get_online_nodes st now_online in
  Ret {| ns_total_nodes := PyDict.len (nodes st);
         ns_online_nodes := length online_nodes;
         ns_channels := PyDict.len (channels st);
         ns_last_update := strftime_HMS now_update |}.

Record device_info := {
  di_platform : string;
  di_meshtastic_device : string
}.

Record display_data := {
  d_network_stats : network_stats;
  d_online_nodes : list online_node;
  d_recent_messages : list message;
  d_message_stats_total : Z;
  d_channels : list channel;
  d_status : string;
  d_timestamp : string;
  d_device_info : device_info
}.

(** The four readings of [datetime.now()] during one call, in program
    order: the classifier's, the one nested in [get_network_stats], the
    one for [last_update], the one for [timestamp]. *)
Record clock_readings := {
  now_classify : Q;
  now_stats : Q;
  now_last_update : Q;
  now_publish : Q
}.

Definition prepare_display_data (st : plugin) (clk : clock_readings) :
    outcome display_data :=
  let! online_nodes := get_online_nodes st (now_classify clk) in
  let message_summary := get_message_summary st in
  let! network_stats := get_network_stats st (now_stats clk) (now_last_update clk) in
  Ret {| d_network_stats := network_stats;
         d_online_nodes := firstn 12 online_nodes;
         d_recent_messages := firstn 10 (s_recent message_summary);
         d_message_stats_total := s_total message_summary;
         d_channels := firstn 6 (PyDict.values (channels st));
         d_status := match interface st with
                     | Some _ => "connected"
                     | None => "disconnected"
                     end;
         d_timestamp := isoformat (now_publish clk);
         d_device_info := {| di_platform := "Raspberry Pi";
                             di_meshtastic_device := "Heltec v3" |} |}.

(** ** Sync client *)

Record response := {
  status_code : Z;
  text : string
}.

(** [post url data] is what [requests.post] does with a 10 s timeout: a
    response, or an exception (connection failure, timeout, ...).  The
    snapshot is built inside the [try]: when building it raises, no POST
    is made. *)
Definition send_to_byos_try (st : plugin) (clk : clock_readings)
    (post : string -> display_data -> outcome response) : outcome bool :=
  let! data := prepare_display_data st clk in
  let url := (byos_url st ++ "/api/screen")%string in
  let! response := post url data in
  if existsb (Z.eqb (status_code response)) [200; 201]
  then Ret true
  else Ret false.

Definition send_to_byos (st : plugin) (clk : clock_readings)
    (post : string -> display_data -> outcome response) : bool :=
  try_except (send_to_byos_try st clk post) (fun _ => false).

End WithPlatform.

(** ** Connection lifecycle *)

(** [open devPath] is the [SerialInterface] constructor: [devPath] is given
    when a device path is configured, left out for auto-detection. *)
Definition connect (st : plugin)
    (open : option string -> outcome transport) : plugin * bool :=
  try_except
    (let! i := match device_path st with
               | Some path => if str_truthy path then open (Some path) else open None
               | None => open None
               end in
     Ret (set_interface st (Some i), true))
    (fun _ => (st, false)).

(** What the main loop does that the outside can observe. *)
Inductive event :=
| EvConnect (ok : bool)
| EvBackoff (secs : Z)
| EvRefreshNodes
| EvPublish (ok : bool)
| EvIntervalSleep
| EvDisconnect.

(** The answers of the outside world.  [w_open k] answers the [k]-th
    [connect()] call, [w_post k] the [k]-th POST (both counted from 0);
    [w_clock i] gives the clock readings of iteration [i]; [w_signal i]
    tells whether SIGINT or SIGTERM is handled during iteration [i], which
    clears [self.running]. *)
Record world := {
  w_open : nat -> option string -> outcome transport;
  w_post : nat -> string -> display_data -> outcome response;
  w_clock : nat -> clock_readings;
  w_signal : nat -> bool
}.

(** The loop's variables, and counters of what happened so far. *)
Record loop_state := {
  ls_plugin : plugin;
  reconnect_attempts : Z;
  ls_iteration : nat;
  ls_connects : nat;
  ls_posts : nat;
  ls_trace : list event
}.

Inductive flow :=
| Continue (s : loop_state)
| Break (s : loop_state).

Definition count_connects (tr : list event) : nat :=
  length (List.filter (fun e => match e with EvConnect _ => true | _ => false end) tr).

Section WithPlatform.
Context `{Platform}.

(** The signal handler runs at some point of iteration [i]; the loop sees
    its effect when it next tests [self.running]. *)
Definition deliver_signal (w : world) (i : nat) (st : plugin) : plugin :=
  if w_signal w i then set_running st false else st.

(** Whether [send_to_byos] gets as far as the POST: it does when the
    snapshot can be built. *)
Definition post_is_made (st : plugin) (clk : clock_readings) : bool :=
  match prepare_display_data st clk with
  | Ret _ => true
  | Raise _ => false
  end.

(** The part of the loop body after the connection test: refresh, publish,
    interruptible sleep.  [ls_posts] counts the POSTs made. *)
Definition cycle (w : world) (s : loop_state) (st : plugin)
    (attempts : Z) (connects : nat) (trace : list event) : flow :=
  let st := update_node_data st in
  let clk := w_clock w (ls_iteration s) in
  let ok := send_to_byos st clk (w_post w (ls_posts s)) in
  Continue {| ls_plugin := deliver_signal w (ls_iteration s) st;
              reconnect_attempts := attempts;
              ls_iteration := S (ls_iteration s);
              ls_connects := connects;
              ls_posts := if post_is_made st clk then S (ls_posts s) else ls_posts s;
              ls_trace := trace ++ [EvRefreshNodes; EvPublish ok; EvIntervalSleep] |}.

(** One pass through the body of [while self.running]. *)
Definition loop_body (w : world) (s : loop_state) : flow :=
  let st := ls_plugin s in
  match interface st with
  | None =>
      let '(st, ok) := connect st (w_open w (ls_connects s)) in
      if ok then
        cycle w s st 0 (S (ls_connects s)) (ls_trace s ++ [EvConnect true])
      else
        let attempts := reconnect_attempts s + 1 in
        if attempts >=? MAX_RECONNECT_ATTEMPTS then
          Break {| ls_plugin := st;
                   reconnect_attempts := attempts;
                   ls_iteration := S (ls_iteration s);
                   ls_connects := S (ls_connects s);
                   ls_posts := ls_posts s;
                   ls_trace := ls_trace s ++ [EvConnect false] |}
        else
          Continue {| ls_plugin := deliver_signal w (ls_iteration s) st;
                      reconnect_attempts := attempts;
                      ls_iteration := S (ls_iteration s);
                      ls_connects := S (ls_connects s);
                      ls_posts := ls_posts s;
                      ls_trace := ls_trace s ++ [EvConnect false; EvBackoff 30] |}
  | Some _ =>
      cycle w s st (reconnect_attempts s) (ls_connects s) (ls_trace s)
  end.

(** After the loop: [self.running = False; self.disconnect()]. *)
Definition shut_down (s : loop_state) : loop_state :=
  {| ls_plugin := set_running (ls_plugin s) false;
     reconnect_attempts := reconnect_attempts s;
     ls_iteration := ls_iteration s;
     ls_connects := ls_connects s;
     ls_posts := ls_posts s;
     ls_trace := match interface (ls_plugin s) with
                 | Some _ => ls_trace s ++ [EvDisconnect]
                 | None => ls_trace s
                 end |}.

(** The [while] loop; [fuel] bounds the number of times its condition is
    tested.  [Stopped] is the state after the code that follows the loop;
    [StillRunning] is the state reached when the bound ran out first. *)
Inductive run :=
| Stopped (s : loop_state)
| StillRunning (s : loop_state).

Definition final (r : run) : loop_state :=
  match r with Stopped s => s | StillRunning s => s end.

Fixpoint while_running (fuel : nat) (w : world) (s : loop_state) : run :=
  match fuel with
  | O => StillRunning s
  | S fuel' =>
      if running (ls_plugin s) then
        match loop_body w s with
        | Continue s' => while_running fuel' w s'
        | Break s' => Stopped (shut_down s')
        end
      else Stopped (shut_down s)
  end.

Definition loop_start (st : plugin) : loop_state :=
  {| ls_plugin := set_running st true;
     reconnect_attempts := 0;
     ls_iteration := O;
     ls_connects := O;
     ls_posts := O;
     ls_trace := [] |}.

Definition run_update_loop (fuel : nat) (w : world) (st : plugin) : run :=
  while_running fuel w (loop_start st).

(** What holds of the loop's variables whenever the loop condition is
    tested: every [connect()] call is in the trace; while disconnected,
    all calls so far have failed and the counter holds their number, below
    the maximum; once connected, the counter is zero. *)
Definition loop_invariant (s : loop_state) : Prop :=
  count_connects (ls_trace s) = ls_connects s
  /\ match interface (ls_plugin s) with
     | None => reconnect_attempts s = Z.of_nat (ls_connects s)
               /\ reconnect_attempts s < MAX_RECONNECT_ATTEMPTS
     | Some _ => reconnect_attempts s = 0 /\ (ls_connects s <= 5)%nat
     end.

End WithPlatform.

(** ** Event streams

    The transport publishes three classes of events; each is handled to
    completion before the next. *)

Inductive mesh_event :=
| ConnectionEstablished
| PacketReceived (now : Q) (p : packet)
| NodeUpdated (node : node_payload).

Section WithPlatform.
Context `{Platform}.

Definition on_connection (st : plugin) : plugin :=
  update_channel_data (update_node_data st).

Definition handle (st : plugin) (ev : mesh_event) : plugin :=
  match ev with
  | ConnectionEstablished => on_connection st
  | PacketReceived now p => on_receive st now p
  | NodeUpdated node => on_node_updated st node
  end.

Definition process (st : plugin) (evs : list mesh_event) : plugin :=
  foldl handle st evs.

(** The messages that a stream of events appends to the history, in
    order of arrival. *)
Fixpoint appended (st : plugin) (evs : list mesh_event) : list message :=
  match evs with
  | [] => []
  | ev :: rest =>
      match ev with
      | PacketReceived now p =>
          match retained st now p with
          | Some m => m :: appended (handle st ev) rest
          | None => appended (handle st ev) rest
          end
      | _ => appended (handle st ev) rest
      end
  end.

(** The sender identities of the packets that a stream gets retained. *)
Fixpoint senders (st : plugin) (evs : list mesh_event) : list string :=
  match evs with
  | [] => []
  | ev :: rest =>
      match ev with
      | PacketReceived now p =>
          match retained st now p with
          | Some _ => py_str (packet_from_id p) :: senders (handle st ev) rest
          | None => senders (handle st ev) rest
          end
      | _ => senders (handle st ev) rest
      end
  end.

End WithPlatform.

(** ** Notions used to state the properties *)

(** The last [n] elements of a list. *)
Definition last_n {A} (n : nat) (l : list A) : list A :=
  skipn (length l - n) l.

(** The fields of a packet in which the handler looks for text. *)
Definition text_fields (p : packet) : list pyval :=
  match p_decoded p with
  | None => []
  | Some (DecodedDict t) => option_list t
  | Some (DecodedObject t d) =>
      option_list t ++ match d with
                       | Some (Some v) => [v]
                       | _ => []
                       end
  end.

(** A field holds non-empty text when it is a string with a character
    that is not white space. *)
Definition is_nonempty_text (v : pyval) : Prop :=
  exists s, v = PyStr s /\ strip s <> "".

(** The distinguished counter and the per-sender counters of the
    statistics. *)
Definition total_count (stats : gmap string Z) : Z :=
  default 0 (stats !! "total").

Definition sender_counts (stats : gmap string Z) : gmap string Z :=
  delete "total" stats.

Definition sum_counts (m : gmap string Z) : Z :=
  map_fold (fun _ v acc => v + acc) 0 m.

(** ** A reference platform: local time zone UTC

    Used to run the model on concrete inputs.  [fromtimestamp] rounds to
    the nearest microsecond, ties to even. *)

Module UTC.

Definition round_half_even (x : Q) : Z :=
  let f := Qfloor x in
  let r := (x - inject_Z f)%Q in
  match Qcompare r (1 # 2) with
  | Lt => f
  | Gt => f + 1
  | Eq => if Z.even f then f else f + 1
  end.

(** Decimal digits of [n], padded with zeros on the left to [width]. *)
Fixpoint zero_pad (width : nat) (s : string) : string :=
  match width with
  | O => s
  | S w => if (String.length s <=? w)%nat then zero_pad w ("0" ++ s)%string else s
  end.

Definition digits (width : nat) (n : Z) : string := zero_pad width (pretty.pretty n).

Definition microseconds (t : Q) : Z := round_half_even (t * inject_Z 1000000)%Q.
Definition seconds (t : Q) : Z := microseconds t / 1000000.

Definition hour (t : Q) : Z := (seconds t / 3600) mod 24.
Definition minute (t : Q) : Z := (seconds t / 60) mod 60.
Definition second (t : Q) : Z := seconds t mod 60.

(** Proleptic Gregorian date of a day number counted from 1970-01-01. *)
Definition civil_from_days (days : Z) : Z * Z * Z :=
  let z := days + 719468 in
  let era := z / 146097 in
  let doe := z mod 146097 in
  let yoe := (doe - doe / 1460 + doe / 36524 - doe / 146096) / 365 in
  let doy := doe - (365 * yoe + yoe / 4 - yoe / 100) in
  let mp := (5 * doy + 2) / 153 in
  let d := doy - (153 * mp + 2) / 5 + 1 in
  let m := if mp <? 10 then mp + 3 else mp - 9 in
  let y := yoe + era * 400 + (if m <=? 2 then 1 else 0) in
  (y, m, d).

Definition hm (t : Q) : string :=
  (digits 2 (hour t) ++ ":" ++ digits 2 (minute t))%string.

Definition hms (t : Q) : string :=
  (hm t ++ ":" ++ digits 2 (second t))%string.

Definition iso (t : Q) : string :=
  let '(y, m, d) := civil_from_days (seconds t / 86400) in
  let us := microseconds t mod 1000000 in
  (digits 4 y ++ "-" ++ digits 2 m ++ "-" ++ digits 2 d ++ "T" ++ hms t
   ++ (if (us =? 0)%Z then "" else "." ++ digits 6 us))%string.

Definition round_1 (x : Q) : Q :=
  (inject_Z (round_half_even (x * inject_Z 10)) / inject_Z 10)%Q.

(** The dates of [datetime] run from year 1 to year 9999; on Linux the
    conversion also looks one day back, to tell the two readings of a
    repeated hour apart, and that day must be a date as well. *)
Definition first_second : Z := -62135596800.
Definition end_second : Z := 253402300800.

Definition in_range (t : Q) : bool :=
  (first_second <=? seconds t - 86400) && (seconds t <? end_second).

(** Outside that range the conversion raises [ValueError] as long as the
    C library can break the time down, that is, as long as the year fits
    its 32-bit field (which counts from 1900); [OSError] beyond that; and
    [OverflowError] when the time does not fit a 64-bit [time_t]. *)
Definition first_tm_second : Z := -67768040609740800.
Definition end_tm_second : Z := 67768036191676800.

Definition out_of_range_error (seconds local_seconds : Z) : exn :=
  if (seconds <? - 2 ^ 63) || (2 ^ 63 <=? seconds) then OverflowError
  else if (local_seconds <? first_tm_second) || (end_tm_second <=? local_seconds)
       then OSError
       else ValueError.

Definition error (t : Q) : exn := out_of_range_error (seconds t) (seconds t).

(** Without changes of the clock, the wall clock moved back by [m]
    minutes is the time stamp moved back by [60 m] seconds. *)
Definition earlier (m : Z) (now : Q) : Q := (now - inject_Z (m * 60))%Q.

#[export] Instance platform : Platform :=
  {| representable := in_range;
     conversion_error := error;
     strftime_HM := hm;
     strftime_HMS := hms;
     isoformat := iso;
     round1 := round_1;
     minutes_before := earlier |}.

End UTC.

(** ** Platforms with a local time zone

    [utc_offset u] is the number of seconds that local time is ahead of
    UTC at the instant [u].  A naive local time is the count of seconds
    its wall clock shows since 1970-01-01 00:00:00 on the same wall
    clock. *)

Module LocalTime.
Section Zone.
Variable utc_offset : Z -> Z.

(** [time.localtime(u)], as a count of wall-clock seconds *)
Definition local (u : Z) : Z := u + utc_offset u.

(** [datetime.timestamp()] of the naive local time [t] (with [fold=0]):
    the instant whose local time is [t]; the earlier one when the hour is
    repeated; for a wall-clock time that was skipped, the instant found
    with the offset in force before the change. *)
Definition local_to_seconds (t : Z) : Z :=
  let a := local t - t in
  let u1 := t - a in
  let t1 := local u1 in
  let b := if t1 =? t then local (u1 - 86400) - (u1 - 86400) else t1 - u1 in
  if (t1 =? t) && (a =? b) then u1
  else
    let u2 := t - b in
    let t2 := local u2 in
    if t2 =? t then u2
    else if t1 =? t then u1
    else Z.max u1 u2.

(** The naive local time of the instant [t]. *)
Definition wall (t : Q) : Q :=
  (t + inject_Z (utc_offset (UTC.seconds t)))%Q.

Definition in_range (t : Q) : bool :=
  (UTC.first_second <=? local (UTC.seconds t - 86400))
  && (local (UTC.seconds t) <? UTC.end_second).

Definition error (t : Q) : exn :=
  UTC.out_of_range_error (UTC.seconds t) (local (UTC.seconds t)).

(** Whole seconds go through [local_to_seconds], the fraction is added back. *)
Definition earlier (m : Z) (now : Q) : Q :=
  let t := (wall now - inject_Z (m * 60))%Q in
  (inject_Z (local_to_seconds (Qfloor t)) + (t - inject_Z (Qfloor t)))%Q.

Definition platform : Platform :=
  {| representable := in_range;
     conversion_error := error;
     strftime_HM := fun t => UTC.hm (wall t);
     strftime_HMS := fun t => UTC.hms (wall t);
     isoformat := fun t => UTC.iso (wall t);
     round1 := UTC.round_1;
     minutes_before := earlier |}.

End Zone.
End LocalTime.

(** Central European time (zone Europe/Berlin) as it is for the instants
    of the year 2024: one hour ahead of UTC, two hours from 2024-03-31
    01:00 UTC to 2024-10-27 01:00 UTC.  The changes of other years are
    left out. *)
Module Berlin2024.

Definition spring_forward : Z := 1711846800.
Definition fall_back : Z := 1729990800.

Definition utc_offset (u : Z) : Z :=
  if u <? spring_forward then 3600
  else if u <? fall_back then 7200
  else 3600.

Definition platform : Platform := LocalTime.platform utc_offset.

End Berlin2024.


(** ** Channel reports, as the properties speak of them *)

(** The channels of a list, from position [i] on, that have settings and a
    non-blank name, with their positions. *)
Fixpoint named_channels (i : nat) (chs : list radio_channel) : list (nat * channel) :=
  match chs with
  | [] => []
  | ch :: rest =>
      match named_channel i ch with
      | Some c => (i, c) :: named_channels (S i) rest
      | None => named_channels (S i) rest
      end
  end.

(** The named channels that the transport reports. *)
Definition reported_channels (tr : transport) : list (nat * channel) :=
  match t_getMyNodeInfo tr with
  | Ret (InfoObject (Some chs)) => named_channels 0 chs
  | _ => []
  end.

(** A registry that was replaced wholesale by the report: the reported
    named channels, or the synthetic default alone when there are none. *)
Definition replaced_registry (tr : transport) : PyDict.t nat channel :=
  match reported_channels tr with
  | [] => [(0%nat, default_channel)]
  | l => l
  end.

(** A list of numbers in descending order. *)
Definition descending (l : list Q) : Prop :=
  Sorted (fun a b => (b <= a)%Q) l.

(** The raw last-heard time of the registry entry behind a display
    record; 0 when there is none. *)
Definition raw_last_heard (st : plugin) (o : online_node) : Q :=
  match PyDict.get (nodes st) (o_id o) with
  | Some node => n_lastHeard node
  | None => 0%Q
  end.

(** ** Sample inputs *)

Module Samples.

Definition daemon : plugin := new_plugin None None DEFAULT_UPDATE_INTERVAL.

Definition quiet_radio : transport :=
  {| t_nodes := Some []; t_getMyNodeInfo := Ret InfoNone |}.

(** A node payload with every key present. *)
Definition node (num : Z) (short : string) (heard : Q) : node_payload :=
  {| nd_num := Some num;
     nd_user := Some {| u_longName := Some ("Node " ++ short)%string;
                        u_shortName := Some short |};
     nd_lastHeard := Some heard;
     nd_snr := Some (25 # 4);
     nd_position := None;
     nd_deviceMetrics := None |}.

(** A text packet in the dict shape the transport publishes. *)
Definition text_packet (from_id : pyval) (from : Z) (body : string) : packet :=
  {| p_decoded := Some (DecodedDict (Some (PyStr body)));
     p_fromId := Some from_id;
     p_from := Some from;
     p_channel := Some 0;
     p_rxTime := Some (inject_Z 1700000000);
     p_time := None |}.

(** A packet whose text is white space only. *)
Definition blank_packet : packet :=
  text_packet (PyStr "!a1b2c3d4") 7 "   ".

(** Midnight of day 4 after the epoch, and a clock reading five minutes
    past it. *)
Definition midnight : Z := 4 * 86400.
Definition five_past_midnight : Q := inject_Z (midnight + 300).

(** Two nodes heard one minute before and one minute after midnight. *)
Definition before_midnight : node_payload := node 1 "EVE" (inject_Z (midnight - 60)).
Definition after_midnight : node_payload := node 2 "DAWN" (inject_Z (midnight + 60)).

(** A world in which the radio cannot be opened and no signal arrives. *)
Definition no_radio : world :=
  {| w_open := fun _ _ => Raise (OtherError "could not open port");
     w_post := fun _ _ _ => Raise ConnectionError;
     w_clock := fun _ => {| now_classify := 0; now_stats := 0;
                            now_last_update := 0; now_publish := 0 |};
     w_signal := fun _ => false |}.

(** A radio whose second channel slot is named and whose first is not. *)
Definition one_channel_radio : transport :=
  {| t_nodes := Some [];
     t_getMyNodeInfo :=
       Ret (InfoObject (Some
         [ {| rc_settings := Some {| cs_name := Some ""; cs_psk := None |};
              rc_role := None |};
           {| rc_settings := Some {| cs_name := Some "LongFast";
                                     cs_psk := Some [Byte.x01] |};
              rc_role := Some (PyStr "secondary") |} ])) |}.

(** The daemon after a channel refresh on [one_channel_radio], now
    attached to a radio that reports no channels. *)
Definition after_one_channel : plugin :=
  set_interface
    (update_channel_data (set_interface daemon (Some one_channel_radio)))
    (Some quiet_radio).

(** Thirteen nodes, all heard at the same time. *)
Definition thirteen_heard_at (t : Q) : list mesh_event :=
  map (fun k => NodeUpdated (node k "N" t))
      [1; 2; 3; 4; 5; 6; 7; 8; 9; 10; 11; 12; 13].

(** Thirteen nodes, all heard at the clock reading 1000. *)
Definition thirteen_nodes : list mesh_event := thirteen_heard_at (inject_Z 1000).

(** A call during which the clock reads the same every time. *)
Definition clock_at (now : Q) : clock_readings :=
  {| now_classify := now; now_stats := now;
     now_last_update := now; now_publish := now |}.

Definition at_1000 : clock_readings := clock_at (inject_Z 1000).

(** A clock reading ten minutes after the clocks went forward in 2024
    (03:10 local time in Berlin), and a node heard five minutes before
    that reading. *)
Definition after_spring_forward : Q :=
  inject_Z (Berlin2024.spring_forward + 600).
Definition heard_five_minutes_ago : node_payload :=
  node 1 "A" (inject_Z (Berlin2024.spring_forward + 300)).

(** A node whose last-heard time is the first second of the year 10000. *)
Definition heard_in_year_10000 : node_payload :=
  node 9 "FAR" (inject_Z UTC.end_second).

End Samples.

(** ** Further notions used to state properties *)

(** The node payloads that an event hands to [on_node_updated], for a
    daemon whose transport handle is [iface]: the payload of a
    node-updated event, the whole node table of the transport on a
    connection event, nothing on a packet. *)
Definition node_inputs (iface : option transport) (ev : mesh_event) : list node_payload :=
  match ev with
  | NodeUpdated node => [node]
  | ConnectionEstablished =>
      match iface with
      | Some tr => default [] (t_nodes tr)
      | None => []
      end
  | PacketReceived _ _ => []
  end.

(** The bindings that replaying a list of node payloads writes into the
    registry, in order: one per payload with a non-zero id. *)
Definition node_bindings (l : list node_payload) : list (Z * node_entry) :=
  flat_map (fun e => if node_num e =? 0 then []
                     else [(node_num e, node_profile (node_num e) e)]) l.

(** What a channel refresh against transport [tr] makes of a registry. *)
Definition refreshed_channels (tr : transport) (chans : PyDict.t nat channel) :
    PyDict.t nat channel :=
  match reported_channels tr with
  | [] => PyDict.set chans 0%nat default_channel
  | l => PyDict.update chans l
  end.

(** The number of [send_to_byos()] calls in a trace of the loop. *)
Definition count_publishes (tr : list event) : nat :=
  length (List.filter (fun e => match e with EvPublish _ => true | _ => false end) tr).

(** ** Configuration loading *)

(** [s.split(c, 1)] when [c] occurs in [s]: the parts before and after
    its first occurrence; [None] when it does not occur. *)
Fixpoint split_first (c : ascii) (s : string) : option (string * string) :=
  match s with
  | EmptyString => None
  | String a s' =>
      if Ascii.eqb a c then Some (EmptyString, s')
      else match split_first c s' with
           | Some (before, after) => Some (String a before, after)
           | None => None
           end
  end.

(** [c in s] *)
Definition contains (c : ascii) (s : string) : bool :=
  match split_first c s with Some _ => true | None => false end.

(** The assignment a line of the file makes, if it makes one: the line is
    not blank, does not start with [#] and contains [=]; key and value
    are the parts of the stripped line around its first [=]. *)
Definition env_line (line : string) : option (string * string) :=
  if str_truthy (strip line) && negb (String.prefix "#" line) && contains "=" line
  then split_first "=" (strip line)
  else None.

(** [os.environ[key] = value] refuses an empty name and embedded NUL
    characters with an exception. *)
Definition has_nul (s : string) : bool :=
  existsb (Ascii.eqb Ascii.zero) (list_ascii_of_string s).

Definition legal_assignment (key value : string) : bool :=
  str_truthy key && negb (has_nul key) && negb (has_nul value).

(** The body of the [try] block over the lines read: the environment
    afterwards and the exception that ended the loop, if any. *)
Fixpoint env_lines (environ : gmap string string) (lines : list string) :
    gmap string string * option exn :=
  match lines with
  | [] => (environ, None)
  | line :: rest =>
      match env_line line with
      | Some (key, value) =>
          match environ !! key with
          | Some _ => env_lines environ rest
          | None =>
              if legal_assignment key value
              then env_lines (<[key := value]> environ) rest
              else (environ, Some (OtherError "illegal environment variable name"))
          end
      | None => env_lines environ rest
      end
  end.

(** [load_env_file]: [file] is [None] when [.env] does not exist, else the
    lines that could be read from it (an error while opening or reading
    ends the loop like the end of the file does: it is logged and
    absorbed). *)
Definition load_env_file (file : option (list string))
    (environ : gmap string string) : gmap string string :=
  match file with
  | None => environ
  | Some lines => fst (env_lines environ lines)
  end.

(** ** Consistency of the stores *)

(** The stores are consistent when the dictionaries have no duplicate
    keys, no node is stored under id 0, every node entry and every channel
    entry carries the key it is stored under, and the history is within
    its bound. *)
Definition consistent (st : plugin) : Prop :=
  List.NoDup (PyDict.keys (nodes st))
  /\ List.NoDup (PyDict.keys (channels st))
  /\ (forall k e, In (k, e) (nodes st) -> n_id e = k /\ k <> 0)
  /\ (forall i c, In (i, c) (channels st) -> c_index c = i)
  /\ (length (recent_messages st) <= MAX_RECENT_MESSAGES)%nat.

(** ** Start-up *)

(** The command line after parsing: what was given explicitly. *)
Record cli_args := {
  a_device : option string;
  a_byos_url : option string;
  a_interval : option Z;
  a_test : bool;
  a_debug : bool
}.

Section Main.
(** [int(s)] on a string: a number, or an exception. *)
Variable py_int : string -> outcome Z.

(** The daemon object that [main] constructs: the file is loaded into the
    environment, the environment gives the defaults of the command line
    options, and the options go to [__init__].  Converting the interval
    can raise, which nothing in [main] handles. *)
Definition main_plugin (file : option (list string)) (environ : gmap string string)
    (args : cli_args) : outcome plugin :=
  let environ := load_env_file file environ in
  let byos_url := default DEFAULT_BYOS_URL (environ !! "BYOS_URL") in
  let! update_interval :=
    py_int (default (pretty.pretty DEFAULT_UPDATE_INTERVAL)
                    (environ !! "UPDATE_INTERVAL")) in
  Ret (new_plugin (a_device args)
                  (Some (default byos_url (a_byos_url args)))
                  (default update_interval (a_interval args))).

End Main.

(** ** More sample inputs *)

Module MoreSamples.
Import Samples.

(** A radio that knows two nodes and has one named channel. *)
Definition busy_radio : transport :=
  {| t_nodes := Some [node 1 "A" (inject_Z 1000); node 2 "B" (inject_Z 1010);
                      node 1 "A2" (inject_Z 1020)];
     t_getMyNodeInfo := t_getMyNodeInfo one_channel_radio |}.

Definition connected_daemon : plugin := set_interface daemon (Some busy_radio).

(** A packet object whose direct text is empty and whose nested data
    carries text. *)
Definition nested_text_packet : packet :=
  {| p_decoded := Some (DecodedObject (Some (PyStr "")) (Some (Some (PyStr "hello"))));
     p_fromId := Some (PyStr "!a1b2c3d4");
     p_from := Some 7;
     p_channel := None;
     p_rxTime := Some (inject_Z 1700000000);
     p_time := None |}.

(** A world with a working radio and sink in which a signal arrives
    during the third pass of the loop. *)
Definition signal_in_third_pass : world :=
  {| w_open := fun _ _ => Ret quiet_radio;
     w_post := fun _ _ _ => Ret {| status_code := 200; text := "" |};
     w_clock := fun _ => at_1000;
     w_signal := fun i => (i =? 2)%nat |}.

(** A world whose sink is down and in which no signal arrives. *)
Definition sink_down : world :=
  {| w_open := fun _ _ => Ret quiet_radio;
     w_post := fun k _ _ => if Nat.even k then Raise ConnectionError
                            else Ret {| status_code := 503; text := "" |};
     w_clock := fun _ => at_1000;
     w_signal := fun _ => false |}.

(** The lines of a configuration file, and an environment that already
    sets the sink URL. *)
Definition env_file : list string :=
  [ String "035" "the sink" ++ String "010" "";
    String "010" "";
    "UPDATE_INTERVAL=60" ++ String "010" "";
    "  BYOS_URL=http://pi.local:4567/?a=b  " ++ String "010" "";
    "BYOS_URL=http://other" ++ String "010" "" ]%string.

Definition environment : gmap string string :=
  <["BYOS_URL" := "http://from.env:4567"]> (<["HOME" := "/home/pi"]> ∅).

(** A node payload for id 1 that carries nothing else. *)
Definition bare_update : node_payload :=
  {| nd_num := Some 1; nd_user := None; nd_lastHeard := None;
     nd_snr := None; nd_position := None; nd_deviceMetrics := None |}.

(** Clock readings on both sides of the moment at which a node heard at
    1000 goes offline. *)
Definition split_second : clock_readings :=
  {| now_classify := 27999 # 10; now_stats := inject_Z 2800;
     now_last_update := inject_Z 2800; now_publish := inject_Z 2800 |}.

(** Eleven text packets from one sender. *)
Definition eleven_packets : list mesh_event :=
  map (fun t => PacketReceived 0 (text_packet (PyStr "!a1b2c3d4") 7 t))
      ["m01"; "m02"; "m03"; "m04"; "m05"; "m06"; "m07"; "m08"; "m09"; "m10"; "m11"].

(** Clock readings one second before and one second after the clocks
    went back in 2024 (local time in Berlin), and a node heard 50 minutes
    before that change. *)
Definition around_fall_back : clock_readings :=
  {| now_classify := inject_Z (Berlin2024.fall_back - 1);
     now_stats := inject_Z (Berlin2024.fall_back + 1);
     now_last_update := inject_Z (Berlin2024.fall_back + 1);
     now_publish := inject_Z (Berlin2024.fall_back + 1) |}.
Definition heard_before_fall_back : node_payload :=
  node 1 "A" (inject_Z (Berlin2024.fall_back - 3000)).

Definition no_options : cli_args :=
  {| a_device := None; a_byos_url := None; a_interval := None;
     a_test := false; a_debug := false |}.

End MoreSamples.

(** ** Test mode *)

Section WithPlatform.
Context `{Platform}.

(** The daemon as [main] has it in test mode when it comes to publish:
    after [connect()] succeeded and the node and channel data were
    refreshed; [None] when [connect()] failed. *)
Definition test_mode_daemon (st : plugin)
    (open : option string -> outcome transport) : option plugin :=
  let '(st, ok) := connect st open in
  if ok then Some (update_channel_data (update_node_data st)) else None.

(** Test mode after [connect()]: when it failed nothing is published
    ([None]); when it succeeded the online nodes are listed for the log at
    the clock reading [now_log], outside any handler, so that an
    exception there ends [main]; then comes the single publish, whose
    result is returned. *)
Definition main_test (st : plugin) (open : option string -> outcome transport)
    (now_log : Q) (clk : clock_readings)
    (post : string -> display_data -> outcome response) : outcome (option bool) :=
  match test_mode_daemon st open with
  | Some st =>
      let! online_nodes := get_online_nodes st now_log in
      Ret (Some (send_to_byos st clk post))
  | None => Ret None
  end.

End WithPlatform.

(** * Properties *)

(** ** Facts about insertion-ordered dictionaries *)

Module PyDictFacts.
Import PyDict.
Section Facts.
Context {K V : Type} `{EqDecision K}.
Implicit Types (d : PyDict.t K V) (k : K) (v : V).

Lemma get_set_eq d k v : get (set d k v) k = Some v.
Proof.
  induction d as [|[k' v'] d IH]; simpl.
  - destruct (decide (k = k)); congruence.
  - destruct (decide (k' = k)) as [E|N]; simpl.
    + destruct (decide (k' = k)); congruence.
    + destruct (decide (k' = k)); [contradiction|exact IH].
Qed.

Lemma get_set_ne d k k' v : k <> k' -> get (set d k v) k' = get d k'.
Proof.
  intros Hne. induction d as [|[k0 v0] d IH]; simpl.
  - destruct (decide (k = k')); [contradiction|reflexivity].
  - destruct (decide (k0 = k)) as [E|N]; simpl.
    + subst k0. destruct (decide (k = k')); [contradiction|reflexivity].
    + destruct (decide (k0 = k')); [reflexivity|exact IH].
Qed.

Lemma in_keys_set d k v k' :
  In k' (keys (set d k v)) <-> k' = k \/ In k' (keys d).
Proof.
  unfold keys. induction d as [|[k0 v0] d IH]; simpl.
  - intuition.
  - destruct (decide (k0 = k)) as [E|N]; simpl.
    + subst k0. intuition.
    + rewrite IH. intuition.
Qed.

Lemma NoDup_keys_set d k v :
  List.NoDup (keys d) -> List.NoDup (keys (set d k v)).
Proof.
  induction d as [|[k0 v0] d IH]; simpl; intros Hnd.
  - constructor; [intros []|constructor].
  - inversion Hnd as [|? ? Hnotin Hnd']; subst.
    destruct (decide (k0 = k)) as [E|N]; simpl.
    + constructor; assumption.
    + constructor; [|apply IH; exact Hnd'].
      intros Hin. apply in_keys_set in Hin. destruct Hin; [congruence|].
      apply Hnotin. assumption.
Qed.

Lemma get_Some_in_keys d k v : get d k = Some v -> In k (keys d).
Proof.
  induction d as [|[k0 v0] d IH]; simpl; [discriminate|].
  destruct (decide (k0 = k)); [left; assumption|right; auto].
Qed.

Lemma get_None_not_in_keys d k : get d k = None <-> ~ In k (keys d).
Proof.
  induction d as [|[k0 v0] d IH]; simpl.
  - intuition.
  - destruct (decide (k0 = k)) as [E|N].
    + split; [discriminate|]. intros H0. exfalso. apply H0. now left.
    + rewrite IH. intuition.
Qed.

Lemma set_nonempty d k v : set d k v <> [].
Proof.
  destruct d as [|[k0 v0] d]; simpl; [discriminate|].
  destruct (decide (k0 = k)); discriminate.
Qed.

(** Writing a key that is absent appends the binding. *)
Lemma set_fresh d k v : ~ In k (keys d) -> set d k v = d ++ [(k, v)].
Proof.
  induction d as [|[k0 v0] d IH]; simpl; intros Hn; [reflexivity|].
  destruct (decide (k0 = k)) as [E|N].
  - exfalso. apply Hn. now left.
  - f_equal. apply IH. intros Hin. apply Hn. now right.
Qed.

(** Writing a key that is present keeps the number of bindings. *)
Lemma len_set_present d k v : In k (keys d) -> len (set d k v) = len d.
Proof.
  unfold len. induction d as [|[k0 v0] d IH]; simpl; [intros []|].
  intros Hin. destruct (decide (k0 = k)) as [E|N]; simpl; [reflexivity|].
  f_equal. apply IH. destruct Hin; [contradiction|assumption].
Qed.
End Facts.
End PyDictFacts.

(** ** Node registry *)

Section NodeRegistry.
Import PyDict PyDictFacts.

Lemma on_node_updated_zero st e :
  node_num e = 0 -> on_node_updated st e = st.
Proof.
  intros Hz. unfold on_node_updated. rewrite Hz. reflexivity.
Qed.

Lemma on_node_updated_nodes st e :
  node_num e <> 0 ->
  nodes (on_node_updated st e)
  = set (nodes st) (node_num e) (node_profile (node_num e) e).
Proof.
  intros Hnz. unfold on_node_updated.
  destruct (Z.eqb_spec (node_num e) 0) as [E|_]; [contradiction|reflexivity].
Qed.

(** The handler touches nothing but the registry. *)
Lemma on_node_updated_frame st e :
  let st' := on_node_updated st e in
  interface st' = interface st /\ running st' = running st
  /\ recent_messages st' = recent_messages st
  /\ channels st' = channels st /\ message_stats st' = message_stats st
  /\ device_path st' = device_path st /\ byos_url st' = byos_url st
  /\ update_interval st' = update_interval st.
Proof.
  unfold on_node_updated.
  destruct (node_num e =? 0); simpl; repeat split; reflexivity.
Qed.

Lemma last_event_for_snoc k evs e :
  last_event_for k (evs ++ [e])
  = if node_num e =? k then Some e else last_event_for k evs.
Proof.
  unfold last_event_for. rewrite rev_unit. reflexivity.
Qed.

Lemma last_event_for_Some k evs e :
  last_event_for k evs = Some e -> In e evs /\ node_num e = k.
Proof.
  unfold last_event_for. intros Hf. apply List.find_some in Hf.
  destruct Hf as [Hin Hk]. split.
  - apply in_rev. exact Hin.
  - apply Z.eqb_eq. exact Hk.
Qed.

Lemma last_event_for_None k evs :
  last_event_for k evs = None -> forall e, In e evs -> node_num e <> k.
Proof.
  unfold last_event_for. intros Hf e Hin Hk.
  apply in_rev in Hin.
  pose proof (List.find_none _ _ Hf e Hin) as Hne. simpl in Hne.
  apply Z.eqb_neq in Hne. contradiction.
Qed.

(** Replaying events: the entry of a non-zero id comes from the last
    event that carried it, or from the registry before. *)
Lemma replay_get st evs k :
  k <> 0 ->
  get (nodes (foldl on_node_updated st evs)) k
  = match last_event_for k evs with
    | Some e => Some (node_profile k e)
    | None => get (nodes st) k
    end.
Proof.
  intros Hk. induction evs as [|e evs IH] using rev_ind.
  - reflexivity.
  - rewrite foldl_app. simpl. rewrite last_event_for_snoc.
    destruct (Z.eqb_spec (node_num e) k) as [E|N].
    + rewrite on_node_updated_nodes by congruence.
      rewrite E. apply get_set_eq.
    + destruct (Z.eq_dec (node_num e) 0) as [Z0|NZ].
      * rewrite on_node_updated_zero by exact Z0. exact IH.
      * rewrite on_node_updated_nodes by exact NZ.
        rewrite get_set_ne by exact N. exact IH.
Qed.

Lemma replay_keys st evs k :
  In k (keys (nodes (foldl on_node_updated st evs)))
  <-> In k (keys (nodes st)) \/ (k <> 0 /\ exists e, In e evs /\ node_num e = k).
Proof.
  induction evs as [|e evs IH] using rev_ind.
  - simpl. split; [auto|]. intros [Hin|[_ [e [[] _]]]]. exact Hin.
  - rewrite foldl_app. simpl.
    destruct (Z.eq_dec (node_num e) 0) as [Z0|NZ].
    + rewrite on_node_updated_zero by exact Z0. rewrite IH.
      split; intros [Hin|[Hk [e' [Hin He']]]]; auto; right; split; auto.
      * exists e'. split; [apply in_or_app; now left|exact He'].
      * apply in_app_or in Hin. destruct Hin as [Hin|[->|[]]].
        -- exists e'. auto.
        -- congruence.
    + rewrite on_node_updated_nodes by exact NZ. rewrite in_keys_set, IH.
      split.
      * intros [->|[Hin|[Hk [e' [Hin He']]]]]; auto; right; split; auto.
        -- exists e. split; [apply in_or_app; right; now left|reflexivity].
        -- exists e'. split; [apply in_or_app; now left|exact He'].
      * intros [Hin|[Hk [e' [Hin He']]]]; auto.
        apply in_app_or in Hin. destruct Hin as [Hin|[->|[]]].
        -- right. right. split; auto. exists e'. auto.
        -- left. congruence.
Qed.

Lemma replay_NoDup st evs :
  List.NoDup (keys (nodes st)) ->
  List.NoDup (keys (nodes (foldl on_node_updated st evs))).
Proof.
  intros Hnd. induction evs as [|e evs IH] using rev_ind; [exact Hnd|].
  rewrite foldl_app. simpl.
  destruct (Z.eq_dec (node_num e) 0) as [Z0|NZ].
  - rewrite on_node_updated_zero by exact Z0. exact IH.
  - rewrite on_node_updated_nodes by exact NZ. apply NoDup_keys_set. exact IH.
Qed.

(** The event that was processed last for an id is the one that no later
    event with that id follows. *)
Lemma last_event_for_split k before e after :
  node_num e = k ->
  (forall e', In e' after -> node_num e' <> k) ->
  last_event_for k (before ++ e :: after) = Some e.
Proof.
  intros He. induction after as [|e' after IH] using rev_ind; intros Hafter.
  - change (before ++ [e]) with (before ++ [e]).
    rewrite last_event_for_snoc. apply Z.eqb_eq in He. rewrite He. reflexivity.
  - change (before ++ e :: after ++ [e']) with (before ++ (e :: after) ++ [e']).
    rewrite app_assoc, last_event_for_snoc.
    destruct (Z.eqb_spec (node_num e') k) as [E|N].
    + exfalso. apply (Hafter e'); [apply in_or_app; right; left; reflexivity|exact E].
    + apply IH. intros e'' Hin. apply Hafter. apply in_or_app. left. exact Hin.
Qed.

(** C1.  Starting from the registry of a new daemon and processing any
    sequence of node-updated events: the registry has no duplicate ids; an
    id is present exactly when it is non-zero and some event carried it
    (a missing [num] reads as 0); the entry of each id is the profile
    parsed from the last event processed for it, that is, of the event
    with that id that no later event with that id follows: the id, the
    long and short name of its [user] (with "Unknown" and "UNK" for a
    missing key or a missing [user]), its [lastHeard] and [snr] (0 when
    missing), its [position] and its [deviceMetrics] (empty when
    missing); and an event whose id is zero or missing leaves the whole
    daemon state unchanged. *)
Theorem C1_node_registry_last_event_wins
    (dp url : option string) (iv : Z) (evs : list node_payload) :
  let reg := nodes (foldl on_node_updated (new_plugin dp url iv) evs) in
  List.NoDup (keys reg)
  /\ (forall k, In k (keys reg)
                <-> k <> 0 /\ exists e, In e evs /\ node_num e = k)
  /\ (forall k, k <> 0 ->
        get reg k = option_map (node_profile k) (last_event_for k evs))
  /\ (forall k before e after,
        k <> 0 ->
        evs = before ++ e :: after ->
        default 0 (nd_num e) = k ->
        (forall e', In e' after -> default 0 (nd_num e') <> k) ->
        get reg k
        = Some {| n_id := k;
                  n_longName := match nd_user e with
                                | Some user => default "Unknown" (u_longName user)
                                | None => "Unknown"
                                end;
                  n_shortName := match nd_user e with
                                 | Some user => default "UNK" (u_shortName user)
                                 | None => "UNK"
                                 end;
                  n_lastHeard := default 0%Q (nd_lastHeard e);
                  n_snr := default 0%Q (nd_snr e);
                  n_position := default [] (nd_position e);
                  n_telemetry := default [] (nd_deviceMetrics e) |})
  /\ (forall st e, node_num e = 0 -> on_node_updated st e = st).
Proof.
  cbv zeta. split; [|split; [|split; [|split]]].
  - apply replay_NoDup. simpl. constructor.
  - intros k. rewrite replay_keys. simpl. tauto.
  - intros k Hk. rewrite replay_get by exact Hk.
    destruct (last_event_for k evs); reflexivity.
  - intros k before e after Hk -> He Hafter.
    rewrite replay_get by exact Hk.
    rewrite (last_event_for_split k before e after He Hafter).
    unfold node_profile. destruct (nd_user e); reflexivity.
  - intros st e. apply on_node_updated_zero.
Qed.

End NodeRegistry.

(** ** Message history and statistics *)

Section Messages.
Context `{Platform}.

Lemma str_truthy_true s : str_truthy s = true <-> s <> "".
Proof. destruct s; simpl; split; congruence. Qed.

(** Text that is absent, empty, blank or not a string never passes the
    guard: the guard is false, or evaluating it raises. *)
Lemma nonempty_text_rejects v :
  ~ is_nonempty_text v ->
  nonempty_text v = Ret None \/ exists e, nonempty_text v = Raise e.
Proof.
  intros Hno. destruct v as [|n|s]; simpl.
  - now left.
  - destruct (n =? 0); [now left|right; eauto].
  - left. destruct (str_truthy s && str_truthy (strip s)) eqn:E; [|reflexivity].
    exfalso. apply Hno. exists s. split; [reflexivity|].
    apply andb_true_iff in E. apply str_truthy_true. apply E.
Qed.

Lemma nonempty_text_accepts v s :
  nonempty_text v = Ret (Some s) -> v = PyStr s /\ strip s <> "".
Proof.
  destruct v as [|n|s']; simpl.
  - discriminate.
  - destruct (n =? 0); discriminate.
  - destruct (str_truthy s' && str_truthy (strip s')) eqn:E; [|discriminate].
    intros [= ->]. split; [reflexivity|].
    apply andb_true_iff in E. apply str_truthy_true. apply E.
Qed.

(** The text the handler picks is one of the packet's text fields. *)
Lemma extract_text_source p :
  let v := extract_text (default (DecodedDict None) (p_decoded p)) in
  v = PyNone \/ In v (text_fields p).
Proof.
  unfold text_fields.
  destruct (p_decoded p) as [[[t|]|[t|] [[d|]|]]|]; simpl; auto.
Qed.

Lemma on_receive_retained st now p m :
  retained st now p = Some m ->
  on_receive st now p
  = set_messages st
      (deque_append MAX_RECENT_MESSAGES (recent_messages st) m)
      (stats_incr (stats_incr (message_stats st) (py_str (packet_from_id p))) "total").
Proof.
  unfold retained, on_receive.
  destruct (nonempty_text _) as [[s|]|e]; cbn [obind try_except]; try discriminate.
  destruct (message_data (nodes st) now p s) as [m'|e]; cbn [obind try_except];
    try discriminate.
  intros [= <-]. reflexivity.
Qed.

Lemma on_receive_dropped st now p :
  retained st now p = None -> on_receive st now p = st.
Proof.
  unfold retained, on_receive.
  destruct (nonempty_text _) as [[s|]|e]; cbn [obind try_except];
    try discriminate; try reflexivity.
  destruct (message_data (nodes st) now p s) as [m'|e]; cbn [obind try_except];
    try discriminate; reflexivity.
Qed.

(** C3.  A packet none of whose text fields (direct text attribute,
    dict-style text entry, nested data.text) holds non-empty text leaves
    the daemon state, and so the message history and the message
    statistics, unchanged. *)
Theorem C3_packet_without_text_is_noop (st : plugin) (now : Q) (p : packet) :
  (forall v, In v (text_fields p) -> ~ is_nonempty_text v) ->
  on_receive st now p = st
  /\ recent_messages (on_receive st now p) = recent_messages st
  /\ message_stats (on_receive st now p) = message_stats st.
Proof.
  intros Hno.
  assert (Hst : on_receive st now p = st).
  { apply on_receive_dropped. unfold retained.
    destruct (extract_text_source p) as [Hv|Hv].
    - rewrite Hv. reflexivity.
    - destruct (nonempty_text_rejects _ (Hno _ Hv)) as [->|[e ->]]; reflexivity. }
  rewrite Hst. auto.
Qed.

End Messages.

(** ** The bounded history *)

Section Deque.
Context {A : Type}.
Implicit Types (l : list A) (n : nat).

Lemma last_n_short n l : (length l <= n)%nat -> last_n n l = l.
Proof.
  intros Hle. unfold last_n.
  replace (length l - n)%nat with 0%nat by lia. reflexivity.
Qed.

Lemma length_last_n n l : length (last_n n l) = Nat.min n (length l).
Proof. unfold last_n. rewrite length_drop. lia. Qed.

Lemma tail_drop k l : tail (drop k l) = drop (S k) l.
Proof.
  revert k. induction l as [|a l IH]; intros [|k]; simpl; try reflexivity.
  apply IH.
Qed.

(** Appending to a full deque drops its oldest element; in every case
    the deque holds the last [n] elements of all that was appended. *)
Lemma deque_append_last_n n l x :
  deque_append n (last_n n l) x = last_n n (l ++ [x]).
Proof.
  unfold deque_append. rewrite length_app, length_last_n. simpl.
  unfold last_n. rewrite length_app. simpl.
  destruct (Nat.ltb_spec n (Nat.min n (length l) + 1)) as [Hfull|Hroom].
  - assert (Hn : (n <= length l)%nat) by lia.
    replace (length l + 1 - n)%nat with (S (length l - n)) by lia.
    destruct (Nat.eq_dec n 0%nat) as [->|Hpos].
    + rewrite Nat.sub_0_r, drop_all. simpl.
      rewrite drop_ge; [reflexivity|rewrite length_app; simpl; lia].
    + rewrite drop_app_le by lia.
      rewrite <- tail_drop.
      destruct (drop (length l - n) l) as [|a r] eqn:E; [|reflexivity].
      exfalso. apply (f_equal length) in E. rewrite length_drop in E.
      simpl in E. lia.
  - replace (length l - n)%nat with 0%nat by lia.
    replace (length l + 1 - n)%nat with 0%nat by lia. reflexivity.
Qed.

Lemma last_n_app_last_n n l k : last_n n (last_n n l ++ k) = last_n n (l ++ k).
Proof.
  unfold last_n at 1 3. rewrite !length_app, length_last_n.
  unfold last_n. rewrite <- drop_app_le by lia.
  rewrite drop_drop. f_equal. lia.
Qed.

End Deque.

Section History.
Context `{Platform}.

Lemma replay_frame st evs :
  let st' := foldl on_node_updated st evs in
  recent_messages st' = recent_messages st
  /\ message_stats st' = message_stats st
  /\ channels st' = channels st
  /\ interface st' = interface st.
Proof.
  induction evs as [|e evs IH] using rev_ind; simpl; [auto|].
  rewrite foldl_app. simpl.
  destruct (on_node_updated_frame (foldl on_node_updated st evs) e)
    as (Hi & _ & Hm & Hc & Hs & _).
  simpl in IH. destruct IH as (IHm & IHs & IHc & IHi).
  rewrite Hm, Hs, Hc, Hi. auto.
Qed.

Lemma update_node_data_frame st :
  let st' := update_node_data st in
  recent_messages st' = recent_messages st
  /\ message_stats st' = message_stats st
  /\ channels st' = channels st
  /\ interface st' = interface st.
Proof.
  unfold update_node_data.
  destruct (interface st) as [tr|] eqn:Ei; [|simpl; auto].
  destruct (t_nodes tr) as [l|]; simpl; [|auto].
  destruct (replay_frame st l) as (Hm & Hs & Hc & Hi). rewrite <- Ei. auto.
Qed.

Lemma update_channel_data_frame st :
  let st' := update_channel_data st in
  recent_messages st' = recent_messages st
  /\ message_stats st' = message_stats st
  /\ nodes st' = nodes st
  /\ interface st' = interface st.
Proof.
  unfold update_channel_data.
  destruct (interface st) as [tr|] eqn:Ei; [|simpl; auto].
  destruct (t_getMyNodeInfo tr) as [[|[chs|]]|e]; simpl;
    try (destruct (scan_channels 0 chs (channels st, 0)) as [c f]);
    simpl; auto.
Qed.

(** Only packet-received events touch the history and the counters. *)
Lemma handle_other_frame st ev :
  (forall now p, ev <> PacketReceived now p) ->
  recent_messages (handle st ev) = recent_messages st
  /\ message_stats (handle st ev) = message_stats st.
Proof.
  intros Hnp. destruct ev as [|now p|node]; simpl.
  - unfold on_connection.
    destruct (update_channel_data_frame (update_node_data st)) as (Hm & Hs & _).
    destruct (update_node_data_frame st) as (Hm' & Hs' & _).
    rewrite Hm, Hs. auto.
  - exfalso. eapply Hnp. reflexivity.
  - destruct (on_node_updated_frame st node) as (_ & _ & Hm & _ & Hs & _). auto.
Qed.

(** The history is always the last [MAX_RECENT_MESSAGES] of what it held
    followed by what was appended since. *)
Lemma history_is_last_n st evs :
  (length (recent_messages st) <= MAX_RECENT_MESSAGES)%nat ->
  recent_messages (process st evs)
  = last_n MAX_RECENT_MESSAGES (recent_messages st ++ appended st evs).
Proof.
  unfold process. revert st.
  induction evs as [|ev evs IH]; intros st Hlen.
  - simpl. rewrite app_nil_r. symmetry. apply last_n_short. exact Hlen.
  - cbn [foldl appended].
    destruct ev as [|now p|node].
    + destruct (handle_other_frame st ConnectionEstablished) as (Hm & _);
        [discriminate|].
      rewrite IH by (rewrite Hm; exact Hlen). rewrite Hm. reflexivity.
    + destruct (retained st now p) as [m|] eqn:Er.
      * assert (Hr : recent_messages (handle st (PacketReceived now p))
                     = last_n MAX_RECENT_MESSAGES (recent_messages st ++ [m])).
        { simpl. rewrite (on_receive_retained _ _ _ _ Er). simpl.
          rewrite <- deque_append_last_n.
          rewrite last_n_short by exact Hlen. reflexivity. }
        rewrite IH by (rewrite Hr, length_last_n; lia).
        rewrite Hr, last_n_app_last_n, <- app_assoc. reflexivity.
      * simpl. rewrite (on_receive_dropped _ _ _ Er). apply IH. exact Hlen.
    + destruct (handle_other_frame st (NodeUpdated node)) as (Hm & _);
        [discriminate|].
      rewrite IH by (rewrite Hm; exact Hlen). rewrite Hm. reflexivity.
Qed.

(** C2.  After any stream of events processed by a new daemon, the
    message history holds at most 10 messages and is exactly the last 10
    of the messages appended by packet-received events, in order of
    arrival; once more than 10 were appended it holds exactly 10, the
    older ones having left from the front. *)
Theorem C2_history_keeps_last_ten
    (dp url : option string) (iv : Z) (evs : list mesh_event) :
  let st0 := new_plugin dp url iv in
  let history := recent_messages (process st0 evs) in
  (length history <= 10)%nat
  /\ history = last_n 10 (appended st0 evs)
  /\ ((10 < length (appended st0 evs))%nat ->
      length history = 10%nat
      /\ history = drop (length (appended st0 evs) - 10) (appended st0 evs)).
Proof.
  cbv zeta.
  pose proof (history_is_last_n (new_plugin dp url iv) evs) as Hh.
  simpl in Hh. specialize (Hh ltac:(unfold MAX_RECENT_MESSAGES; lia)).
  unfold MAX_RECENT_MESSAGES in Hh. rewrite Hh.
  rewrite length_last_n. split; [lia|]. split; [reflexivity|].
  intros Hmore. split; [lia|reflexivity].
Qed.

End History.

(** ** Message statistics *)

Section Statistics.
Context `{Platform}.
Implicit Types (stats : gmap string Z) (k : string).

Lemma stats_incr_lookup stats k k' :
  default 0 (stats_incr stats k !! k')
  = default 0 (stats !! k') + (if decide (k = k') then 1 else 0).
Proof.
  unfold stats_incr. destruct (decide (k = k')) as [->|Hne].
  - rewrite lookup_insert_eq. simpl. reflexivity.
  - rewrite lookup_insert_ne by exact Hne. lia.
Qed.

Lemma sum_counts_insert (m : gmap string Z) k v :
  sum_counts (<[k := v]> m) = v + sum_counts (delete k m).
Proof.
  unfold sum_counts. rewrite <- insert_delete_eq.
  rewrite map_fold_insert_L.
  - reflexivity.
  - intros; lia.
  - apply lookup_delete_eq.
Qed.

Lemma sum_counts_split (m : gmap string Z) k :
  sum_counts m = default 0 (m !! k) + sum_counts (delete k m).
Proof.
  destruct (m !! k) as [v|] eqn:E; simpl.
  - rewrite <- (insert_id m k v E) at 1. apply sum_counts_insert.
  - rewrite delete_id by exact E. lia.
Qed.

(** Incrementing a sender's counter raises the per-sender sum by one,
    unless the sender's key is the one of the total. *)
Lemma sum_senders_incr stats k :
  k <> "total" ->
  sum_counts (sender_counts (stats_incr stats k))
  = sum_counts (sender_counts stats) + 1.
Proof.
  intros Hk. unfold sender_counts, stats_incr.
  rewrite delete_insert_ne by congruence.
  rewrite sum_counts_insert.
  rewrite (sum_counts_split (delete "total" stats) k).
  rewrite lookup_delete_ne by congruence. lia.
Qed.

Lemma sum_senders_incr_total stats :
  sum_counts (sender_counts (stats_incr stats "total"))
  = sum_counts (sender_counts stats).
Proof.
  unfold sender_counts, stats_incr. rewrite delete_insert_eq. reflexivity.
Qed.

(** No counter ever decreases. *)
Lemma counters_monotone st ev k :
  default 0 (message_stats st !! k) <= default 0 (message_stats (handle st ev) !! k).
Proof.
  destruct ev as [|now p|node].
  - destruct (handle_other_frame st ConnectionEstablished) as (_ & ->);
      [discriminate|lia].
  - simpl. destruct (retained st now p) as [m|] eqn:Er.
    + rewrite (on_receive_retained _ _ _ _ Er). simpl.
      rewrite !stats_incr_lookup.
      repeat destruct (decide _); lia.
    + rewrite (on_receive_dropped _ _ _ Er). lia.
  - destruct (handle_other_frame st (NodeUpdated node)) as (_ & ->);
      [discriminate|lia].
Qed.

(** A retained message whose sender identity is not the string "total"
    adds one to that sender's counter and one to the total, and keeps the
    total equal to the sum of the per-sender counters. *)
Lemma on_receive_counts st now p m :
  retained st now p = Some m ->
  py_str (packet_from_id p) <> "total" ->
  let stats := message_stats st in
  let stats' := message_stats (on_receive st now p) in
  total_count stats' = total_count stats + 1
  /\ default 0 (stats' !! py_str (packet_from_id p))
     = default 0 (stats !! py_str (packet_from_id p)) + 1
  /\ sum_counts (sender_counts stats') = sum_counts (sender_counts stats) + 1.
Proof.
  intros Er Hk. cbv zeta. rewrite (on_receive_retained _ _ _ _ Er). simpl.
  unfold total_count. rewrite !stats_incr_lookup.
  rewrite sum_senders_incr_total, sum_senders_incr by exact Hk.
  destruct (decide ("total" = "total")) as [_|N]; [|congruence].
  destruct (decide (py_str (packet_from_id p) = "total")); [contradiction|].
  destruct (decide ("total" = py_str (packet_from_id p))); [congruence|].
  destruct (decide (py_str (packet_from_id p) = py_str (packet_from_id p)));
    [|congruence].
  repeat split; lia.
Qed.

(** As long as no sender is called "total", the total counter is the sum
    of the per-sender counters. *)
Lemma total_is_sum_of_senders st evs :
  total_count (message_stats st) = sum_counts (sender_counts (message_stats st)) ->
  ~ In "total" (senders st evs) ->
  total_count (message_stats (process st evs))
  = sum_counts (sender_counts (message_stats (process st evs))).
Proof.
  unfold process. revert st.
  induction evs as [|ev evs IH]; intros st Hinv Hno; [exact Hinv|].
  cbn [foldl]. cbn [senders] in Hno.
  destruct ev as [|now p|node].
  - apply IH; [|exact Hno].
    destruct (handle_other_frame st ConnectionEstablished) as (_ & ->);
      [discriminate|exact Hinv].
  - destruct (retained st now p) as [m|] eqn:Er.
    + apply IH; [|intros Hin; apply Hno; now right].
      destruct (on_receive_counts st now p m Er) as (Ht & _ & Hs).
      { intros E. apply Hno. left. exact E. }
      simpl. rewrite Ht, Hs, Hinv. reflexivity.
    + apply IH; [|exact Hno]. simpl.
      rewrite (on_receive_dropped _ _ _ Er). exact Hinv.
  - apply IH; [|exact Hno].
    destruct (handle_other_frame st (NodeUpdated node)) as (_ & ->);
      [discriminate|exact Hinv].
Qed.

(** For a new daemon in particular. *)
Lemma total_is_sum_for_new_daemon dp url iv evs :
  ~ In "total" (senders (new_plugin dp url iv) evs) ->
  total_count (message_stats (process (new_plugin dp url iv) evs))
  = sum_counts (sender_counts (message_stats (process (new_plugin dp url iv) evs))).
Proof.
  apply total_is_sum_of_senders. simpl. unfold total_count, sender_counts, sum_counts.
  rewrite delete_empty, map_fold_empty, lookup_empty. reflexivity.
Qed.

End Statistics.

(** ** Sorting *)

Section Sorting.
Context {A : Type} (key : A -> string).

Lemma insert_desc_perm x (l : list A) : Permutation (insert_desc key x l) (x :: l).
Proof.
  induction l as [|y l IH]; simpl; [reflexivity|].
  destruct (String.ltb (key x) (key y)); [|reflexivity].
  rewrite IH. apply perm_swap.
Qed.

Lemma sort_reverse_perm (l : list A) : Permutation (sort_reverse key l) l.
Proof.
  induction l as [|x l IH]; simpl; [reflexivity|].
  rewrite insert_desc_perm. constructor. exact IH.
Qed.

Lemma sort_reverse_length (l : list A) : length (sort_reverse key l) = length l.
Proof. apply Permutation_length, sort_reverse_perm. Qed.

Lemma sort_reverse_In (l : list A) x : In x (sort_reverse key l) <-> In x l.
Proof.
  split; apply Permutation_in; [|symmetry]; apply sort_reverse_perm.
Qed.

Lemma ltb_asym (s1 s2 : string) : String.ltb s1 s2 = true -> String.ltb s2 s1 = false.
Proof.
  unfold String.ltb. rewrite (String.compare_antisym s2 s1).
  destruct (String.compare s1 s2); simpl; congruence.
Qed.

Lemma insert_desc_sorted x (l : list A) :
  Sorted (key_ge key) l -> Sorted (key_ge key) (insert_desc key x l).
Proof.
  induction l as [|y l IH]; simpl; intros Hs.
  - repeat constructor.
  - destruct (String.ltb (key x) (key y)) eqn:E.
    + inversion Hs as [|? ? Hs' Hhd]; subst. constructor; [apply IH; exact Hs'|].
      destruct l as [|z l]; simpl.
      * constructor. apply ltb_asym. exact E.
      * destruct (String.ltb (key x) (key z)).
        -- inversion Hhd; subst. constructor. assumption.
        -- constructor. apply ltb_asym. exact E.
    + constructor; [exact Hs|]. constructor. exact E.
Qed.

(** The result of the sort is in descending order of the keys. *)
Lemma sort_reverse_sorted (l : list A) : Sorted (key_ge key) (sort_reverse key l).
Proof.
  induction l as [|x l IH]; simpl; [constructor|].
  apply insert_desc_sorted. exact IH.
Qed.

End Sorting.

(** ** Online classifier *)

Section Classifier.
Context `{Platform}.

Lemma Qgtb_true a b : Qgtb a b = true <-> (b < a)%Q.
Proof.
  unfold Qgtb. rewrite negb_true_iff. split.
  - intros Hf. apply Qnot_le_lt. intros Hle.
    apply Qle_bool_iff in Hle. congruence.
  - intros Hlt. destruct (Qle_bool a b) eqn:E; [|reflexivity].
    apply Qle_bool_iff in E. exfalso. exact (Qlt_not_le _ _ Hlt E).
Qed.

Lemma is_online_iff now node :
  is_online now node = true <-> (threshold_timestamp now < n_lastHeard node)%Q.
Proof. unfold is_online. rewrite Qgtb_true. reflexivity. Qed.

Lemma online_record_converts item :
  representable (n_lastHeard (snd item)) = true ->
  online_record item = Ret (converted_record item).
Proof.
  intros Hr. unfold online_record, fromtimestamp. rewrite Hr. reflexivity.
Qed.

Lemma online_record_fails item :
  representable (n_lastHeard (snd item)) = false ->
  online_record item = Raise (conversion_error (n_lastHeard (snd item))).
Proof.
  intros Hr. unfold online_record, fromtimestamp. rewrite Hr. reflexivity.
Qed.

(** The loop returns when every online entry has a last-heard time that
    converts, with one record per online entry, in registry order. *)
Lemma collect_online_returns now items :
  (forall item, In item (online_items now items) ->
                representable (n_lastHeard (snd item)) = true) ->
  collect_online now items = Ret (map converted_record (online_items now items)).
Proof.
  unfold online_items.
  induction items as [|item rest IH]; intros Hall; [reflexivity|].
  cbn [collect_online List.filter] in *.
  destruct (is_online now (snd item)) eqn:Hon.
  - rewrite online_record_converts by (apply Hall; left; reflexivity).
    cbn [obind]. rewrite IH by (intros i Hi; apply Hall; right; exact Hi).
    reflexivity.
  - apply IH. exact Hall.
Qed.

(** The loop raises as soon as one online entry has a last-heard time that
    does not convert. *)
Lemma collect_online_raises now items item :
  In item (online_items now items) ->
  representable (n_lastHeard (snd item)) = false ->
  raises (collect_online now items).
Proof.
  unfold online_items.
  induction items as [|item' rest IH]; intros Hin Hr; [destruct Hin|].
  cbn [collect_online List.filter] in *.
  destruct (is_online now (snd item')) eqn:Hon.
  - destruct (representable (n_lastHeard (snd item'))) eqn:Hr'.
    + rewrite online_record_converts by exact Hr'. cbn [obind].
      destruct Hin as [->|Hin]; [congruence|].
      destruct (IH Hin Hr) as [e ->]. exists e. reflexivity.
    + rewrite online_record_fails by exact Hr'. eexists. reflexivity.
  - apply IH; assumption.
Qed.

Lemma collect_online_Ret now items l :
  collect_online now items = Ret l ->
  l = map converted_record (online_items now items)
  /\ forall item, In item (online_items now items) ->
                  representable (n_lastHeard (snd item)) = true.
Proof.
  intros Hret.
  assert (Hall : forall item, In item (online_items now items) ->
                   representable (n_lastHeard (snd item)) = true).
  { intros item Hin.
    destruct (representable (n_lastHeard (snd item))) eqn:Hr; [reflexivity|].
    destruct (collect_online_raises now items item Hin Hr) as [e He].
    rewrite He in Hret. discriminate. }
  split; [|exact Hall].
  rewrite (collect_online_returns now items Hall) in Hret.
  congruence.
Qed.

Lemma get_online_nodes_returns st now :
  (forall item, In item (online_items now (PyDict.items (nodes st))) ->
                representable (n_lastHeard (snd item)) = true) ->
  get_online_nodes st now
  = Ret (sort_reverse o_lastHeard
           (map converted_record (online_items now (PyDict.items (nodes st))))).
Proof.
  intros Hall. unfold get_online_nodes, online_unsorted.
  rewrite (collect_online_returns _ _ Hall). reflexivity.
Qed.

Lemma get_online_nodes_raises st now item :
  In item (online_items now (PyDict.items (nodes st))) ->
  representable (n_lastHeard (snd item)) = false ->
  raises (get_online_nodes st now).
Proof.
  intros Hin Hr. unfold get_online_nodes, online_unsorted.
  destruct (collect_online_raises _ _ item Hin Hr) as [e ->].
  exists e. reflexivity.
Qed.

Lemma get_online_nodes_Ret st now l :
  get_online_nodes st now = Ret l ->
  l = sort_reverse o_lastHeard
        (map converted_record (online_items now (PyDict.items (nodes st))))
  /\ forall item, In item (online_items now (PyDict.items (nodes st))) ->
                  representable (n_lastHeard (snd item)) = true.
Proof.
  unfold get_online_nodes, online_unsorted. intros Hret.
  destruct (collect_online now (PyDict.items (nodes st))) as [l0|e] eqn:E;
    [|discriminate].
  apply collect_online_Ret in E. destruct E as [-> Hall].
  cbn [obind] in Hret. split; [congruence|exact Hall].
Qed.

(** The classifier returns when every online entry has a last-heard time
    that converts, and raises otherwise. *)
Lemma get_online_nodes_total st now :
  (exists l, get_online_nodes st now = Ret l)
  \/ raises (get_online_nodes st now).
Proof.
  destruct (forallb (fun item => representable (n_lastHeard (snd item)))
                    (online_items now (PyDict.items (nodes st)))) eqn:E.
  - left. eexists. apply get_online_nodes_returns.
    intros item Hin. rewrite forallb_forall in E. apply E. exact Hin.
  - right.
    assert (Hex : exists item,
               In item (online_items now (PyDict.items (nodes st)))
               /\ representable (n_lastHeard (snd item)) = false).
    { clear -E. induction (online_items now (PyDict.items (nodes st)))
        as [|i l IH]; [discriminate|].
      cbn [forallb] in E. apply andb_false_iff in E. destruct E as [E|E].
      - exists i. split; [left; reflexivity|exact E].
      - destruct (IH E) as [j [Hj Hr]]. exists j. split; [right; exact Hj|exact Hr]. }
    destruct Hex as [item [Hin Hr]].
    exact (get_online_nodes_raises st now item Hin Hr).
Qed.

Lemma get_online_nodes_In st now l o :
  get_online_nodes st now = Ret l ->
  In o l
  <-> exists k node, In (k, node) (PyDict.items (nodes st))
                     /\ is_online now node = true
                     /\ o = converted_record (k, node).
Proof.
  intros Hret. apply get_online_nodes_Ret in Hret. destruct Hret as [-> _].
  rewrite sort_reverse_In, in_map_iff. unfold online_items. split.
  - intros [[k node] [Ho Hin]]. apply filter_In in Hin. destruct Hin as [Hin Hon].
    exists k, node. auto.
  - intros (k & node & Hin & Hon & ->). exists (k, node). split; [reflexivity|].
    apply filter_In. auto.
Qed.

(** A returned list holds one record per online node. *)
Lemma get_online_nodes_length st now l :
  get_online_nodes st now = Ret l ->
  length l = length (online_items now (PyDict.items (nodes st))).
Proof.
  intros Hret. apply get_online_nodes_Ret in Hret. destruct Hret as [-> _].
  rewrite sort_reverse_length, length_map. reflexivity.
Qed.

(** A returned list is in descending order of the formatted last-heard
    strings. *)
Lemma get_online_nodes_sorted_by_label st now l :
  get_online_nodes st now = Ret l ->
  Sorted (key_ge o_lastHeard) l.
Proof.
  intros Hret. apply get_online_nodes_Ret in Hret. destruct Hret as [-> _].
  apply sort_reverse_sorted.
Qed.

(** Whenever the classifier returns, its records are exactly the display
    records of the registry entries whose last-heard time is strictly
    greater than the time stamp that the platform gives for the wall clock
    moved back by 30 minutes. *)
Lemma online_iff_after_platform_threshold (st : plugin) (now : Q) l :
  get_online_nodes st now = Ret l ->
  forall o, In o l
            <-> exists k node, In (k, node) (PyDict.items (nodes st))
                               /\ (minutes_before 30 now < n_lastHeard node)%Q
                               /\ o = converted_record (k, node).
Proof.
  intros Hret o. rewrite (get_online_nodes_In st now l o Hret).
  split; intros (k & node & Hin & Hon & Ho); exists k, node;
    (split; [exact Hin|split; [|exact Ho]]); apply is_online_iff; exact Hon.
Qed.

End Classifier.

(** ** Sync client *)

Section Publish.
Context `{Platform}.

Lemma status_ok_iff (code : Z) :
  existsb (Z.eqb code) [200; 201] = true <-> code = 200 \/ code = 201.
Proof.
  simpl. rewrite !orb_true_iff, !Z.eqb_eq. intuition discriminate.
Qed.

(** C6.  Whatever building the snapshot and the POST do, [send_to_byos]
    returns a boolean: [true] exactly when the snapshot is built and the
    POST of it returns a response with status 200 or 201; [false] when the
    POST returns any other status; [false] when the POST raises
    (connection failure, timeout), the exception raised inside the [try]
    block being absorbed by the handler; and [false] as well, whatever the
    sink would answer, when building the snapshot raises inside the [try]
    block, so that no POST is made. *)
Theorem C6_publish_returns_boolean
    (st : plugin) (clk : clock_readings)
    (post : string -> display_data -> outcome response) :
  let url := (byos_url st ++ "/api/screen")%string in
  (send_to_byos st clk post = true
   <-> exists data r, prepare_display_data st clk = Ret data
                      /\ post url data = Ret r
                      /\ (status_code r = 200 \/ status_code r = 201))
  /\ (forall data r, prepare_display_data st clk = Ret data ->
        post url data = Ret r ->
        status_code r <> 200 -> status_code r <> 201 ->
        send_to_byos st clk post = false)
  /\ (forall data e, prepare_display_data st clk = Ret data ->
        post url data = Raise e ->
        send_to_byos_try st clk post = Raise e
        /\ send_to_byos st clk post = false)
  /\ (forall e, prepare_display_data st clk = Raise e ->
        send_to_byos_try st clk post = Raise e
        /\ send_to_byos st clk post = false)
  /\ (send_to_byos st clk post = true \/ send_to_byos st clk post = false).
Proof.
  cbv zeta. unfold send_to_byos, send_to_byos_try.
  destruct (prepare_display_data st clk) as [data|e0] eqn:Ed;
    cbn [obind try_except].
  - destruct (post _ data) as [r|e] eqn:Ep; cbn [obind try_except].
    + destruct (existsb (Z.eqb (status_code r)) [200; 201]) eqn:Es;
        cbn [obind try_except].
      * apply status_ok_iff in Es. split; [|split; [|split; [|split]]].
        -- split; [|reflexivity]. intros _. exists data, r. auto.
        -- intros data' r' Hd Hp N1 N2. injection Hd as <-.
           rewrite Ep in Hp. injection Hp as <-. destruct Es; contradiction.
        -- intros data' e Hd Hp. injection Hd as <-.
           rewrite Ep in Hp. discriminate.
        -- intros e Hd. discriminate.
        -- left. reflexivity.
      * split; [|split; [|split; [|split]]].
        -- split; [discriminate|]. intros (data' & r' & Hd & Hp & Hc).
           injection Hd as <-. rewrite Ep in Hp. injection Hp as <-.
           apply status_ok_iff in Hc. congruence.
        -- reflexivity.
        -- intros data' e Hd Hp. injection Hd as <-.
           rewrite Ep in Hp. discriminate.
        -- intros e Hd. discriminate.
        -- right. reflexivity.
    + split; [|split; [|split; [|split]]].
      * split; [discriminate|]. intros (data' & r' & Hd & Hp & _).
        injection Hd as <-. rewrite Ep in Hp. discriminate.
      * reflexivity.
      * intros data' e' Hd Hp. injection Hd as <-.
        rewrite Ep in Hp. injection Hp as <-. auto.
      * intros e' Hd. discriminate.
      * right. reflexivity.
  - split; [|split; [|split; [|split]]].
    + split; [discriminate|]. intros (data' & r' & Hd & _). discriminate.
    + intros data r Hd. discriminate.
    + intros data e Hd. discriminate.
    + intros e Hd. injection Hd as <-. auto.
    + right. reflexivity.
Qed.

End Publish.

(** ** Connection lifecycle *)

Section Lifecycle.
Context `{Platform}.

Lemma connect_cases st open :
  (exists tr, connect st open = (set_interface st (Some tr), true))
  \/ connect st open = (st, false).
Proof.
  unfold connect.
  destruct (device_path st) as [path|]; [destruct (str_truthy path)|];
    match goal with |- context [open ?d] => destruct (open d) as [tr|e] end;
    simpl; eauto.
Qed.

Lemma connect_fails st open :
  (forall dev, raises (open dev)) -> connect st open = (st, false).
Proof.
  intros Hr. unfold connect.
  destruct (device_path st) as [path|]; [destruct (str_truthy path)|];
    match goal with |- context [open ?d] => destruct (Hr d) as [e ->] end;
    reflexivity.
Qed.

Lemma count_connects_app tr1 tr2 :
  count_connects (tr1 ++ tr2) = (count_connects tr1 + count_connects tr2)%nat.
Proof. unfold count_connects. rewrite List.filter_app, length_app. reflexivity. Qed.

Lemma count_connects_connect tr ok rest :
  count_connects (tr ++ EvConnect ok :: rest)
  = S (count_connects tr + count_connects rest)%nat.
Proof. rewrite count_connects_app. unfold count_connects. simpl. lia. Qed.

Lemma count_connects_cycle tr ok :
  count_connects (tr ++ [EvRefreshNodes; EvPublish ok; EvIntervalSleep])
  = count_connects tr.
Proof. rewrite count_connects_app. unfold count_connects. simpl. lia. Qed.

Lemma count_connects_backoff secs : count_connects [EvBackoff secs] = 0%nat.
Proof. reflexivity. Qed.

Lemma count_connects_nil : count_connects [] = 0%nat.
Proof. reflexivity. Qed.

Lemma deliver_signal_interface w i st :
  interface (deliver_signal w i st) = interface st.
Proof. unfold deliver_signal. destruct (w_signal w i); reflexivity. Qed.

(** The refresh-publish-sleep part never exits the loop, leaves the
    connection and the counter alone, and calls [connect()] not at all. *)
Lemma cycle_spec w s st attempts connects trace :
  exists s', cycle w s st attempts connects trace = Continue s'
    /\ interface (ls_plugin s') = interface st
    /\ reconnect_attempts s' = attempts
    /\ ls_connects s' = connects
    /\ count_connects (ls_trace s') = count_connects trace.
Proof.
  unfold cycle. eexists. split; [reflexivity|]. simpl.
  rewrite deliver_signal_interface.
  destruct (update_node_data_frame st) as (_ & _ & _ & Hi).
  rewrite count_connects_cycle. repeat split; auto.
Qed.

(** A failed [connect()] while disconnected: the counter goes up by one,
    and the loop is left when it reaches the maximum. *)
Lemma loop_body_failure w s :
  interface (ls_plugin s) = None ->
  (forall dev, raises (w_open w (ls_connects s) dev)) ->
  exists s',
    loop_body w s
    = (if reconnect_attempts s + 1 >=? MAX_RECONNECT_ATTEMPTS
       then Break s' else Continue s')
    /\ interface (ls_plugin s') = None
    /\ reconnect_attempts s' = reconnect_attempts s + 1
    /\ ls_connects s' = S (ls_connects s)
    /\ count_connects (ls_trace s') = S (count_connects (ls_trace s))
    /\ ls_iteration s' = S (ls_iteration s)
    /\ (w_signal w (ls_iteration s) = false ->
        running (ls_plugin s') = running (ls_plugin s)).
Proof.
  intros Hi Hr. unfold loop_body. rewrite Hi.
  rewrite (connect_fails _ _ Hr).
  destruct (reconnect_attempts s + 1 >=? MAX_RECONNECT_ATTEMPTS);
    eexists; (split; [reflexivity|]); simpl;
    rewrite ?deliver_signal_interface, count_connects_connect,
      ?count_connects_backoff, ?count_connects_nil;
    repeat split; auto; try lia.
  unfold deliver_signal. intros ->. reflexivity.
Qed.

(** A successful [connect()] resets the counter; the loop goes on. *)
Lemma loop_body_success w s st' :
  interface (ls_plugin s) = None ->
  connect (ls_plugin s) (w_open w (ls_connects s)) = (st', true) ->
  exists s',
    loop_body w s = Continue s'
    /\ reconnect_attempts s' = 0
    /\ interface (ls_plugin s') = interface st'
    /\ ls_connects s' = S (ls_connects s)
    /\ count_connects (ls_trace s') = S (count_connects (ls_trace s)).
Proof.
  intros Hi Hc. unfold loop_body. rewrite Hi, Hc.
  destruct (cycle_spec w s st' 0 (S (ls_connects s)) (ls_trace s ++ [EvConnect true]))
    as (s' & -> & Hi' & Ha & Hn & Ht).
  exists s'. rewrite count_connects_connect, count_connects_nil in Ht.
  repeat split; auto. lia.
Qed.

Lemma loop_body_invariant w s :
  loop_invariant s ->
  match loop_body w s with
  | Continue s' => loop_invariant s'
  | Break s' =>
      count_connects (ls_trace s') = ls_connects s'
      /\ (ls_connects s' <= 5)%nat
      /\ reconnect_attempts s' = MAX_RECONNECT_ATTEMPTS
  end.
Proof.
  unfold loop_invariant, MAX_RECONNECT_ATTEMPTS. intros [Htr Hinv].
  destruct (interface (ls_plugin s)) as [tr|] eqn:Hi.
  - unfold loop_body. rewrite Hi.
    destruct (cycle_spec w s (ls_plugin s) (reconnect_attempts s)
                (ls_connects s) (ls_trace s)) as (s' & -> & Hi' & Ha & Hn & Ht).
    rewrite Hi', Hi, Ha, Hn, Ht. auto.
  - destruct Hinv as [Hatt Hlt].
    destruct (connect_cases (ls_plugin s) (w_open w (ls_connects s)))
      as [[tr Hc]|Hc].
    + destruct (loop_body_success w s _ Hi Hc) as (s' & -> & Ha & Hi' & Hn & Ht).
      rewrite Hi', Ha, Hn, Ht. simpl. split; [lia|]. split; [reflexivity|lia].
    + unfold loop_body. rewrite Hi, Hc. unfold MAX_RECONNECT_ATTEMPTS.
      destruct (Z.geb_spec (reconnect_attempts s + 1) 5) as [Hge|Hlt'];
        simpl; rewrite ?deliver_signal_interface, ?Hi, count_connects_connect,
          ?count_connects_backoff, ?count_connects_nil.
      * repeat split; lia.
      * repeat split; lia.
Qed.

Lemma shut_down_counts s :
  ls_connects (shut_down s) = ls_connects s
  /\ count_connects (ls_trace (shut_down s)) = count_connects (ls_trace s)
  /\ reconnect_attempts (shut_down s) = reconnect_attempts s
  /\ running (ls_plugin (shut_down s)) = false
  /\ interface (ls_plugin (shut_down s)) = interface (ls_plugin s).
Proof.
  unfold shut_down. simpl.
  destruct (interface (ls_plugin s)); repeat split; try reflexivity.
  rewrite count_connects_app. unfold count_connects. simpl. lia.
Qed.

(** However the world behaves and however long the loop runs, it calls
    [connect()] at most [MAX_RECONNECT_ATTEMPTS] times. *)
Lemma never_a_sixth_connect w fuel s :
  loop_invariant s ->
  let s' := final (while_running fuel w s) in
  count_connects (ls_trace s') = ls_connects s' /\ (ls_connects s' <= 5)%nat.
Proof.
  revert s. induction fuel as [|fuel IH]; intros s Hinv;
    cbv zeta; cbn [while_running].
  - cbn [final]. destruct Hinv as [Htr Hinv]. split; [exact Htr|].
    unfold MAX_RECONNECT_ATTEMPTS in Hinv.
    destruct (interface (ls_plugin s)); lia.
  - destruct (running (ls_plugin s)).
    + pose proof (loop_body_invariant w s Hinv) as Hb.
      destruct (loop_body w s) as [s'|s'].
      * apply IH. exact Hb.
      * cbn [final]. destruct (shut_down_counts s') as (-> & -> & _). tauto.
    + cbn [final]. destruct (shut_down_counts s) as (-> & -> & _).
      destruct Hinv as [Htr Hinv]. split; [exact Htr|].
      unfold MAX_RECONNECT_ATTEMPTS in Hinv.
      destruct (interface (ls_plugin s)); lia.
Qed.

Lemma loop_start_invariant st :
  interface st = None -> loop_invariant (loop_start st).
Proof.
  intros Hi. unfold loop_invariant, loop_start. simpl. rewrite Hi.
  unfold MAX_RECONNECT_ATTEMPTS. repeat split; lia.
Qed.

(** With [n] failures still to come before the maximum, the loop stops
    within [n] tests of its condition. *)
Lemma failures_stop_the_loop w (n : nat) : forall fuel s,
  interface (ls_plugin s) = None ->
  reconnect_attempts s = MAX_RECONNECT_ATTEMPTS - Z.of_nat n ->
  (0 < n)%nat ->
  (forall k dev, (ls_connects s <= k < ls_connects s + n)%nat ->
                 raises (w_open w k dev)) ->
  (n <= fuel)%nat ->
  exists s', while_running fuel w s = Stopped s'
    /\ (ls_connects s' <= ls_connects s + n)%nat
    /\ interface (ls_plugin s') = None
    /\ running (ls_plugin s') = false
    /\ ((forall i, (ls_iteration s <= i)%nat -> w_signal w i = false) ->
        running (ls_plugin s) = true ->
        ls_connects s' = (ls_connects s + n)%nat
        /\ reconnect_attempts s' = MAX_RECONNECT_ATTEMPTS).
Proof.
  induction n as [|n IH]; intros fuel s Hi Hatt Hpos Hfail Hfuel; [lia|].
  destruct fuel as [|fuel]; [lia|]. cbn [while_running].
  destruct (running (ls_plugin s)) eqn:Hrun.
  - destruct (loop_body_failure w s Hi)
      as (s1 & Hb & Hi1 & Ha1 & Hc1 & _ & Hit1 & Hrun1).
    { intros dev. apply Hfail. lia. }
    rewrite Hb. unfold MAX_RECONNECT_ATTEMPTS in *.
    destruct (Z.geb_spec (reconnect_attempts s + 1) 5) as [Hge|Hlt].
    + exists (shut_down s1). split; [reflexivity|].
      destruct (shut_down_counts s1) as (Hc & _ & Ha & Hr & Hi2).
      rewrite Hc, Hi2, Hr, Ha, Hc1, Hi1, Ha1.
      repeat split; try reflexivity; lia.
    + destruct (IH fuel s1) as (s' & Hw & Hle & Hi' & Hrun' & Hfull);
        [exact Hi1|lia|lia| |lia|].
      { intros k dev Hk. apply Hfail. lia. }
      exists s'. split; [exact Hw|]. rewrite Hc1 in Hle.
      split; [lia|]. split; [exact Hi'|]. split; [exact Hrun'|].
      intros Hsig _. destruct Hfull as [Hc Ha].
      * intros i Hle'. apply Hsig. lia.
      * rewrite Hrun1 by (apply Hsig; lia). exact Hrun.
      * split; [lia|exact Ha].
  - exists (shut_down s). split; [reflexivity|].
    destruct (shut_down_counts s) as (Hc & _ & _ & Hr & Hi2).
    rewrite Hc, Hi2, Hr. split; [lia|]. split; [exact Hi|].
    split; [reflexivity|]. intros _ [=].
Qed.

End Lifecycle.

(** ** Channel registry *)

Section Channels.
Import PyDict PyDictFacts.

Lemma update_cons {K V} `{EqDecision K} (d : PyDict.t K V) k v l :
  update d ((k, v) :: l) = update (set d k v) l.
Proof. reflexivity. Qed.

Lemma get_update {K V} `{EqDecision K} (l : list (K * V)) : forall (d : PyDict.t K V) k,
  List.NoDup (keys l) ->
  get (update d l) k = match get l k with
                       | Some v => Some v
                       | None => get d k
                       end.
Proof.
  induction l as [|[k0 v0] l IH]; intros d k Hnd; [reflexivity|].
  rewrite update_cons. simpl in Hnd. inversion Hnd as [|? ? Hnotin Hnd']; subst.
  rewrite IH by exact Hnd'. simpl.
  destruct (decide (k0 = k)) as [->|Hne].
  - apply get_None_not_in_keys in Hnotin. rewrite Hnotin. apply get_set_eq.
  - destruct (get l k); [reflexivity|]. apply get_set_ne. exact Hne.
Qed.

Lemma update_fresh {K V} `{EqDecision K} (l : list (K * V)) : forall (d : PyDict.t K V),
  List.NoDup (keys d ++ keys l) -> update d l = d ++ l.
Proof.
  induction l as [|[k0 v0] l IH]; intros d Hnd.
  - simpl. rewrite app_nil_r. reflexivity.
  - rewrite update_cons. simpl in Hnd.
    assert (Hk0 : ~ In k0 (keys d)).
    { apply NoDup_remove_2 in Hnd. intros Hin. apply Hnd.
      apply in_or_app. now left. }
    rewrite set_fresh by exact Hk0. rewrite IH.
    + rewrite <- app_assoc. reflexivity.
    + unfold keys in *. rewrite map_app, <- app_assoc. simpl. exact Hnd.
Qed.

Lemma update_nonempty {K V} `{EqDecision K} (l : list (K * V)) : forall (d : PyDict.t K V),
  d <> [] -> update d l <> [].
Proof.
  induction l as [|[k0 v0] l IH]; intros d Hne; [exact Hne|].
  rewrite update_cons. apply IH. apply set_nonempty.
Qed.

Lemma named_channels_keys i chs k :
  In k (keys (named_channels i chs)) -> (i <= k)%nat.
Proof.
  revert i. induction chs as [|ch chs IH]; intros i; simpl; [intros []|].
  destruct (named_channel i ch); simpl.
  - intros [->|Hin]; [lia|]. apply IH in Hin. lia.
  - intros Hin. apply IH in Hin. lia.
Qed.

Lemma named_channels_NoDup i chs : List.NoDup (keys (named_channels i chs)).
Proof.
  revert i. induction chs as [|ch chs IH]; intros i; simpl; [constructor|].
  destruct (named_channel i ch); simpl; [|apply IH].
  constructor; [|apply IH]. intros Hin. apply named_channels_keys in Hin. lia.
Qed.

Lemma reported_channels_NoDup tr : List.NoDup (keys (reported_channels tr)).
Proof.
  unfold reported_channels.
  destruct (t_getMyNodeInfo tr) as [[|[chs|]]|e]; try constructor.
  apply named_channels_NoDup.
Qed.

(** The loop over the channels writes the named ones in turn and counts
    them. *)
Lemma scan_channels_spec chs : forall i d n,
  scan_channels i chs (d, n)
  = (update d (named_channels i chs),
     n + Z.of_nat (length (named_channels i chs))).
Proof.
  induction chs as [|ch chs IH]; intros i d n; cbn [scan_channels named_channels].
  - cbn [length]. f_equal. lia.
  - destruct (named_channel i ch) as [c|]; cbn [fst snd]; rewrite IH.
    + rewrite update_cons. cbn [length]. f_equal. lia.
    + reflexivity.
Qed.

(** The registry after a refresh: the reported named channels written
    over the old registry, and the default written at index 0 when none
    was reported. *)
Lemma update_channel_data_channels st tr :
  interface st = Some tr ->
  channels (update_channel_data st)
  = match reported_channels tr with
    | [] => set (channels st) 0%nat default_channel
    | l => update (channels st) l
    end.
Proof.
  intros Hi. unfold update_channel_data, reported_channels. rewrite Hi.
  destruct (t_getMyNodeInfo tr) as [[|[chs|]]|e]; simpl; try reflexivity.
  rewrite scan_channels_spec. simpl.
  destruct (named_channels 0 chs) as [|kc l] eqn:E; simpl; [reflexivity|].
  destruct (Z.eqb_spec (0 + Z.of_nat (S (length l))) 0) as [Hz|_]; [lia|].
  reflexivity.
Qed.

End Channels.

Section ChannelRefresh.
Import PyDict PyDictFacts.

(** C8 (as amended).  A refresh on a connected daemon writes every
    reported channel that has settings and a non-blank name into the
    registry under its index, and leaves entries under other indices as
    they were; when no such channel is reported it writes the synthetic
    default (index 0, name "Default", primary) under index 0.  The
    registry is never empty afterwards.  If the registry was empty before,
    it afterwards holds exactly the reported named channels, or the
    default alone. *)
Theorem C8_refresh_writes_reported_channels (st : plugin) (tr : transport) :
  interface st = Some tr ->
  let before := channels st in
  let after := channels (update_channel_data st) in
  let reported := reported_channels tr in
  (forall i, get after i
             = match get reported i with
               | Some c => Some c
               | None => match reported, i with
                         | [], O => Some default_channel
                         | _, _ => get before i
                         end
               end)
  /\ after <> []
  /\ (before = [] -> after = replaced_registry tr).
Proof.
  intros Hi. cbv zeta. rewrite (update_channel_data_channels st tr Hi).
  unfold replaced_registry.
  pose proof (reported_channels_NoDup tr) as Hnd.
  destruct (reported_channels tr) as [|[k c] l] eqn:E.
  - split; [|split].
    + intros [|i]; simpl.
      * apply get_set_eq.
      * apply get_set_ne. discriminate.
    + apply set_nonempty.
    + intros ->. reflexivity.
  - split; [|split].
    + intros i. rewrite get_update by exact Hnd.
      destruct (get ((k, c) :: l) i); [reflexivity|].
      destruct i; reflexivity.
    + rewrite update_cons. apply update_nonempty, set_nonempty.
    + intros ->. apply update_fresh. exact Hnd.
Qed.

End ChannelRefresh.

(** ** Snapshot builder *)

Section Snapshot.
Context `{Platform}.

Lemma get_message_summary_recent st :
  s_recent (get_message_summary st) = firstn 10 (rev (recent_messages st)).
Proof.
  unfold get_message_summary. destruct (recent_messages st); reflexivity.
Qed.

(** The statistics are built exactly when the nested classifier call
    returns, and then report the length of its list. *)
Lemma get_network_stats_Ret st now_online now_update stats :
  get_network_stats st now_online now_update = Ret stats
  <-> exists counted,
        get_online_nodes st now_online = Ret counted
        /\ stats = {| ns_total_nodes := PyDict.len (nodes st);
                      ns_online_nodes := length counted;
                      ns_channels := PyDict.len (channels st);
                      ns_last_update := strftime_HMS now_update |}.
Proof.
  unfold get_network_stats.
  destruct (get_online_nodes st now_online) as [counted|e]; cbn [obind].
  - split.
    + intros [= <-]. exists counted. auto.
    + intros (c & [= <-] & ->). reflexivity.
  - split; [discriminate|]. intros (c & Hc & _). discriminate.
Qed.

(** The number the statistics report is the number of registry entries
    that pass the online test. *)
Lemma network_stats_online st now_online now_update stats :
  get_network_stats st now_online now_update = Ret stats ->
  ns_online_nodes stats
  = length (online_items now_online (PyDict.items (nodes st))).
Proof.
  intros Hs. apply get_network_stats_Ret in Hs.
  destruct Hs as (counted & Hc & ->). cbn [ns_online_nodes].
  apply (get_online_nodes_length st now_online counted Hc).
Qed.

(** The snapshot is built exactly when both classifier calls return, and
    then holds these fields. *)
Lemma prepare_display_data_Ret st clk d :
  prepare_display_data st clk = Ret d
  <-> exists shown counted,
        get_online_nodes st (now_classify clk) = Ret shown
        /\ get_online_nodes st (now_stats clk) = Ret counted
        /\ d = {| d_network_stats :=
                    {| ns_total_nodes := PyDict.len (nodes st);
                       ns_online_nodes := length counted;
                       ns_channels := PyDict.len (channels st);
                       ns_last_update := strftime_HMS (now_last_update clk) |};
                  d_online_nodes := firstn 12 shown;
                  d_recent_messages := firstn 10 (s_recent (get_message_summary st));
                  d_message_stats_total := s_total (get_message_summary st);
                  d_channels := firstn 6 (PyDict.values (channels st));
                  d_status := match interface st with
                              | Some _ => "connected"
                              | None => "disconnected"
                              end;
                  d_timestamp := isoformat (now_publish clk);
                  d_device_info := {| di_platform := "Raspberry Pi";
                                      di_meshtastic_device := "Heltec v3" |} |}.
Proof.
  unfold prepare_display_data, get_network_stats.
  destruct (get_online_nodes st (now_classify clk)) as [shown|e]; cbn [obind].
  - destruct (get_online_nodes st (now_stats clk)) as [counted|e]; cbn [obind].
    + split.
      * intros [= <-]. exists shown, counted. auto.
      * intros (s & c & [= <-] & [= <-] & ->). reflexivity.
    + split; [discriminate|]. intros (s & c & _ & Hc & _). discriminate.
  - split; [discriminate|]. intros (s & c & Hs & _). discriminate.
Qed.

(** The snapshot is built when every online entry, at either reading of
    the clock, has a last-heard time that converts. *)
Lemma prepare_display_data_returns st clk :
  (forall item, In item (online_items (now_classify clk) (PyDict.items (nodes st))) ->
                representable (n_lastHeard (snd item)) = true) ->
  (forall item, In item (online_items (now_stats clk) (PyDict.items (nodes st))) ->
                representable (n_lastHeard (snd item)) = true) ->
  exists d, prepare_display_data st clk = Ret d.
Proof.
  intros H1 H2. eexists. apply prepare_display_data_Ret.
  eexists _, _. split; [apply get_online_nodes_returns; exact H1|].
  split; [apply get_online_nodes_returns; exact H2|]. reflexivity.
Qed.

Lemma online_items_all now items :
  Forall (fun item => is_online now (snd item) = true) items ->
  online_items now items = items.
Proof.
  unfold online_items. induction 1 as [|item rest Hon _ IH]; [reflexivity|].
  cbn [List.filter]. rewrite Hon, IH. reflexivity.
Qed.

End Snapshot.

Section SnapshotCaps.
Context `{Platform}.

(** C9.  In every state, a built snapshot's online_nodes is the first 12
    of the list the classifier returned, recent_messages the first 10 of
    the history read newest first, channels the first 6 of the channel
    registry's values; total_nodes is the size of the node registry and
    the online_nodes statistic is the length of the whole list that the
    classifier returned for the statistics, that is, the number of
    registry entries that are online.  Whenever some time stamp converts
    and is above the threshold of some clock reading, there is a state
    whose snapshot is built with that count at 13 while the list shows
    12. *)
Theorem C9_snapshot_is_capped :
  (forall (st : plugin) (clk : clock_readings) (d : display_data),
     prepare_display_data st clk = Ret d ->
     exists shown counted,
       get_online_nodes st (now_classify clk) = Ret shown
       /\ get_online_nodes st (now_stats clk) = Ret counted
       /\ d_online_nodes d = firstn 12 shown
       /\ (length (d_online_nodes d) <= 12)%nat
       /\ d_recent_messages d = firstn 10 (rev (recent_messages st))
       /\ (length (d_recent_messages d) <= 10)%nat
       /\ d_channels d = firstn 6 (PyDict.values (channels st))
       /\ (length (d_channels d) <= 6)%nat
       /\ ns_total_nodes (d_network_stats d) = length (nodes st)
       /\ ns_online_nodes (d_network_stats d) = length counted
       /\ ns_online_nodes (d_network_stats d)
          = length (List.filter (fun item => is_online (now_stats clk) (snd item))
                                (PyDict.items (nodes st))))
  /\ (forall (now t : Q),
        representable t = true -> (threshold_timestamp now < t)%Q ->
        exists (st : plugin) (clk : clock_readings) (d : display_data),
          prepare_display_data st clk = Ret d
          /\ ns_online_nodes (d_network_stats d) = 13%nat
          /\ length (d_online_nodes d) = 12%nat).
Proof.
  split.
  - intros st clk d Hd. apply prepare_display_data_Ret in Hd.
    destruct Hd as (shown & counted & Hs & Hc & ->).
    exists shown, counted.
    cbn [d_online_nodes d_recent_messages d_channels d_network_stats
         ns_total_nodes ns_online_nodes].
    rewrite get_message_summary_recent, take_take, Nat.min_id.
    rewrite !length_take.
    repeat split; try assumption; try lia.
    apply (get_online_nodes_length st (now_stats clk) counted Hc).
  - intros now t Hr Hlt.
    set (st := process Samples.daemon (Samples.thirteen_heard_at t)).
    assert (Hitems : online_items now (PyDict.items (nodes st))
                     = PyDict.items (nodes st)).
    { apply online_items_all. vm_compute PyDict.items.
      repeat constructor; apply is_online_iff; exact Hlt. }
    assert (Hret : get_online_nodes st now
                   = Ret (sort_reverse o_lastHeard
                            (map converted_record (PyDict.items (nodes st))))).
    { rewrite get_online_nodes_returns; rewrite Hitems; [reflexivity|].
      vm_compute PyDict.items.
      intros item Hin. repeat (destruct Hin as [<-|Hin]; [exact Hr|]).
      destruct Hin. }
    exists st, (Samples.clock_at now). eexists. split.
    + apply prepare_display_data_Ret. eexists _, _.
      split; [exact Hret|]. split; [exact Hret|]. reflexivity.
    + cbn [d_online_nodes d_network_stats ns_online_nodes].
      rewrite length_take, sort_reverse_length, length_map.
      split; reflexivity.
Qed.

End SnapshotCaps.

Section MainLoop.
Context `{Platform}.

(** C7.  For a daemon that starts disconnected: if the first five
    [connect()] calls fail, the loop stops within five tests of its
    condition, having called [connect()] at most five times, and exactly
    five times with the counter at 5 when no signal arrives; in every run,
    of any length and against any world, [connect()] is called at most
    five times; and a successful [connect()] sets the counter of
    consecutive failures to zero and keeps the loop going. *)
Theorem C7_five_failed_connects_stop_the_loop (w : world) (st : plugin) :
  interface st = None ->
  ((forall k dev, (k < 5)%nat -> raises (w_open w k dev)) ->
   forall fuel, (5 <= fuel)%nat ->
   exists s, run_update_loop fuel w st = Stopped s
     /\ (ls_connects s <= 5)%nat
     /\ count_connects (ls_trace s) = ls_connects s
     /\ running (ls_plugin s) = false
     /\ ((forall i, w_signal w i = false) ->
         ls_connects s = 5%nat /\ reconnect_attempts s = 5))
  /\ (forall fuel,
        let s := final (run_update_loop fuel w st) in
        count_connects (ls_trace s) = ls_connects s /\ (ls_connects s <= 5)%nat)
  /\ (forall s st',
        interface (ls_plugin s) = None ->
        connect (ls_plugin s) (w_open w (ls_connects s)) = (st', true) ->
        exists s', loop_body w s = Continue s' /\ reconnect_attempts s' = 0).
Proof.
  intros Hi. split; [|split].
  - intros Hfail fuel Hfuel. unfold run_update_loop.
    destruct (failures_stop_the_loop w 5 fuel (loop_start st))
      as (s & Hw & Hle & Hi' & Hrun & Hfull); simpl; auto; try lia.
    { intros k dev Hk. apply Hfail. lia. }
    exists s. split; [exact Hw|]. simpl in Hle. split; [exact Hle|].
    split.
    + pose proof (never_a_sixth_connect w fuel (loop_start st)
                    (loop_start_invariant st Hi)) as Hn.
      cbv zeta in Hn. rewrite Hw in Hn. apply Hn.
    + split; [exact Hrun|]. intros Hsig.
      destruct Hfull as [Hc Ha]; auto.
  - intros fuel. apply never_a_sixth_connect, loop_start_invariant. exact Hi.
  - intros s st' Hnone Hc.
    destruct (loop_body_success w s st' Hnone Hc) as (s' & Hb & Ha & _).
    exists s'. auto.
Qed.

End MainLoop.

(** ** The model at sample inputs *)

Section Evaluation.
Import Samples.
Existing Instance UTC.platform.

(** Where the local clock is never changed, the threshold is the clock
    reading minus 1800 s: it rises with the clock, and is not before the
    epoch once the clock is past 1800 s. *)
Lemma utc_threshold now : threshold_timestamp now = (now - 1800)%Q.
Proof. reflexivity. Qed.

Lemma utc_threshold_rises now1 now2 :
  (now1 <= now2)%Q -> (threshold_timestamp now1 <= threshold_timestamp now2)%Q.
Proof. intros Hle. rewrite !utc_threshold. apply Qplus_le_l. exact Hle. Qed.

Lemma utc_threshold_after_epoch now :
  (1800 <= now)%Q -> (0 <= threshold_timestamp now)%Q.
Proof.
  intros Hle. rewrite utc_threshold.
  apply (Qplus_le_l _ _ 1800). ring_simplify. exact Hle.
Qed.

(** There, whenever the classifier returns, its records are exactly the
    display records of the entries heard after [now] minus 1800 s; an
    entry heard exactly then is left out. *)
Lemma utc_online_iff_heard_in_last_30_minutes (st : plugin) (now : Q) l :
  get_online_nodes st now = Ret l ->
  (forall o, In o l
             <-> exists k node, In (k, node) (PyDict.items (nodes st))
                                /\ (now - 1800 < n_lastHeard node)%Q
                                /\ o = converted_record (k, node))
  /\ (forall k node, In (k, node) (PyDict.items (nodes st)) ->
        (n_lastHeard node == now - 1800)%Q ->
        List.NoDup (PyDict.keys (nodes st)) ->
        ~ exists o, In o l /\ o_id o = k).
Proof.
  intros Hret.
  assert (Hmain : forall o, In o l
             <-> exists k node, In (k, node) (PyDict.items (nodes st))
                                /\ (now - 1800 < n_lastHeard node)%Q
                                /\ o = converted_record (k, node)).
  { intros o. rewrite (online_iff_after_platform_threshold st now l Hret o).
    reflexivity. }
  split; [exact Hmain|].
  intros k node Hin Heq Hnd [o [Ho Hid]].
  apply Hmain in Ho. destruct Ho as (k' & node' & Hin' & Hlt & ->).
  simpl in Hid. subst k'.
  assert (node' = node) as ->.
  { clear -Hin Hin' Hnd. unfold PyDict.items, PyDict.keys in *.
    induction (nodes st) as [|[k0 n0] d IH]; [destruct Hin|].
    simpl in Hnd. inversion Hnd as [|? ? Hnotin Hnd']; subst.
    destruct Hin as [[= -> ->]|Hin]; destruct Hin' as [[= ->]|Hin'].
    - reflexivity.
    - exfalso. apply Hnotin. apply (in_map fst) in Hin'. exact Hin'.
    - exfalso. subst. apply Hnotin. apply (in_map fst) in Hin. exact Hin.
    - apply IH; assumption. }
  rewrite Heq in Hlt. exact (Qlt_irrefl _ Hlt).
Qed.

(** Three nodes heard now, ten minutes ago and forty minutes ago: the
    first two are online. *)
Example three_nodes_two_online :
  let now := inject_Z 100000 in
  let st := process daemon [NodeUpdated (node 1 "A" (inject_Z 100000));
                            NodeUpdated (node 2 "B" (inject_Z (100000 - 600)));
                            NodeUpdated (node 3 "C" (inject_Z (100000 - 2400)))] in
  exists online, get_online_nodes st now = Ret online
                 /\ map o_id online = [1; 2].
Proof. eexists. split; vm_compute; reflexivity. Qed.

(** At the threshold second a node is offline; one second later it is
    online. *)
Example threshold_second :
  let now := inject_Z 100000 in
  let st := process daemon [NodeUpdated (node 1 "A" (inject_Z (100000 - 1800)));
                            NodeUpdated (node 2 "B" (inject_Z (100000 - 1799)))] in
  exists online, get_online_nodes st now = Ret online
                 /\ map o_id online = [2].
Proof. eexists. split; vm_compute; reflexivity. Qed.

(** A node whose last-heard time lies past the last date of [datetime]
    is online at every reading of the clock; converting its time raises,
    the classifier raises with it, and no publish call gets as far as the
    POST. *)
Example unconvertible_time_stops_the_classifier :
  let st := process daemon [NodeUpdated (node 1 "A" (inject_Z 900));
                            NodeUpdated heard_in_year_10000] in
  get_online_nodes st (inject_Z 1000) = Raise ValueError
  /\ prepare_display_data st at_1000 = Raise ValueError
  /\ forall post, send_to_byos st at_1000 post = false.
Proof.
  cbv zeta. split; [vm_compute; reflexivity|].
  assert (Hd : prepare_display_data
                 (process daemon [NodeUpdated (node 1 "A" (inject_Z 900));
                                  NodeUpdated heard_in_year_10000]) at_1000
               = Raise ValueError) by (vm_compute; reflexivity).
  split; [exact Hd|]. intros post.
  unfold send_to_byos, send_to_byos_try. rewrite Hd. reflexivity.
Qed.

(** Thirteen nodes heard at the reading 1000: the snapshot counts 13
    online nodes and lists 12. *)
Example thirteen_online_twelve_listed :
  exists d, prepare_display_data (process daemon thirteen_nodes) at_1000 = Ret d
            /\ ns_online_nodes (d_network_stats d) = 13%nat
            /\ ns_total_nodes (d_network_stats d) = 13%nat
            /\ map o_id (d_online_nodes d) = [1; 2; 3; 4; 5; 6; 7; 8; 9; 10; 11; 12].
Proof. eexists. split; [vm_compute; reflexivity|]. auto. Qed.

(** Eleven text packets: the first has left the history. *)
Example eleven_messages :
  let texts := ["m01"; "m02"; "m03"; "m04"; "m05"; "m06"; "m07"; "m08";
                "m09"; "m10"; "m11"] in
  let st := process daemon
              (map (fun t => PacketReceived 0 (text_packet (PyStr "!a1b2c3d4") 7 t)) texts) in
  map m_text (recent_messages st) = tail texts
  /\ message_stats st !! "total" = Some 11
  /\ message_stats st !! "!a1b2c3d4" = Some 11.
Proof. vm_compute. auto. Qed.

(** A message from a node in the registry shows its short name; the
    time fields are formatted from [rxTime]. *)
Example message_fields :
  let st := process daemon [NodeUpdated (node 7 "ABLE" 0);
                            PacketReceived 0 (text_packet (PyStr "!a1b2c3d4") 7 "hi")] in
  recent_messages st
  = [ {| m_text := "hi"; m_from := "ABLE"; m_from_id := "!a1b2c3d4";
         m_channel := 0; m_time := "22:13";
         m_timestamp := "2023-11-14T22:13:20" |} ].
Proof. vm_compute. reflexivity. Qed.

(** The four outcomes of a publish call. *)
Example publish_outcomes :
  let answer code := fun (_ : string) (_ : display_data) =>
                       Ret {| status_code := code; text := "" |} in
  send_to_byos daemon at_1000 (answer 200) = true
  /\ send_to_byos daemon at_1000 (answer 201) = true
  /\ send_to_byos daemon at_1000 (answer 204) = false
  /\ send_to_byos daemon at_1000 (answer 500) = false
  /\ send_to_byos daemon at_1000 (fun _ _ => Raise ReadTimeout) = false
  /\ send_to_byos daemon at_1000 (fun _ _ => Raise ConnectionError) = false.
Proof. vm_compute. auto 10. Qed.

(** With no radio the loop makes five attempts, backing off between
    them, and stops disconnected. *)
Example no_radio_trace :
  option_map ls_trace
    match run_update_loop 10 no_radio daemon with
    | Stopped s => Some s
    | StillRunning _ => None
    end
  = Some [EvConnect false; EvBackoff 30; EvConnect false; EvBackoff 30;
          EvConnect false; EvBackoff 30; EvConnect false; EvBackoff 30;
          EvConnect false].
Proof. vm_compute. reflexivity. Qed.

(** C3 at a packet whose text is three spaces. *)
Lemma C3_blank_packet_is_noop :
  on_receive daemon 0 blank_packet = daemon.
Proof.
  apply (C3_packet_without_text_is_noop daemon 0 blank_packet).
  intros v Hin [s [-> Hs]]. simpl in Hin.
  destruct Hin as [[= <-]|[]]. apply Hs. reflexivity.
Defined.

(** C7 in a world where the radio cannot be opened. *)
Lemma C7_no_radio_stops_after_five :
  exists s, run_update_loop 5 no_radio daemon = Stopped s
            /\ ls_connects s = 5%nat /\ reconnect_attempts s = 5.
Proof.
  destruct (C7_five_failed_connects_stop_the_loop no_radio daemon eq_refl)
    as [Hstop _].
  destruct (Hstop (fun k dev _ => ex_intro _ _ eq_refl) 5%nat (le_n 5))
    as (s & Hs & _ & _ & _ & Hfull).
  exists s. split; [exact Hs|]. apply Hfull. reflexivity.
Defined.

(** C8 at a first refresh, on a radio with one named channel. *)
Lemma C8_first_refresh_takes_the_report :
  channels (update_channel_data (set_interface daemon (Some one_channel_radio)))
  = replaced_registry one_channel_radio.
Proof.
  apply (C8_refresh_writes_reported_channels
           (set_interface daemon (Some one_channel_radio)) one_channel_radio eq_refl).
  reflexivity.
Defined.

(** C8 as stated fails: a registry that holds channel 1 from an earlier
    refresh keeps it when the radio reports no channel, and the default is
    written beside it. *)
Lemma C8_stale_channel_survives :
  interface after_one_channel = Some quiet_radio
  /\ PyDict.keys (channels (update_channel_data after_one_channel)) = [1%nat; 0%nat]
  /\ replaced_registry quiet_radio = [(0%nat, default_channel)]
  /\ channels (update_channel_data after_one_channel) <> replaced_registry quiet_radio.
Proof.
  split; [reflexivity|]. split; [reflexivity|]. split; [reflexivity|].
  intros Heq. apply (f_equal (@length _)) in Heq. vm_compute in Heq. discriminate.
Qed.

(** C4 fails after a change of the clock.  With Central European time as
    the local zone, at 03:10 local time on the night the clocks went
    forward in 2024, a node heard five minutes before is heard after [now]
    minus 30 minutes; but the wall clock moved back by 30 minutes reads
    02:40, a time that was skipped, whose time stamp is [now] plus 30
    minutes: the classifier compares with that and returns no node. *)
Theorem C4_node_heard_5_minutes_ago_is_offline :
  let st := @process Berlin2024.platform daemon [NodeUpdated heard_five_minutes_ago] in
  let now := after_spring_forward in
  @strftime_HM Berlin2024.platform now = "03:10"
  /\ map (fun item => (fst item, n_lastHeard (snd item))) (PyDict.items (nodes st))
     = [(1, (now - 300)%Q)]
  /\ (now - 1800 < now - 300)%Q
  /\ (@threshold_timestamp Berlin2024.platform now == now + 1800)%Q
  /\ @is_online Berlin2024.platform now
       {| n_id := 1; n_longName := "Node A"; n_shortName := "A";
          n_lastHeard := (now - 300)%Q; n_snr := 25 # 4;
          n_position := []; n_telemetry := [] |} = false
  /\ @get_online_nodes Berlin2024.platform st now = Ret [].
Proof.
  cbv zeta. split; [vm_compute; reflexivity|].
  split; [vm_compute; reflexivity|].
  split; [vm_compute; reflexivity|].
  split; [vm_compute; reflexivity|].
  split; vm_compute; reflexivity.
Qed.

(** C5 fails around midnight: of two online nodes, the one heard at 23:59
    is listed before the one heard at 00:01 the next day, although its
    raw time stamp is the smaller one. *)
Theorem C5_midnight_order_is_not_chronological :
  let st := process daemon [NodeUpdated after_midnight; NodeUpdated before_midnight] in
  exists online,
    get_online_nodes st five_past_midnight = Ret online
    /\ map o_id online = [1; 2]
    /\ map o_lastHeard online = ["23:59"; "00:01"]
    /\ map (raw_last_heard st) online = [inject_Z 345540; inject_Z 345660]
    /\ ~ descending (map (raw_last_heard st) online).
Proof.
  cbv zeta.
  set (st := process daemon [NodeUpdated after_midnight; NodeUpdated before_midnight]).
  destruct (get_online_nodes st five_past_midnight) as [online|e] eqn:Eo;
    [|vm_compute in Eo; discriminate].
  exists online. split; [reflexivity|].
  assert (Hraw : map (raw_last_heard st) online
                 = [inject_Z 345540; inject_Z 345660]).
  { vm_compute in Eo. injection Eo as <-. vm_compute. reflexivity. }
  split; [vm_compute in Eo; injection Eo as <-; reflexivity|].
  split; [vm_compute in Eo; injection Eo as <-; reflexivity|].
  split; [exact Hraw|]. rewrite Hraw. unfold descending. intros Hs.
  inversion Hs as [|? ? _ Hhd]. inversion Hhd as [|? ? Hle].
  apply Hle. reflexivity.
Qed.

(** Two nodes heard within the same minute are listed in registry order,
    whichever was heard last. *)
Lemma same_minute_keeps_registry_order :
  let st := process daemon [NodeUpdated (node 1 "A" (inject_Z 1000));
                            NodeUpdated (node 2 "B" (inject_Z 1015))] in
  exists online, get_online_nodes st (inject_Z 1020) = Ret online
                 /\ map o_id online = [1; 2].
Proof. eexists. split; vm_compute; reflexivity. Qed.

(** C10 fails for a sender whose identity is the string "total": both
    increments land on the total's key, which then reads 2 for one
    message, while no per-sender counter exists. *)
Theorem C10_sender_called_total_is_counted_twice :
  let st := process daemon [PacketReceived 0 (text_packet (PyStr "total") 7 "hello")] in
  length (recent_messages st) = 1%nat
  /\ total_count (message_stats st) = 2
  /\ sum_counts (sender_counts (message_stats st)) = 0
  /\ total_count (message_stats st) <> sum_counts (sender_counts (message_stats st)).
Proof.
  cbv zeta.
  assert (Ht : total_count (message_stats
             (process daemon [PacketReceived 0 (text_packet (PyStr "total") 7 "hello")])) = 2)
    by (vm_compute; reflexivity).
  assert (Hs : sum_counts (sender_counts (message_stats
             (process daemon [PacketReceived 0 (text_packet (PyStr "total") 7 "hello")]))) = 0)
    by (vm_compute; reflexivity).
  split; [vm_compute; reflexivity|]. split; [exact Ht|]. split; [exact Hs|].
  rewrite Ht, Hs. discriminate.
Qed.

End Evaluation.

(** * Further properties of the daemon *)

(** ** The registry under mixed event streams *)

Section RegistryStreams.
Context `{Platform}.
Import PyDict PyDictFacts.

Lemma keys_set_present {K V} `{EqDecision K} (d : PyDict.t K V) k v :
  In k (keys d) -> keys (set d k v) = keys d.
Proof.
  induction d as [|[k0 v0] d IH]; simpl; [intros []|].
  intros Hin. destruct (decide (k0 = k)) as [E|N]; simpl; [reflexivity|].
  f_equal. apply IH. destruct Hin; [contradiction|assumption].
Qed.

Lemma keys_set_extends {K V} `{EqDecision K} (d : PyDict.t K V) k v :
  exists new, keys (set d k v) = keys d ++ new.
Proof.
  destruct (in_dec (fun a b => decide (a = b)) k (keys d)) as [Hin|Hout].
  - exists []. rewrite app_nil_r. apply keys_set_present. exact Hin.
  - exists [k]. rewrite set_fresh by exact Hout. unfold keys.
    rewrite map_app. reflexivity.
Qed.

Lemma on_receive_frame st now p :
  let st' := on_receive st now p in
  nodes st' = nodes st /\ channels st' = channels st
  /\ interface st' = interface st /\ running st' = running st.
Proof.
  unfold on_receive.
  destruct (nonempty_text _) as [[s|]|e]; cbn [obind try_except]; auto.
  destruct (message_data (nodes st) now p s) as [m|e];
    cbn [obind try_except]; auto.
Qed.

Lemma on_node_updated_nodes_eq st e :
  nodes (on_node_updated st e)
  = if node_num e =? 0 then nodes st
    else set (nodes st) (node_num e) (node_profile (node_num e) e).
Proof. unfold on_node_updated. destruct (node_num e =? 0); reflexivity. Qed.

(** Replaying payloads is a function of the registry alone. *)
Lemma replay_nodes_ext l : forall st1 st2,
  nodes st1 = nodes st2 ->
  nodes (foldl on_node_updated st1 l) = nodes (foldl on_node_updated st2 l).
Proof.
  induction l as [|e l IH]; intros st1 st2 Heq; [exact Heq|].
  simpl. apply IH. rewrite !on_node_updated_nodes_eq, Heq. reflexivity.
Qed.

Lemma handle_interface st ev : interface (handle st ev) = interface st.
Proof.
  destruct ev as [|now p|node]; simpl.
  - unfold on_connection.
    destruct (update_channel_data_frame (update_node_data st)) as (_ & _ & _ & ->).
    destruct (update_node_data_frame st) as (_ & _ & _ & ->). reflexivity.
  - apply on_receive_frame.
  - apply on_node_updated_frame.
Qed.

Lemma process_interface st evs : interface (process st evs) = interface st.
Proof.
  unfold process. revert st. induction evs as [|ev evs IH]; intros st; [reflexivity|].
  simpl. rewrite IH. apply handle_interface.
Qed.

(** What one event does to the registry. *)
Lemma handle_nodes st ev :
  nodes (handle st ev)
  = nodes (foldl on_node_updated st (node_inputs (interface st) ev)).
Proof.
  destruct ev as [|now p|node]; simpl.
  - unfold on_connection.
    destruct (update_channel_data_frame (update_node_data st)) as (_ & _ & -> & _).
    unfold update_node_data.
    destruct (interface st) as [tr|]; [|reflexivity].
    destruct (t_nodes tr); reflexivity.
  - apply on_receive_frame.
  - reflexivity.
Qed.

Lemma process_nodes evs : forall st,
  nodes (process st evs)
  = nodes (foldl on_node_updated st (flat_map (node_inputs (interface st)) evs)).
Proof.
  unfold process. induction evs as [|ev evs IH]; intros st; [reflexivity|].
  cbn [foldl flat_map]. rewrite foldl_app, IH, handle_interface.
  apply replay_nodes_ext. apply handle_nodes.
Qed.

(** X1.  After any stream of events of all three classes, the registry
    entry of a non-zero id holds the fields of the last payload carrying
    that id among those handed to [on_node_updated]: payloads of
    node-updated events and, on each connection event, the transport's
    node table; packets contribute nothing.  The entry holds the id, the
    names of the payload's [user] ("Unknown" and "UNK" when missing), its
    [lastHeard] and [snr] (0 when missing), its [position] and its
    [deviceMetrics] (empty when missing).  An id that no payload carried
    keeps the entry it had. *)
Theorem registry_entry_after_any_stream (st : plugin) (evs : list mesh_event) (k : Z) :
  k <> 0 ->
  get (nodes (process st evs)) k
  = match last_event_for k (flat_map (node_inputs (interface st)) evs) with
    | Some e =>
        Some {| n_id := k;
                n_longName := match nd_user e with
                              | Some user => default "Unknown" (u_longName user)
                              | None => "Unknown"
                              end;
                n_shortName := match nd_user e with
                               | Some user => default "UNK" (u_shortName user)
                               | None => "UNK"
                               end;
                n_lastHeard := default 0%Q (nd_lastHeard e);
                n_snr := default 0%Q (nd_snr e);
                n_position := default [] (nd_position e);
                n_telemetry := default [] (nd_deviceMetrics e) |}
    | None => get (nodes st) k
    end.
Proof.
  intros Hk. rewrite process_nodes, replay_get by exact Hk.
  destruct (last_event_for k _) as [e|]; [|reflexivity].
  unfold node_profile. destruct (nd_user e); reflexivity.
Qed.

Lemma replay_keys_extend l : forall st,
  exists new, keys (nodes (foldl on_node_updated st l)) = keys (nodes st) ++ new.
Proof.
  induction l as [|e l IH]; intros st.
  - exists []. rewrite app_nil_r. reflexivity.
  - simpl. destruct (IH (on_node_updated st e)) as [new1 ->].
    rewrite on_node_updated_nodes_eq. destruct (node_num e =? 0).
    + exists new1. reflexivity.
    + destruct (keys_set_extends (nodes st) (node_num e)
                  (node_profile (node_num e) e)) as [new0 ->].
      exists (new0 ++ new1). rewrite app_assoc. reflexivity.
Qed.

(** X2.  No event ever removes a node or moves it: after any stream the
    registry's ids are the ids it had before, in the same order, followed
    by the ids that are new. *)
Theorem registry_only_grows (st : plugin) (evs : list mesh_event) :
  exists new,
    keys (nodes (process st evs)) = keys (nodes st) ++ new
    /\ (length (nodes st) <= length (nodes (process st evs)))%nat.
Proof.
  rewrite process_nodes.
  destruct (replay_keys_extend (flat_map (node_inputs (interface st)) evs) st)
    as [new Hk].
  exists new. split; [exact Hk|].
  apply (f_equal (@length _)) in Hk. unfold keys in Hk.
  rewrite length_app, !length_map in Hk. lia.
Qed.

(** X3.  Nodes age out as the threshold rises: as long as the registry
    does not change, a record that the classifier returns at a reading of
    the clock whose threshold is the later one is also returned at a
    reading whose threshold is the earlier one.  (Where the local clock is
    never changed, a later reading has the later threshold.) *)
Theorem online_set_shrinks_as_threshold_rises
    (st : plugin) (now1 now2 : Q) (l1 l2 : list online_node) (o : online_node) :
  (threshold_timestamp now1 <= threshold_timestamp now2)%Q ->
  get_online_nodes st now1 = Ret l1 ->
  get_online_nodes st now2 = Ret l2 ->
  In o l2 -> In o l1.
Proof.
  intros Hle H1 H2.
  rewrite (get_online_nodes_In st now2 l2 o H2).
  rewrite (get_online_nodes_In st now1 l1 o H1).
  intros (k & node & Hin & Hon & ->). exists k, node.
  split; [exact Hin|]. split; [|reflexivity].
  apply is_online_iff. apply is_online_iff in Hon.
  eapply Qle_lt_trans; [exact Hle|exact Hon].
Qed.

End RegistryStreams.

(** ** The order of the classifier's list *)

Section StringOrder.

Lemma string_compare_cons a s b t :
  String.compare (String a s) (String b t)
  = match Ascii.compare a b with
    | Eq => String.compare s t
    | c => c
    end.
Proof. reflexivity. Qed.

Lemma ascii_compare_lt_trans a b c :
  Ascii.compare a b = Lt -> Ascii.compare b c = Lt -> Ascii.compare a c = Lt.
Proof.
  unfold Ascii.compare. rewrite !N.compare_lt_iff. apply N.lt_trans.
Qed.

Lemma string_compare_lt_trans s1 : forall s2 s3,
  String.compare s1 s2 = Lt -> String.compare s2 s3 = Lt ->
  String.compare s1 s3 = Lt.
Proof.
  induction s1 as [|a s1 IH]; intros [|b s2] [|c s3]; simpl; try congruence.
  destruct (Ascii.compare a b) eqn:Eab; try discriminate;
    destruct (Ascii.compare b c) eqn:Ebc; try discriminate; intros H12 H23.
  - apply Ascii.compare_eq_iff in Eab, Ebc. subst.
    assert (Ascii.compare c c = Eq) as ->.
    { unfold Ascii.compare. apply N.compare_refl. }
    eapply IH; eassumption.
  - apply Ascii.compare_eq_iff in Eab. subst. rewrite Ebc. reflexivity.
  - apply Ascii.compare_eq_iff in Ebc. subst. rewrite Eab. reflexivity.
  - rewrite (ascii_compare_lt_trans _ _ _ Eab Ebc). reflexivity.
Qed.

Lemma string_compare_refl s : String.compare s s = Eq.
Proof.
  induction s as [|a s IH]; simpl; [reflexivity|].
  assert (Ascii.compare a a = Eq) as ->; [|exact IH].
  unfold Ascii.compare. apply N.compare_refl.
Qed.

(** "Not below" is transitive on strings. *)
Lemma ltb_false_trans s1 s2 s3 :
  String.ltb s1 s2 = false -> String.ltb s2 s3 = false -> String.ltb s1 s3 = false.
Proof.
  unfold String.ltb. intros H12 H23.
  destruct (String.compare s1 s3) eqn:E13; try reflexivity. exfalso.
  destruct (String.compare s1 s2) eqn:E12; try discriminate.
  - apply String.compare_eq_iff in E12. subst. rewrite E13 in H23. discriminate.
  - destruct (String.compare s2 s3) eqn:E23; try discriminate.
    + apply String.compare_eq_iff in E23. subst. congruence.
    + (* s1 > s2 > s3 but s1 < s3 *)
      assert (Hlt : String.compare s3 s2 = Lt).
      { rewrite String.compare_antisym, E23. reflexivity. }
      pose proof (string_compare_lt_trans _ _ _ E13 Hlt) as H.
      congruence.
Qed.

End StringOrder.

Section ClassifierOrder.
Context `{Platform}.

Lemma key_ge_trans {A} (key : A -> string) (a b c : A) :
  key_ge key a b -> key_ge key b c -> key_ge key a c.
Proof. unfold key_ge. apply ltb_false_trans. Qed.

(** Inserting keeps, for every key value, the items with that key in the
    order they had. *)
Lemma insert_desc_stable {A} (key : A -> string) (s : string) x (l : list A) :
  List.filter (fun y => String.eqb (key y) s) (insert_desc key x l)
  = List.filter (fun y => String.eqb (key y) s) (x :: l).
Proof.
  induction l as [|y l IH]; [reflexivity|].
  cbn [insert_desc]. destruct (String.ltb (key x) (key y)) eqn:E; [|reflexivity].
  cbn [List.filter] in *. rewrite IH.
  destruct (String.eqb_spec (key y) s) as [Ey|Ny];
    destruct (String.eqb_spec (key x) s) as [Ex|Nx]; try reflexivity.
  exfalso. unfold String.ltb in E. rewrite Ex, Ey, string_compare_refl in E.
  discriminate.
Qed.

Lemma sort_reverse_stable {A} (key : A -> string) (s : string) (l : list A) :
  List.filter (fun y => String.eqb (key y) s) (sort_reverse key l)
  = List.filter (fun y => String.eqb (key y) s) l.
Proof.
  induction l as [|x l IH]; [reflexivity|].
  cbn [sort_reverse foldr]. fold (sort_reverse key l).
  rewrite insert_desc_stable. cbn [List.filter]. rewrite IH. reflexivity.
Qed.

(** X4.  When the loop over the registry completes, the classifier
    returns the list of online records rearranged so that the formatted
    last-heard label of every record is not below the label of any record
    after it (the order of strings by code points); when the loop raises,
    the classifier raises the same exception. *)
Theorem online_list_sorted_by_label (st : plugin) (now : Q) :
  match online_unsorted st now with
  | Ret unsorted =>
      exists online,
        get_online_nodes st now = Ret online
        /\ StronglySorted (key_ge o_lastHeard) online
        /\ Permutation online unsorted
  | Raise e => get_online_nodes st now = Raise e
  end.
Proof.
  unfold get_online_nodes.
  destruct (online_unsorted st now) as [unsorted|e]; [|reflexivity].
  eexists. split; [reflexivity|]. split.
  - apply Sorted_StronglySorted.
    + intros a b c. apply key_ge_trans.
    + apply sort_reverse_sorted.
  - apply sort_reverse_perm.
Qed.

(** X5.  The sort is stable: the records that share a label appear in
    the classifier's list in the order their nodes have in the registry,
    whatever their raw last-heard times. *)
Theorem online_list_ties_in_registry_order (st : plugin) (now : Q) (label : string) :
  match online_unsorted st now with
  | Ret unsorted =>
      exists online,
        get_online_nodes st now = Ret online
        /\ List.filter (fun o => String.eqb (o_lastHeard o) label) online
           = List.filter (fun o => String.eqb (o_lastHeard o) label) unsorted
        /\ unsorted = map converted_record
                         (List.filter (fun item => is_online now (snd item))
                                      (PyDict.items (nodes st)))
  | Raise e => get_online_nodes st now = Raise e
  end.
Proof.
  unfold get_online_nodes.
  destruct (online_unsorted st now) as [unsorted|e] eqn:E; [|reflexivity].
  eexists. split; [reflexivity|]. split; [apply sort_reverse_stable|].
  apply collect_online_Ret in E. apply E.
Qed.

End ClassifierOrder.

(** ** Counters and the published message data *)

Section Counters.
Context `{Platform}.

Lemma senders_length evs : forall st,
  length (senders st evs) = length (appended st evs).
Proof.
  induction evs as [|ev evs IH]; intros st; [reflexivity|].
  cbn [senders appended]. destruct ev as [|now p|node]; try apply IH.
  destruct (retained st now p); simpl; rewrite IH; reflexivity.
Qed.

Lemma counters_after_stream (st : plugin) (evs : list mesh_event) (k : string) :
  default 0 (message_stats (process st evs) !! k)
  = default 0 (message_stats st !! k)
    + Z.of_nat (count_occ string_dec (senders st evs) k)
    + (if decide (k = "total") then Z.of_nat (length (senders st evs)) else 0).
Proof.
  unfold process. revert st.
  induction evs as [|ev evs IH]; intros st.
  - simpl. destruct (decide (k = "total")); lia.
  - cbn [foldl senders]. rewrite IH.
    destruct ev as [|now p|node].
    + destruct (handle_other_frame st ConnectionEstablished) as (_ & ->);
        [discriminate|reflexivity].
    + destruct (retained st now p) as [m|] eqn:Er.
      * cbn [handle]. rewrite (on_receive_retained _ _ _ _ Er). cbn [message_stats set_messages].
        rewrite !stats_incr_lookup. cbn [count_occ length].
        destruct (string_dec (py_str (packet_from_id p)) k) as [E|N];
          destruct (decide (py_str (packet_from_id p) = k)); try contradiction;
          destruct (decide ("total" = k)); destruct (decide (k = "total"));
          try congruence; lia.
      * cbn [handle]. rewrite (on_receive_dropped _ _ _ Er). reflexivity.
    + destruct (handle_other_frame st (NodeUpdated node)) as (_ & ->);
        [discriminate|reflexivity].
Qed.

(** X6.  After any stream of events, every counter of the statistics has
    grown by the number of retained messages whose sender identity string
    is its key; the counter under "total" has in addition grown by the
    number of all retained messages. *)
Theorem counters_count_senders (st : plugin) (evs : list mesh_event) (k : string) :
  default 0 (message_stats (process st evs) !! k)
  = default 0 (message_stats st !! k)
    + Z.of_nat (count_occ string_dec (senders st evs) k)
    + (if decide (k = "total") then Z.of_nat (length (senders st evs)) else 0).
Proof. apply counters_after_stream. Qed.

Lemma last_n_nil {A} n (l : list A) : (0 < n)%nat -> last_n n l = [] -> l = [].
Proof.
  intros Hn Hl. apply (f_equal (@length _)) in Hl.
  rewrite length_last_n in Hl. simpl in Hl.
  destruct l; [reflexivity|simpl in Hl; lia].
Qed.

(** X7.  For a daemon started fresh, the message total of every
    snapshot that is built is the number of messages retained since the
    start, however many of them have left the history, plus the number of
    those whose sender identity string is "total". *)
Theorem published_total_counts_all_messages
    (dp url : option string) (iv : Z) (evs : list mesh_event) (clk : clock_readings)
    (d : display_data) :
  let st0 := new_plugin dp url iv in
  prepare_display_data (process st0 evs) clk = Ret d ->
  d_message_stats_total d
  = Z.of_nat (length (appended st0 evs))
    + Z.of_nat (count_occ string_dec (senders st0 evs) "total").
Proof.
  cbv zeta. intros Hd. apply prepare_display_data_Ret in Hd.
  destruct Hd as (shown & counted & _ & _ & ->). cbn [d_message_stats_total].
  pose proof (counters_after_stream (new_plugin dp url iv) evs "total") as Hc.
  rewrite senders_length in Hc. simpl in Hc.
  pose proof (history_is_last_n (new_plugin dp url iv) evs) as Hh.
  simpl in Hh. specialize (Hh ltac:(unfold MAX_RECENT_MESSAGES; lia)).
  unfold get_message_summary.
  destruct (recent_messages (process (new_plugin dp url iv) evs)) eqn:Er.
  - symmetry in Hh. apply last_n_nil in Hh; [|unfold MAX_RECENT_MESSAGES; lia].
    cbn [s_total].
    pose proof (senders_length evs (new_plugin dp url iv)) as Hl.
    rewrite Hh in Hl |- *.
    destruct (senders (new_plugin dp url iv) evs); [reflexivity|discriminate].
  - cbn [s_total]. rewrite Hc, lookup_empty. simpl. lia.
Qed.

(** X8.  For a daemon started fresh, the recent messages of every
    snapshot that is built are the whole history read backwards: the last
    10 retained messages, newest first; the cap of 10 in the snapshot
    builder never cuts anything. *)
Theorem published_messages_newest_first
    (dp url : option string) (iv : Z) (evs : list mesh_event) (clk : clock_readings)
    (d : display_data) :
  let st0 := new_plugin dp url iv in
  prepare_display_data (process st0 evs) clk = Ret d ->
  d_recent_messages d = rev (recent_messages (process st0 evs))
  /\ d_recent_messages d = rev (last_n 10 (appended st0 evs)).
Proof.
  cbv zeta. intros Hd. apply prepare_display_data_Ret in Hd.
  destruct Hd as (shown & counted & _ & _ & ->). cbn [d_recent_messages].
  rewrite get_message_summary_recent, take_take, Nat.min_id.
  pose proof (history_is_last_n (new_plugin dp url iv) evs) as Hh.
  simpl in Hh. specialize (Hh ltac:(unfold MAX_RECENT_MESSAGES; lia)).
  unfold MAX_RECENT_MESSAGES in Hh. rewrite <- Hh.
  assert (Hlen : (length (rev (recent_messages (process (new_plugin dp url iv) evs))) <= 10)%nat).
  { rewrite length_rev, Hh, length_last_n. lia. }
  rewrite take_ge by exact Hlen. auto.
Qed.

(** X9.  A packet whose picked text field is a string with a character
    that is not white space is recorded when its receive time converts to
    a date: the history afterwards ends with a message carrying that text
    unchanged, the sender identity as a string and the receive time
    formatted as hours and minutes, in front of it the history from
    before, without its oldest message if it was full; the registry is not
    touched.  When the receive time does not convert, the conversion
    raises inside the [try] block and the packet changes nothing. *)
Theorem text_packet_is_recorded (st : plugin) (now : Q) (p : packet) (s : string) :
  extract_text (default (DecodedDict None) (p_decoded p)) = PyStr s ->
  strip s <> "" ->
  let st' := on_receive st now p in
  let rx_time := default (default now (p_time p)) (p_rxTime p) in
  (representable rx_time = true ->
   exists older m,
     recent_messages st' = older ++ [m]
     /\ (older = recent_messages st \/ older = tail (recent_messages st))
     /\ m_text m = s
     /\ m_from_id m = py_str (packet_from_id p)
     /\ m_channel m = default 0 (p_channel p)
     /\ m_time m = strftime_HM rx_time
     /\ nodes st' = nodes st)
  /\ (representable rx_time = false -> st' = st).
Proof.
  intros Hx Hs. cbv zeta.
  assert (Hn : nonempty_text (extract_text (default (DecodedDict None) (p_decoded p)))
               = Ret (Some s)).
  { rewrite Hx. simpl.
    destruct s as [|a s']; [exfalso; apply Hs; reflexivity|].
    apply str_truthy_true in Hs. simpl. rewrite Hs. reflexivity. }
  split; intros Hrep.
  - destruct (message_data (nodes st) now p s) as [m|e] eqn:Em;
      unfold message_data, fromtimestamp, packet_rx_time in Em;
      rewrite Hrep in Em; cbn [obind] in Em; [|discriminate].
    assert (Hr : retained st now p = Some m).
    { unfold retained. rewrite Hn. unfold message_data, fromtimestamp, packet_rx_time.
      rewrite Hrep. cbn [obind]. congruence. }
    injection Em as Em.
    rewrite (on_receive_retained _ _ _ _ Hr). cbn [recent_messages set_messages nodes].
    unfold deque_append.
    destruct (Nat.ltb_spec MAX_RECENT_MESSAGES (length (recent_messages st ++ [m])))
      as [Hfull|Hroom].
    + destruct (recent_messages st) as [|m0 ms] eqn:Eh.
      * simpl in Hfull. unfold MAX_RECENT_MESSAGES in Hfull. lia.
      * exists ms, m. subst m. simpl. auto 10.
    + exists (recent_messages st), m. subst m. simpl. auto 10.
  - apply on_receive_dropped. unfold retained. rewrite Hn.
    unfold message_data, fromtimestamp, packet_rx_time. rewrite Hrep. reflexivity.
Qed.

End Counters.

(** ** Resynchronisation on connection events *)

Section DictUpdates.
Import PyDict PyDictFacts.
Context {K V : Type} `{EqDecision K}.
Implicit Types (d : PyDict.t K V) (l : list (K * V)).

Lemma update_snoc d l k v : update d (l ++ [(k, v)]) = set (update d l) k v.
Proof. unfold update. rewrite foldl_app. reflexivity. Qed.

(** Reading after a batch of writes: the last write to the key, or what
    was there. *)
Lemma get_update_last l : forall d k,
  get (update d l) k = match get (rev l) k with
                       | Some v => Some v
                       | None => get d k
                       end.
Proof.
  induction l as [|[k0 v0] l IH] using rev_ind; intros d k; [reflexivity|].
  rewrite update_snoc, rev_unit. simpl.
  destruct (decide (k0 = k)) as [->|Hne].
  - apply get_set_eq.
  - rewrite get_set_ne by exact Hne. apply IH.
Qed.

Lemma NoDup_keys_update l : forall d,
  List.NoDup (keys d) -> List.NoDup (keys (update d l)).
Proof.
  induction l as [|[k0 v0] l IH]; intros d Hnd; [exact Hnd|].
  rewrite update_cons. apply IH, NoDup_keys_set, Hnd.
Qed.

Lemma in_keys_update l : forall d k,
  In k (keys (update d l)) <-> In k (keys d) \/ In k (keys l).
Proof.
  induction l as [|[k0 v0] l IH]; intros d k.
  - simpl. tauto.
  - rewrite update_cons, IH, in_keys_set. simpl. intuition.
Qed.

Lemma keys_update_present l : forall d,
  (forall k, In k (keys l) -> In k (keys d)) -> keys (update d l) = keys d.
Proof.
  induction l as [|[k0 v0] l IH]; intros d Hall; [reflexivity|].
  rewrite update_cons, IH.
  - apply keys_set_present. apply Hall. now left.
  - intros k Hk. apply in_keys_set. right. apply Hall. now right.
Qed.

(** Dictionaries with the same keys in the same order and the same value
    under each key are equal. *)
Lemma dict_ext d1 : forall d2,
  keys d1 = keys d2 -> List.NoDup (keys d1) ->
  (forall k, get d1 k = get d2 k) -> d1 = d2.
Proof.
  induction d1 as [|[k1 v1] d1 IH]; intros [|[k2 v2] d2] Hk Hnd Hg;
    try discriminate; [reflexivity|].
  simpl in Hk. injection Hk as -> Hk'.
  simpl in Hnd. inversion Hnd as [|? ? Hnotin Hnd']; subst.
  pose proof (Hg k2) as Hk2. simpl in Hk2.
  destruct (decide (k2 = k2)); [|congruence]. injection Hk2 as ->.
  f_equal. apply IH; [exact Hk'|exact Hnd'|].
  intros k. specialize (Hg k). simpl in Hg.
  destruct (decide (k2 = k)) as [->|Hne]; [|exact Hg].
  assert (Hn1 : get d1 k = None) by (apply get_None_not_in_keys; exact Hnotin).
  assert (Hn2 : get d2 k = None).
  { apply get_None_not_in_keys. unfold keys in *. rewrite <- Hk'. exact Hnotin. }
  congruence.
Qed.

(** Writing the same batch twice is the same as writing it once. *)
Lemma update_idempotent d l :
  List.NoDup (keys d) -> update (update d l) l = update d l.
Proof.
  intros Hnd. apply dict_ext.
  - apply keys_update_present. intros k Hk. apply in_keys_update. now right.
  - apply NoDup_keys_update, NoDup_keys_update, Hnd.
  - intros k. rewrite (get_update_last l (update d l)).
    rewrite (get_update_last l d). destruct (get (rev l) k); reflexivity.
Qed.

Lemma set_set d k v1 v2 : set (set d k v1) k v2 = set d k v2.
Proof.
  induction d as [|[k0 v0] d IH]; simpl.
  - destruct (decide (k = k)); congruence.
  - destruct (decide (k0 = k)) as [E|N]; simpl.
    + destruct (decide (k0 = k)); congruence.
    + destruct (decide (k0 = k)); [contradiction|]. rewrite IH. reflexivity.
Qed.

End DictUpdates.

Section Resync.
Context `{Platform}.
Import PyDict PyDictFacts.

Lemma replay_as_update l : forall st,
  foldl on_node_updated st l
  = set_nodes st (update (nodes st) (node_bindings l)).
Proof.
  induction l as [|e l IH]; intros st.
  - destruct st; reflexivity.
  - cbn [foldl]. rewrite IH. unfold node_bindings. cbn [flat_map].
    fold (node_bindings l). unfold on_node_updated.
    destruct (node_num e =? 0); destruct st; reflexivity.
Qed.

Lemma update_channel_data_as_refresh st tr :
  interface st = Some tr ->
  update_channel_data st = set_channels st (refreshed_channels tr (channels st)).
Proof.
  intros Hi. unfold update_channel_data, refreshed_channels, reported_channels.
  rewrite Hi.
  destruct (t_getMyNodeInfo tr) as [[|[chs|]]|e]; cbn [try_except obind];
    try reflexivity.
  rewrite scan_channels_spec.
  destruct (named_channels 0 chs) as [|kc l] eqn:E; [reflexivity|].
  cbn [length].
  destruct (Z.eqb_spec (0 + Z.of_nat (S (length l))) 0) as [Hz|_]; [lia|].
  reflexivity.
Qed.

Lemma refreshed_channels_idempotent tr chans :
  List.NoDup (keys chans) ->
  refreshed_channels tr (refreshed_channels tr chans) = refreshed_channels tr chans.
Proof.
  intros Hnd. unfold refreshed_channels.
  destruct (reported_channels tr) as [|kc l].
  - apply set_set.
  - apply update_idempotent. exact Hnd.
Qed.

Lemma update_node_data_as_update st tr l :
  interface st = Some tr -> t_nodes tr = Some l ->
  update_node_data st = set_nodes st (update (nodes st) (node_bindings l)).
Proof.
  intros Hi Hl. unfold update_node_data. rewrite Hi, Hl.
  cbn [try_except obind]. apply replay_as_update.
Qed.

Lemma update_node_data_no_table st tr :
  interface st = Some tr -> t_nodes tr = None -> update_node_data st = st.
Proof.
  intros Hi Hl. unfold update_node_data. rewrite Hi, Hl. reflexivity.
Qed.

(** X11.  Handling a connection event a second time changes nothing: the
    node table is replayed onto entries that already hold its values and
    the channel report onto channels that already hold it.  (The
    dictionaries of a daemon have no duplicate keys.) *)
Theorem on_connection_idempotent (st : plugin) :
  List.NoDup (keys (nodes st)) ->
  List.NoDup (keys (channels st)) ->
  on_connection (on_connection st) = on_connection st.
Proof.
  intros Hn Hc. unfold on_connection.
  destruct (interface st) as [tr|] eqn:Hi.
  - destruct (t_nodes tr) as [l|] eqn:Hl.
    + rewrite (update_node_data_as_update st tr l Hi Hl).
      set (st1 := set_nodes st (update (nodes st) (node_bindings l))).
      assert (Hi1 : interface st1 = Some tr) by exact Hi.
      rewrite (update_channel_data_as_refresh st1 tr Hi1).
      set (st2 := set_channels st1 (refreshed_channels tr (channels st1))).
      assert (Hi2 : interface st2 = Some tr) by exact Hi.
      rewrite (update_node_data_as_update st2 tr l Hi2 Hl).
      assert (Hst2 : set_nodes st2 (update (nodes st2) (node_bindings l)) = st2).
      { unfold st2, st1. cbn [nodes set_channels set_nodes].
        rewrite update_idempotent by exact Hn. reflexivity. }
      rewrite Hst2. rewrite (update_channel_data_as_refresh st2 tr Hi2).
      unfold st2, st1. cbn [channels set_channels set_nodes].
      rewrite refreshed_channels_idempotent by exact Hc.
      reflexivity.
    + rewrite (update_node_data_no_table st tr Hi Hl).
      rewrite (update_channel_data_as_refresh st tr Hi).
      set (st2 := set_channels st (refreshed_channels tr (channels st))).
      assert (Hi2 : interface st2 = Some tr) by exact Hi.
      rewrite (update_node_data_no_table st2 tr Hi2 Hl).
      rewrite (update_channel_data_as_refresh st2 tr Hi2).
      unfold st2. cbn [channels set_channels].
      rewrite refreshed_channels_idempotent by exact Hc.
      reflexivity.
  - assert (Hn0 : update_node_data st = st)
      by (unfold update_node_data; rewrite Hi; reflexivity).
    assert (Hc0 : update_channel_data st = st)
      by (unfold update_channel_data; rewrite Hi; reflexivity).
    rewrite Hn0, Hc0, Hn0, Hc0. reflexivity.
Qed.

(** X10.  A direct text attribute that is present but holds no text
    hides whatever the nested data carries: the packet is dropped. *)
Theorem empty_direct_text_hides_nested (st : plugin) (now : Q) (p : packet)
    (t : pyval) (d : option (option pyval)) :
  p_decoded p = Some (DecodedObject (Some t) d) ->
  ~ is_nonempty_text t ->
  on_receive st now p = st.
Proof.
  intros Hd Ht. apply on_receive_dropped. unfold retained. rewrite Hd. simpl.
  destruct (nonempty_text_rejects t Ht) as [->|[e ->]]; reflexivity.
Qed.

End Resync.

(** ** The main loop: signals, publishing, reconnection *)

Section LoopRuns.
Context `{Platform}.

Lemma deliver_signal_running w i st :
  running (deliver_signal w i st)
  = if w_signal w i then false else running st.
Proof. unfold deliver_signal. destruct (w_signal w i); reflexivity. Qed.

Lemma update_node_data_running st : running (update_node_data st) = running st.
Proof.
  unfold update_node_data. destruct (interface st) as [tr|]; [|reflexivity].
  destruct (t_nodes tr) as [l|]; [|reflexivity]. cbn [try_except obind].
  induction l as [|e l IH] using rev_ind; [reflexivity|].
  rewrite foldl_app. simpl.
  destruct (on_node_updated_frame (foldl on_node_updated st l) e) as (_ & -> & _).
  exact IH.
Qed.

(** One pass through the loop body: the iteration counter goes up by one;
    unless the loop is left, a signal handled during the pass clears the
    running flag, and without a signal the flag is kept. *)
Lemma loop_body_step w s :
  ls_iteration (match loop_body w s with Continue s' => s' | Break s' => s' end)
  = S (ls_iteration s)
  /\ (forall s', loop_body w s = Continue s' ->
        running (ls_plugin s')
        = if w_signal w (ls_iteration s) then false else running (ls_plugin s)).
Proof.
  unfold loop_body.
  destruct (interface (ls_plugin s)) as [tr|] eqn:Hi.
  - unfold cycle. cbn [ls_iteration]. split; [reflexivity|].
    intros s' [= <-]. cbn [ls_plugin].
    rewrite deliver_signal_running, update_node_data_running. reflexivity.
  - destruct (connect_cases (ls_plugin s) (w_open w (ls_connects s)))
      as [[tr ->]| ->].
    + unfold cycle. cbn [ls_iteration]. split; [reflexivity|].
      intros s' [= <-]. cbn [ls_plugin].
      rewrite deliver_signal_running, update_node_data_running. reflexivity.
    + destruct (reconnect_attempts s + 1 >=? MAX_RECONNECT_ATTEMPTS);
        cbn [ls_iteration]; (split; [reflexivity|]); intros s' [= <-].
      cbn [ls_plugin]. apply deliver_signal_running.
Qed.

Lemma shut_down_iteration s : ls_iteration (shut_down s) = ls_iteration s.
Proof. reflexivity. Qed.

Lemma signal_stops_within w i (n : nat) : forall fuel s,
  w_signal w i = true ->
  (ls_iteration s + n = i)%nat ->
  (n + 2 <= fuel)%nat ->
  exists s', while_running fuel w s = Stopped s'
    /\ (ls_iteration s' <= S i)%nat
    /\ running (ls_plugin s') = false.
Proof.
  induction n as [|n IH]; intros fuel s Hsig Hit Hfuel.
  - destruct fuel as [|[|fuel]]; try lia. cbn [while_running].
    destruct (running (ls_plugin s)) eqn:Hrun.
    + destruct (loop_body_step w s) as [Hstep Hrunning].
      destruct (loop_body w s) as [s1|s1] eqn:Hb.
      * rewrite (Hrunning s1 eq_refl).
        replace (ls_iteration s) with i by lia. rewrite Hsig.
        exists (shut_down s1). split; [reflexivity|].
        rewrite shut_down_iteration. split; [lia|].
        apply shut_down_counts.
      * exists (shut_down s1). split; [reflexivity|].
        rewrite shut_down_iteration. split; [lia|]. apply shut_down_counts.
    + exists (shut_down s). split; [reflexivity|].
      rewrite shut_down_iteration. split; [lia|]. apply shut_down_counts.
  - destruct fuel as [|fuel]; try lia. cbn [while_running].
    destruct (running (ls_plugin s)) eqn:Hrun.
    + destruct (loop_body_step w s) as [Hstep _].
      destruct (loop_body w s) as [s1|s1] eqn:Hb.
      * apply IH; [exact Hsig|lia|lia].
      * exists (shut_down s1). split; [reflexivity|].
        rewrite shut_down_iteration. split; [lia|]. apply shut_down_counts.
    + exists (shut_down s). split; [reflexivity|].
      rewrite shut_down_iteration. split; [lia|]. apply shut_down_counts.
Qed.

(** X12.  A termination signal handled during pass [i] of the loop body
    stops the loop at the next test of its condition at the latest: with
    room for [i + 2] tests the loop has stopped, after at most [i + 1]
    passes, whatever the radio and the sink do. *)
Theorem signal_stops_the_loop (w : world) (st : plugin) (i : nat) :
  w_signal w i = true ->
  forall fuel, (i + 2 <= fuel)%nat ->
  exists s, run_update_loop fuel w st = Stopped s
    /\ (ls_iteration s <= S i)%nat
    /\ running (ls_plugin s) = false.
Proof.
  intros Hsig fuel Hfuel. unfold run_update_loop.
  apply (signal_stops_within w i i); [exact Hsig|reflexivity|exact Hfuel].
Qed.

Lemma count_publishes_app tr1 tr2 :
  count_publishes (tr1 ++ tr2) = (count_publishes tr1 + count_publishes tr2)%nat.
Proof. unfold count_publishes. rewrite List.filter_app, length_app. reflexivity. Qed.

Lemma connected_pass w s tr :
  interface (ls_plugin s) = Some tr ->
  exists s', loop_body w s = Continue s'
    /\ interface (ls_plugin s') = Some tr
    /\ ls_connects s' = ls_connects s
    /\ ls_posts s'
       = (if post_is_made (update_node_data (ls_plugin s)) (w_clock w (ls_iteration s))
          then S (ls_posts s) else ls_posts s)
    /\ count_publishes (ls_trace s') = S (count_publishes (ls_trace s))
    /\ reconnect_attempts s' = reconnect_attempts s
    /\ ls_iteration s' = S (ls_iteration s)
    /\ running (ls_plugin s')
       = if w_signal w (ls_iteration s) then false else running (ls_plugin s).
Proof.
  intros Hi. unfold loop_body. rewrite Hi. unfold cycle.
  eexists. split; [reflexivity|]. cbn [ls_plugin ls_connects ls_posts
    reconnect_attempts ls_iteration ls_trace].
  rewrite deliver_signal_interface, deliver_signal_running, update_node_data_running.
  destruct (update_node_data_frame (ls_plugin s)) as (_ & _ & _ & ->).
  rewrite count_publishes_app. cbn [count_publishes List.filter length].
  repeat split; auto. lia.
Qed.

Lemma connected_run w tr (fuel : nat) : forall s,
  interface (ls_plugin s) = Some tr ->
  running (ls_plugin s) = true ->
  (forall i, w_signal w i = false) ->
  exists s', while_running fuel w s = StillRunning s'
    /\ (ls_posts s <= ls_posts s' <= ls_posts s + fuel)%nat
    /\ count_publishes (ls_trace s') = (count_publishes (ls_trace s) + fuel)%nat
    /\ ls_iteration s' = (ls_iteration s + fuel)%nat
    /\ ls_connects s' = ls_connects s
    /\ interface (ls_plugin s') = Some tr
    /\ running (ls_plugin s') = true.
Proof.
  induction fuel as [|fuel IH]; intros s Hi Hrun Hsig; cbn [while_running].
  - exists s. rewrite !Nat.add_0_r. repeat split; auto.
  - rewrite Hrun.
    destruct (connected_pass w s tr Hi)
      as (s1 & -> & Hi1 & Hc1 & Hp1 & Hpub1 & _ & Hit1 & Hr1).
    rewrite Hsig, Hrun in Hr1.
    destruct (IH s1 Hi1 Hr1 Hsig) as (s' & Hw & Hp & Hpub & Hit & Hc & Hi' & Hr').
    exists s'. split; [exact Hw|]. rewrite Hpub, Hit, Hc, Hpub1, Hit1, Hc1.
    destruct (post_is_made _ _); repeat split; auto; lia.
Qed.

(** X13.  No answer of the sink, and no failure to build a snapshot,
    stops the loop: for a connected daemon and as long as no signal
    arrives, after any number of tests of the loop condition the loop is
    still running, has made one pass per test with one publish call in
    each, at most one POST per pass, and has not called [connect()],
    whether the publish calls returned true or false. *)
Theorem publish_failures_never_stop_the_loop
    (w : world) (st : plugin) (tr : transport) (fuel : nat) :
  interface st = Some tr ->
  (forall i, w_signal w i = false) ->
  exists s, run_update_loop fuel w st = StillRunning s
    /\ ls_iteration s = fuel
    /\ count_publishes (ls_trace s) = fuel
    /\ (ls_posts s <= fuel)%nat
    /\ ls_connects s = 0%nat
    /\ interface (ls_plugin s) = Some tr
    /\ running (ls_plugin s) = true.
Proof.
  intros Hi Hsig. unfold run_update_loop.
  destruct (connected_run w tr fuel (loop_start st)) as
    (s & Hw & Hp & Hpub & Hit & Hc & Hi' & Hr); auto.
  exists s. simpl in Hp, Hpub, Hit, Hc. repeat split; auto; lia.
Qed.

Lemma connected_forever w tr (fuel : nat) : forall s,
  interface (ls_plugin s) = Some tr ->
  let s' := final (while_running fuel w s) in
  ls_connects s' = ls_connects s /\ interface (ls_plugin s') = Some tr.
Proof.
  induction fuel as [|fuel IH]; intros s Hi; cbv zeta; cbn [while_running].
  - auto.
  - destruct (running (ls_plugin s)).
    + destruct (connected_pass w s tr Hi) as (s1 & -> & Hi1 & Hc1 & _).
      destruct (IH s1 Hi1) as [Hc Hi']. cbv zeta in Hc, Hi'.
      rewrite Hc, Hc1. auto.
    + cbn [final]. destruct (shut_down_counts s) as (-> & _ & _ & _ & ->). auto.
Qed.

(** X14.  Once the transport handle is set the loop never calls
    [connect()] again and never clears the handle, not even when it shuts
    down: there is no reconnection after the first success, and the
    status of every snapshot built afterwards is "connected". *)
Theorem no_reconnect_after_success
    (w : world) (s : loop_state) (tr : transport) (fuel : nat) (clk : clock_readings) :
  interface (ls_plugin s) = Some tr ->
  let s' := final (while_running fuel w s) in
  ls_connects s' = ls_connects s
  /\ interface (ls_plugin s') = Some tr
  /\ (forall d, prepare_display_data (ls_plugin s') clk = Ret d ->
        d_status d = "connected").
Proof.
  intros Hi. cbv zeta.
  destruct (connected_forever w tr fuel s Hi) as [Hc Hi']. cbv zeta in Hc, Hi'.
  split; [exact Hc|]. split; [exact Hi'|].
  intros d Hd. apply prepare_display_data_Ret in Hd.
  destruct Hd as (shown & counted & _ & _ & ->).
  cbn [d_status]. rewrite Hi'. reflexivity.
Qed.

End LoopRuns.

(** ** Configuration loading *)

Section EnvFile.
Implicit Types (environ : gmap string string) (lines : list string).

Lemma split_first_spec c s : forall before after,
  split_first c s = Some (before, after) ->
  s = (before ++ String c after)%string /\ contains c before = false.
Proof.
  induction s as [|a s IH]; intros before after; simpl; [discriminate|].
  destruct (Ascii.eqb_spec a c) as [->|Hne].
  - intros [= <- <-]. auto.
  - destruct (split_first c s) as [[b1 a1]|] eqn:E; [|discriminate].
    intros [= <- <-]. destruct (IH b1 a1 eq_refl) as [-> Hc].
    split; [reflexivity|]. unfold contains in *. simpl.
    destruct (Ascii.eqb_spec a c); [contradiction|].
    destruct (split_first c b1) as [[? ?]|]; [discriminate|reflexivity].
Qed.

(** X17.  An assignment line is cut at its first [=] only, after the
    white space at both ends of the line is removed: key, [=] and value
    put together give back the stripped line, the key holds no [=], and
    nothing else is trimmed. *)
Theorem env_line_cuts_at_first_equals (line key value : string) :
  env_line line = Some (key, value) ->
  strip line = (key ++ "=" ++ value)%string
  /\ contains "=" key = false
  /\ String.prefix "#" line = false.
Proof.
  unfold env_line.
  destruct (str_truthy (strip line)); [|discriminate]. simpl.
  destruct (String.prefix "#" line) eqn:Hp; [discriminate|]. simpl.
  destruct (contains "=" line); [|discriminate].
  intros Hs. apply split_first_spec in Hs. destruct Hs as [-> Hc]. auto.
Qed.

Lemma env_lines_keeps lines : forall environ k v,
  environ !! k = Some v -> fst (env_lines environ lines) !! k = Some v.
Proof.
  induction lines as [|line rest IH]; intros environ k v Hk; [exact Hk|].
  cbn [env_lines]. destruct (env_line line) as [[key value]|]; [|apply IH, Hk].
  destruct (environ !! key) eqn:Ekey; [apply IH, Hk|].
  destruct (legal_assignment key value); [|exact Hk].
  apply IH. rewrite lookup_insert_ne; [exact Hk|]. congruence.
Qed.

(** X15.  Loading the file never changes a variable that the environment
    already has. *)
Theorem env_file_never_overrides (file : option (list string)) environ k v :
  environ !! k = Some v -> load_env_file file environ !! k = Some v.
Proof.
  intros Hk. destruct file as [lines|]; [|exact Hk].
  apply env_lines_keeps. exact Hk.
Qed.

(** X16.  For a variable that the environment does not have, the first
    line of the file that assigns it decides: when the assignment lines
    before it are about other variables and are accepted, the variable
    gets the value of that line, whatever the lines after it say. *)
Theorem env_file_first_assignment_wins
    (before : list string) (line : string) (after : list string)
    environ (key value : string) :
  environ !! key = None ->
  env_line line = Some (key, value) ->
  legal_assignment key value = true ->
  (forall l k' v', In l before -> env_line l = Some (k', v') ->
                   k' <> key /\ legal_assignment k' v' = true) ->
  load_env_file (Some (before ++ line :: after)) environ !! key = Some value.
Proof.
  intros Hnone Hline Hlegal. unfold load_env_file.
  revert environ Hnone.
  induction before as [|l before IH]; intros environ Hnone Hbefore.
  - cbn [app env_lines]. rewrite Hline, Hnone, Hlegal.
    apply env_lines_keeps. apply lookup_insert_eq.
  - cbn [app env_lines].
    assert (Hrest : forall l0 k' v', In l0 before -> env_line l0 = Some (k', v') ->
                      k' <> key /\ legal_assignment k' v' = true).
    { intros l0 k' v' Hin. apply Hbefore. now right. }
    destruct (env_line l) as [[k' v']|] eqn:El; [|apply IH; assumption].
    destruct (Hbefore l k' v' (or_introl eq_refl) El) as [Hne Hleg].
    destruct (environ !! k'); [apply IH; assumption|].
    rewrite Hleg. apply IH; [|exact Hrest].
    rewrite lookup_insert_ne by exact Hne. exact Hnone.
Qed.

End EnvFile.

(** ** What the loop leaves alone *)

Section LoopFrame.
Context `{Platform}.

Lemma connect_frame st open :
  let st' := fst (connect st open) in
  nodes st' = nodes st /\ channels st' = channels st
  /\ recent_messages st' = recent_messages st
  /\ message_stats st' = message_stats st.
Proof.
  destruct (connect_cases st open) as [[tr ->]| ->]; simpl; auto.
Qed.

Lemma deliver_signal_frame w i st :
  let st' := deliver_signal w i st in
  nodes st' = nodes st /\ channels st' = channels st
  /\ recent_messages st' = recent_messages st
  /\ message_stats st' = message_stats st.
Proof. unfold deliver_signal. destruct (w_signal w i); simpl; auto. Qed.

Lemma loop_body_frame w s :
  let s' := match loop_body w s with Continue s' => s' | Break s' => s' end in
  channels (ls_plugin s') = channels (ls_plugin s)
  /\ recent_messages (ls_plugin s') = recent_messages (ls_plugin s)
  /\ message_stats (ls_plugin s') = message_stats (ls_plugin s).
Proof.
  cbv zeta. unfold loop_body.
  destruct (interface (ls_plugin s)) as [tr|].
  - unfold cycle. cbn [ls_plugin].
    destruct (deliver_signal_frame w (ls_iteration s) (update_node_data (ls_plugin s)))
      as (_ & -> & -> & ->).
    destruct (update_node_data_frame (ls_plugin s)) as (-> & -> & -> & _). auto.
  - pose proof (connect_frame (ls_plugin s) (w_open w (ls_connects s))) as Hc.
    destruct (connect (ls_plugin s) (w_open w (ls_connects s))) as [st' ok].
    cbv zeta in Hc. simpl in Hc. destruct Hc as (_ & Hch & Hm & Hs).
    destruct ok.
    + unfold cycle. cbn [ls_plugin].
      destruct (deliver_signal_frame w (ls_iteration s) (update_node_data st'))
        as (_ & -> & -> & ->).
      destruct (update_node_data_frame st') as (-> & -> & -> & _). auto.
    + destruct (reconnect_attempts s + 1 >=? MAX_RECONNECT_ATTEMPTS); cbn [ls_plugin].
      * auto.
      * destruct (deliver_signal_frame w (ls_iteration s) st') as (_ & -> & -> & ->).
        auto.
Qed.

(** X18.  The loop by itself refreshes only the node registry: however
    long it runs and whatever the world does, the channel registry, the
    message history and the counters at the end are the ones it started
    with; these change through events only. *)
Theorem loop_leaves_channels_and_messages_alone
    (w : world) (fuel : nat) (s : loop_state) :
  let s' := final (while_running fuel w s) in
  channels (ls_plugin s') = channels (ls_plugin s)
  /\ recent_messages (ls_plugin s') = recent_messages (ls_plugin s)
  /\ message_stats (ls_plugin s') = message_stats (ls_plugin s).
Proof.
  revert s. induction fuel as [|fuel IH]; intros s; cbv zeta; cbn [while_running].
  - auto.
  - destruct (running (ls_plugin s)).
    + pose proof (loop_body_frame w s) as Hb. cbv zeta in Hb.
      destruct (loop_body w s) as [s1|s1].
      * destruct (IH s1) as (-> & -> & ->). exact Hb.
      * exact Hb.
    + cbn [final]. auto.
Qed.

End LoopFrame.

(** ** Consistency of the stores *)

Section Consistency.
Context `{Platform}.
Import PyDict PyDictFacts.

Lemma in_set {K V} `{EqDecision K} (d : PyDict.t K V) k v k' v' :
  In (k', v') (set d k v) -> (k' = k /\ v' = v) \/ In (k', v') d.
Proof.
  induction d as [|[k0 v0] d IH]; simpl.
  - intros [[= <- <-]|[]]. auto.
  - destruct (decide (k0 = k)) as [E|N]; simpl.
    + intros [[= <- <-]|Hin]; auto.
    + intros [Heq|Hin]; auto. destruct (IH Hin); auto.
Qed.

Lemma in_update {K V} `{EqDecision K} (l : list (K * V)) : forall (d : PyDict.t K V) k v,
  In (k, v) (update d l) -> In (k, v) l \/ In (k, v) d.
Proof.
  induction l as [|[k0 v0] l IH]; intros d k v; [auto|].
  rewrite update_cons. intros Hin. apply IH in Hin.
  destruct Hin as [Hin|Hin]; [left; now right|].
  apply in_set in Hin. destruct Hin as [[-> ->]|Hin]; [left; now left|auto].
Qed.

Lemma node_bindings_sound l k e :
  In (k, e) (node_bindings l) -> n_id e = k /\ k <> 0.
Proof.
  unfold node_bindings. rewrite in_flat_map. intros (p & _ & Hin).
  destruct (Z.eqb_spec (node_num p) 0) as [Hz|Hnz]; [destruct Hin|].
  destruct Hin as [[= <- <-]|[]]. auto.
Qed.

Lemma named_channels_sound chs : forall j i c,
  In (i, c) (named_channels j chs) -> c_index c = i.
Proof.
  induction chs as [|ch chs IH]; intros j i c; simpl; [intros []|].
  destruct (named_channel j ch) as [c0|] eqn:E; [|apply IH].
  intros [[= <- <-]|Hin]; [|eapply IH; exact Hin].
  unfold named_channel in E. destruct (rc_settings ch) as [settings|]; [|discriminate].
  destruct (str_truthy _ && str_truthy _); [|discriminate].
  injection E as <-. reflexivity.
Qed.

Lemma refreshed_channels_sound tr chans :
  (forall i c, In (i, c) chans -> c_index c = i) ->
  forall i c, In (i, c) (refreshed_channels tr chans) -> c_index c = i.
Proof.
  intros Hold i c. unfold refreshed_channels.
  destruct (reported_channels tr) as [|kc l] eqn:E.
  - intros Hin. apply in_set in Hin. destruct Hin as [[-> ->]|Hin]; [reflexivity|auto].
  - intros Hin. apply in_update in Hin. destruct Hin as [Hin|Hin]; [|auto].
    rewrite <- E in Hin. unfold reported_channels in Hin.
    destruct (t_getMyNodeInfo tr) as [[|[chs|]]|e]; try destruct Hin.
    eapply named_channels_sound. exact Hin.
Qed.

Lemma refreshed_channels_NoDup tr chans :
  List.NoDup (keys chans) -> List.NoDup (keys (refreshed_channels tr chans)).
Proof.
  intros Hnd. unfold refreshed_channels.
  destruct (reported_channels tr); [apply NoDup_keys_set|apply NoDup_keys_update];
    exact Hnd.
Qed.

Lemma deque_append_bound {A} n (d : list A) x :
  (0 < n)%nat -> (length d <= n)%nat -> (length (deque_append n d x) <= n)%nat.
Proof.
  intros Hn Hd. unfold deque_append.
  destruct (Nat.ltb_spec n (length (d ++ [x]))) as [Hfull|Hroom]; [|exact Hroom].
  rewrite length_app in Hfull. simpl in Hfull.
  destruct d as [|a d]; simpl in *; [lia|]. rewrite length_app. simpl. lia.
Qed.

Lemma handle_channels st ev :
  channels (handle st ev)
  = match ev, interface st with
    | ConnectionEstablished, Some tr => refreshed_channels tr (channels st)
    | _, _ => channels st
    end.
Proof.
  destruct ev as [|now p|node]; simpl.
  - unfold on_connection.
    destruct (update_node_data_frame st) as (_ & _ & Hc & Hi).
    destruct (interface st) as [tr|] eqn:Ei.
    + rewrite (update_channel_data_as_refresh _ tr Hi). simpl. rewrite Hc. reflexivity.
    + unfold update_channel_data. rewrite Hi. exact Hc.
  - apply on_receive_frame.
  - apply on_node_updated_frame.
Qed.

Lemma new_plugin_consistent dp url iv : consistent (new_plugin dp url iv).
Proof.
  unfold consistent. simpl. repeat split; try constructor; try contradiction.
  unfold MAX_RECENT_MESSAGES. lia.
Qed.

(** X19.  Every event handler keeps the stores consistent: no duplicate
    keys, no node under id 0, every node entry and every channel entry
    carrying the key it is stored under, and at most 10 messages in the
    history.  A new daemon is consistent, so every state reached through
    events is. *)
Theorem handlers_keep_stores_consistent (st : plugin) (evs : list mesh_event) :
  consistent st -> consistent (process st evs).
Proof.
  unfold process. revert st.
  induction evs as [|ev evs IH]; intros st Hc; [exact Hc|].
  cbn [foldl]. apply IH. clear IH.
  destruct Hc as (Hn & Hch & Hne & Hce & Hh).
  unfold consistent. rewrite handle_channels, handle_nodes, replay_as_update.
  cbn [nodes set_nodes]. split; [|split; [|split; [|split]]].
  - apply NoDup_keys_update. exact Hn.
  - destruct ev; try exact Hch.
    destruct (interface st); [apply refreshed_channels_NoDup|]; exact Hch.
  - intros k e Hin. apply in_update in Hin. destruct Hin as [Hin|Hin].
    + eapply node_bindings_sound. exact Hin.
    + apply Hne. exact Hin.
  - destruct ev; try exact Hce.
    destruct (interface st); [apply refreshed_channels_sound|]; exact Hce.
  - destruct ev as [|now p|node].
    + destruct (handle_other_frame st ConnectionEstablished) as (-> & _);
        [discriminate|exact Hh].
    + cbn [handle]. destruct (retained st now p) as [m|] eqn:Er.
      * rewrite (on_receive_retained _ _ _ _ Er). cbn [recent_messages set_messages].
        apply deque_append_bound; [unfold MAX_RECENT_MESSAGES; lia|exact Hh].
      * rewrite (on_receive_dropped _ _ _ Er). exact Hh.
    + destruct (handle_other_frame st (NodeUpdated node)) as (-> & _);
        [discriminate|exact Hh].
Qed.

End Consistency.

(** ** Start-up configuration *)

Section StartUp.
Variable py_int : string -> outcome Z.

(** X20.  Where the sink URL of the daemon comes from: the command line
    if the option is given; else the BYOS_URL of the process environment,
    which the file cannot override; else what loading the file left under
    BYOS_URL; else the built-in default.  If the value so chosen is the
    empty string, the built-in default is used, not the next source. *)
Theorem sink_url_precedence (file : option (list string))
    (environ : gmap string string) (args : cli_args) (st : plugin) :
  main_plugin py_int file environ args = Ret st ->
  byos_url st
  = let chosen :=
      match a_byos_url args with
      | Some u => u
      | None =>
          match environ !! "BYOS_URL" with
          | Some u => u
          | None => default DEFAULT_BYOS_URL
                            (load_env_file file environ !! "BYOS_URL")
          end
      end in
    if str_truthy chosen then chosen else DEFAULT_BYOS_URL.
Proof.
  unfold main_plugin. destruct (py_int _) as [n|e]; [|discriminate].
  cbn [obind]. intros [= <-]. cbn [byos_url new_plugin]. cbv zeta.
  destruct (a_byos_url args) as [u|]; [reflexivity|]. cbn [default].
  destruct (environ !! "BYOS_URL") as [u|] eqn:E; [|reflexivity].
  assert (Hkeep : load_env_file file environ !! "BYOS_URL" = Some u).
  { destruct file as [lines|]; [apply env_lines_keeps|]; exact E. }
  rewrite Hkeep. reflexivity.
Qed.

End StartUp.

(** ** Test mode and the online list *)

Section TestMode.
Context `{Platform}.
Import PyDict PyDictFacts.

Lemma connect_succeeds st open tr :
  (forall dev, open dev = Ret tr) ->
  connect st open = (set_interface st (Some tr), true).
Proof.
  intros Ho. unfold connect.
  destruct (device_path st) as [path|]; [destruct (str_truthy path)|];
    rewrite Ho; reflexivity.
Qed.

(** X21.  In test mode, when the radio does not open nothing is
    published.  When it opens, the node and channel data are refreshed and
    the online nodes are listed for the log, outside any handler: if that
    raises, [main] ends with the exception and nothing is published;
    otherwise there is one publish call.  A snapshot built after both
    refreshes has the status "connected" and lists at least one channel,
    and for a daemon started fresh the registry behind it is the radio's
    node table replayed onto the empty registry. *)
Theorem test_mode_publishes_refreshed_snapshot
    (dp url : option string) (iv : Z)
    (open : option string -> outcome transport)
    (now_log : Q) (clk : clock_readings)
    (post : string -> display_data -> outcome response) :
  let st0 := new_plugin dp url iv in
  ((forall dev, raises (open dev)) ->
     main_test st0 open now_log clk post = Ret None)
  /\ (forall tr, (forall dev, open dev = Ret tr) ->
      exists st,
        test_mode_daemon st0 open = Some st
        /\ (forall e, get_online_nodes st now_log = Raise e ->
               main_test st0 open now_log clk post = Raise e)
        /\ (forall online, get_online_nodes st now_log = Ret online ->
               main_test st0 open now_log clk post
               = Ret (Some (send_to_byos st clk post)))
        /\ (forall d, prepare_display_data st clk = Ret d ->
               d_status d = "connected"
               /\ d_channels d <> []
               /\ (1 <= ns_channels (d_network_stats d))%nat)
        /\ interface st = Some tr
        /\ channels st <> []
        /\ nodes st = update [] (node_bindings (default [] (t_nodes tr)))).
Proof.
  cbv zeta. split.
  { intros Hr. unfold main_test, test_mode_daemon.
    rewrite (connect_fails _ _ Hr). reflexivity. }
  intros tr Ho. unfold main_test, test_mode_daemon.
  rewrite (connect_succeeds _ open tr Ho).
  set (st1 := set_interface (new_plugin dp url iv) (Some tr)).
  assert (Hi1 : interface st1 = Some tr) by reflexivity.
  destruct (update_node_data_frame st1) as (_ & _ & Hc2 & Hi2).
  rewrite Hi1 in Hi2.
  eexists. split; [reflexivity|].
  split; [intros e ->; reflexivity|].
  split; [intros online ->; reflexivity|].
  rewrite (update_channel_data_as_refresh _ tr Hi2).
  cbn [interface channels nodes set_channels].
  rewrite Hc2.
  assert (Hne : refreshed_channels tr (channels st1) <> []).
  { unfold refreshed_channels. destruct (reported_channels tr) as [|[k c] l].
    - apply set_nonempty.
    - rewrite update_cons. apply update_nonempty, set_nonempty. }
  split; [|split; [exact Hi2|split; [exact Hne|]]].
  - intros d Hd. apply prepare_display_data_Ret in Hd.
    destruct Hd as (shown & counted & _ & _ & ->).
    cbn [d_status d_channels d_network_stats ns_channels
         interface channels set_channels].
    rewrite Hi2. split; [reflexivity|]. split.
    + destruct (refreshed_channels tr (channels st1)); [contradiction|discriminate].
    + unfold len. destruct (refreshed_channels tr (channels st1));
        [contradiction|simpl; lia].
  - unfold update_node_data. rewrite Hi1.
    destruct (t_nodes tr) as [l|]; cbn [try_except obind default];
      [|reflexivity].
    rewrite replay_as_update. reflexivity.
Qed.

Lemma NoDup_map_fst_filter {A B} (f : A * B -> bool) (l : list (A * B)) :
  List.NoDup (map fst l) -> List.NoDup (map fst (List.filter f l)).
Proof.
  induction l as [|x l IH]; simpl; intros Hnd; [constructor|].
  inversion Hnd as [|? ? Hnotin Hnd']; subst.
  destruct (f x); simpl; [|apply IH; exact Hnd'].
  constructor; [|apply IH; exact Hnd'].
  intros Hin. apply Hnotin. apply in_map_iff in Hin.
  destruct Hin as (y & Hy & Hin). apply filter_In in Hin.
  apply in_map_iff. exists y. tauto.
Qed.

(** X22.  No node is listed twice: when the registry has no duplicate
    ids, the ids of a list that the classifier returns are distinct, and
    the list is no longer than the registry. *)
Theorem online_list_has_distinct_ids (st : plugin) (now : Q) (online : list online_node) :
  List.NoDup (keys (nodes st)) ->
  get_online_nodes st now = Ret online ->
  List.NoDup (map o_id online)
  /\ (length online <= length (nodes st))%nat.
Proof.
  intros Hnd Hret. split.
  - apply get_online_nodes_Ret in Hret. destruct Hret as [-> _].
    assert (Hperm : Permutation
                      (map o_id (sort_reverse o_lastHeard
                         (map converted_record (online_items now (items (nodes st))))))
                      (map o_id (map converted_record (online_items now (items (nodes st)))))).
    { apply Permutation_map. apply sort_reverse_perm. }
    eapply Permutation_NoDup; [symmetry; exact Hperm|].
    unfold online_items. rewrite map_map.
    erewrite map_ext; [apply NoDup_map_fst_filter; exact Hnd|].
    intros [k node]. reflexivity.
  - rewrite (get_online_nodes_length st now online Hret). apply filter_length_le.
Qed.

End TestMode.

(** ** Missing fields and retained text *)

Section EdgeCases.
Context `{Platform}.
Import PyDict PyDictFacts.

Lemma in_get {K V} `{EqDecision K} (d : PyDict.t K V) k v :
  List.NoDup (keys d) -> In (k, v) d -> get d k = Some v.
Proof.
  induction d as [|[k0 v0] d IH]; simpl; intros Hnd Hin; [destruct Hin|].
  inversion Hnd as [|? ? Hnotin Hnd']; subst.
  destruct Hin as [[= -> ->]|Hin].
  - destruct (decide (k = k)); congruence.
  - destruct (decide (k0 = k)) as [->|Hne]; [|apply IH; assumption].
    exfalso. apply Hnotin. apply (in_map fst) in Hin. exact Hin.
Qed.

(** X23.  An update replaces the whole entry, so a payload without a
    last-heard time takes its node out of the online list: the time is
    stored as 0, and once the threshold is not before the epoch (30
    minutes after it) the node is not in a list that the classifier
    returns, whatever its entry said before. *)
Theorem update_without_last_heard_takes_node_offline
    (st : plugin) (node : node_payload) (now : Q)
    (online : list online_node) (o : online_node) :
  List.NoDup (keys (nodes st)) ->
  node_num node <> 0 ->
  nd_lastHeard node = None ->
  (0 <= threshold_timestamp now)%Q ->
  get_online_nodes (on_node_updated st node) now = Ret online ->
  In o online ->
  o_id o <> node_num node.
Proof.
  intros Hnd Hnz Hlh Hnow Hret Hin Hid.
  rewrite (get_online_nodes_In _ now online o Hret) in Hin.
  destruct Hin as (k & e & Hin & Hon & ->). simpl in Hid. subst k.
  rewrite on_node_updated_nodes in Hin by exact Hnz.
  assert (He : get (set (nodes st) (node_num node)
                        (node_profile (node_num node) node)) (node_num node)
               = Some e).
  { apply in_get; [apply NoDup_keys_set; exact Hnd|exact Hin]. }
  rewrite get_set_eq in He. injection He as <-.
  apply is_online_iff in Hon. unfold node_profile in Hon. cbn [n_lastHeard] in Hon.
  rewrite Hlh in Hon. cbn [default] in Hon.
  exact (Qlt_not_le _ _ Hon Hnow).
Qed.

Lemma appended_has_text evs : forall st,
  Forall (fun m => strip (m_text m) <> "") (appended st evs).
Proof.
  induction evs as [|ev evs IH]; intros st; [constructor|].
  cbn [appended]. destruct ev as [|now p|node]; try apply IH.
  destruct (retained st now p) as [m|] eqn:Er; [|apply IH].
  constructor; [|apply IH].
  unfold retained in Er.
  destruct (nonempty_text _) as [[s|]|e] eqn:En; try discriminate.
  unfold message_data in Er.
  destruct (fromtimestamp (packet_rx_time now p)) as [t|e]; cbn [obind] in Er;
    [|discriminate].
  injection Er as <-. apply nonempty_text_accepts in En. apply En.
Qed.

(** X24.  Only text is kept: for a daemon started fresh, after any
    stream of events every message in the history has a text with a
    character that is not white space. *)
Theorem history_holds_only_text
    (dp url : option string) (iv : Z) (evs : list mesh_event) :
  Forall (fun m => strip (m_text m) <> "")
         (recent_messages (process (new_plugin dp url iv) evs)).
Proof.
  pose proof (history_is_last_n (new_plugin dp url iv) evs) as Hh.
  simpl in Hh. specialize (Hh ltac:(unfold MAX_RECENT_MESSAGES; lia)).
  rewrite Hh. unfold last_n. apply Forall_drop. apply appended_has_text.
Qed.

End EdgeCases.

(** ** The two clock readings of a snapshot *)

Section SnapshotClock.
Context `{Platform}.

Lemma filter_length_mono {A} (f g : A -> bool) (l : list A) :
  (forall x, f x = true -> g x = true) ->
  (length (List.filter f l) <= length (List.filter g l))%nat.
Proof.
  intros Himp. induction l as [|x l IH]; simpl; [lia|].
  destruct (f x) eqn:Ef.
  - rewrite (Himp x Ef). simpl. lia.
  - destruct (g x); simpl; lia.
Qed.

(** X25.  The snapshot reads the clock once for its list of online nodes
    and again, later, for its online count.  When the threshold of the
    second reading is not before the threshold of the first (as it is
    where the local clock is never changed), the count of a snapshot
    that is built is at most the length of the classifier's list of the
    first reading, and if at most 12 nodes were online then, at most the
    number of nodes the snapshot lists. *)
Theorem online_count_at_most_listed
    (st : plugin) (clk : clock_readings) (d : display_data) :
  (threshold_timestamp (now_classify clk) <= threshold_timestamp (now_stats clk))%Q ->
  prepare_display_data st clk = Ret d ->
  exists shown,
    get_online_nodes st (now_classify clk) = Ret shown
    /\ (ns_online_nodes (d_network_stats d) <= length shown)%nat
    /\ ((length shown <= 12)%nat ->
        (ns_online_nodes (d_network_stats d) <= length (d_online_nodes d))%nat).
Proof.
  intros Hclk Hd. apply prepare_display_data_Ret in Hd.
  destruct Hd as (shown & counted & Hs & Hc & ->).
  exists shown. split; [exact Hs|].
  cbn [d_network_stats d_online_nodes ns_online_nodes].
  assert (Hle : (length counted <= length shown)%nat).
  { rewrite (get_online_nodes_length _ _ _ Hc), (get_online_nodes_length _ _ _ Hs).
    unfold online_items. apply filter_length_mono.
    intros [k node]. cbn [snd]. rewrite !is_online_iff. intros Hon.
    eapply Qle_lt_trans; [exact Hclk|exact Hon]. }
  split; [exact Hle|]. intros Hfew. rewrite take_ge by exact Hfew. exact Hle.
Qed.

End SnapshotClock.

(** ** The further properties at sample inputs *)

Section MoreEvaluation.
Import Samples MoreSamples.
Existing Instance UTC.platform.

(** X1 on a connection event between two node updates. *)
Lemma registry_entry_after_sample_stream :
  PyDict.get (nodes (process connected_daemon
                       [NodeUpdated (node 1 "OLD" 0); ConnectionEstablished;
                        PacketReceived 0 blank_packet;
                        NodeUpdated (node 2 "NEW" (inject_Z 2000))])) 1
  = Some {| n_id := 1; n_longName := "Node A2"; n_shortName := "A2";
            n_lastHeard := inject_Z 1020; n_snr := 25 # 4;
            n_position := []; n_telemetry := [] |}.
Proof.
  rewrite (registry_entry_after_any_stream connected_daemon _ 1); [|discriminate].
  reflexivity.
Defined.

(** X3 between the readings 1500 and 2500. *)
Lemma online_at_2500_online_at_1500 :
  let st := process daemon [NodeUpdated (node 1 "A" (inject_Z 1000))] in
  exists l1 l2,
    get_online_nodes st (inject_Z 1500) = Ret l1
    /\ get_online_nodes st (inject_Z 2500) = Ret l2
    /\ map o_id l2 = [1]
    /\ forall o, In o l2 -> In o l1.
Proof.
  cbv zeta.
  set (st := process daemon [NodeUpdated (node 1 "A" (inject_Z 1000))]).
  destruct (get_online_nodes st (inject_Z 1500)) as [l1|e] eqn:E1;
    [|vm_compute in E1; discriminate].
  destruct (get_online_nodes st (inject_Z 2500)) as [l2|e] eqn:E2;
    [|vm_compute in E2; discriminate].
  exists l1, l2. split; [reflexivity|]. split; [reflexivity|]. split.
  - vm_compute in E2. injection E2 as <-. reflexivity.
  - intros o.
    apply (online_set_shrinks_as_threshold_rises st (inject_Z 1500) (inject_Z 2500)
             l1 l2 o); [vm_compute; discriminate|exact E1|exact E2].
Defined.

(** X7 and X8 after eleven text packets. *)
Lemma sample_total_counts_all_messages :
  exists d, prepare_display_data (process daemon eleven_packets) at_1000 = Ret d
            /\ d_message_stats_total d = 11.
Proof.
  destruct (prepare_display_data (process daemon eleven_packets) at_1000)
    as [d|e] eqn:Ed; [|vm_compute in Ed; discriminate].
  exists d. split; [reflexivity|].
  rewrite (published_total_counts_all_messages None None DEFAULT_UPDATE_INTERVAL
             eleven_packets at_1000 d Ed).
  vm_compute. reflexivity.
Defined.

Lemma sample_messages_newest_first :
  exists d, prepare_display_data (process daemon eleven_packets) at_1000 = Ret d
            /\ map m_text (d_recent_messages d)
               = ["m11"; "m10"; "m09"; "m08"; "m07"; "m06"; "m05"; "m04"; "m03"; "m02"].
Proof.
  destruct (prepare_display_data (process daemon eleven_packets) at_1000)
    as [d|e] eqn:Ed; [|vm_compute in Ed; discriminate].
  exists d. split; [reflexivity|].
  destruct (published_messages_newest_first None None DEFAULT_UPDATE_INTERVAL
              eleven_packets at_1000 d Ed) as [_ ->].
  vm_compute. reflexivity.
Defined.

(** X9 at a text packet. *)
Lemma sample_text_packet_is_recorded :
  exists older m,
    recent_messages (on_receive daemon 0 (text_packet (PyStr "!a1b2c3d4") 7 " hi "))
    = older ++ [m]
    /\ m_text m = " hi "
    /\ m_time m = "22:13".
Proof.
  destruct (text_packet_is_recorded daemon 0
              (text_packet (PyStr "!a1b2c3d4") 7 " hi ") " hi " eq_refl)
    as [Hrec _].
  - discriminate.
  - destruct (Hrec eq_refl) as (older & m & Hr & _ & Ht & _ & _ & Htime & _).
    exists older, m. split; [exact Hr|]. split; [exact Ht|].
    rewrite Htime. vm_compute. reflexivity.
Defined.

(** A text packet whose receive time lies past the last date of
    [datetime] is dropped. *)
Example text_packet_from_year_10000_is_dropped :
  let p := {| p_decoded := Some (DecodedDict (Some (PyStr "hello")));
              p_fromId := Some (PyStr "!a1b2c3d4"); p_from := Some 7;
              p_channel := Some 0; p_rxTime := Some (inject_Z UTC.end_second);
              p_time := None |} in
  on_receive daemon 0 p = daemon.
Proof. vm_compute. reflexivity. Qed.

(** X10 at a packet whose nested data carries "hello". *)
Lemma nested_text_is_dropped :
  on_receive daemon 0 nested_text_packet = daemon.
Proof.
  apply (empty_direct_text_hides_nested daemon 0 nested_text_packet
           (PyStr "") (Some (Some (PyStr "hello"))) eq_refl).
  intros [s [[= <-] Hs]]. apply Hs. reflexivity.
Defined.

(** X11 on a daemon connected to a radio with two nodes and a channel. *)
Lemma second_connection_event_changes_nothing :
  on_connection (on_connection connected_daemon) = on_connection connected_daemon.
Proof.
  apply (on_connection_idempotent connected_daemon); constructor.
Defined.

(** X12 with a signal in the third pass. *)
Lemma signal_in_third_pass_stops :
  exists s, run_update_loop 4 signal_in_third_pass daemon = Stopped s
            /\ (ls_iteration s <= 3)%nat.
Proof.
  destruct (signal_stops_the_loop signal_in_third_pass daemon 2 eq_refl 4%nat)
    as (s & Hs & Hit & _).
  - apply le_n.
  - exists s. auto.
Defined.

(** X13 with a sink that is down. *)
Lemma sink_down_loop_goes_on :
  exists s, run_update_loop 6 sink_down connected_daemon = StillRunning s
            /\ count_publishes (ls_trace s) = 6%nat /\ ls_connects s = 0%nat.
Proof.
  destruct (publish_failures_never_stop_the_loop sink_down connected_daemon
              busy_radio 6 eq_refl (fun _ => eq_refl))
    as (s & Hs & _ & Hp & _ & Hc & _).
  exists s. auto.
Defined.

(** In that run six POSTs are made and every publish call returns
    false. *)
Example sink_down_six_posts :
  let s := final (run_update_loop 6 sink_down connected_daemon) in
  ls_posts s = 6%nat
  /\ List.filter (fun e => match e with EvPublish _ => true | _ => false end)
                 (ls_trace s)
     = repeat (EvPublish false) 6.
Proof. vm_compute. auto. Qed.

(** A daemon whose radio reports a node heard in the year 10000 keeps
    running and calling publish, but never gets as far as a POST. *)
Example unconvertible_time_blocks_every_post :
  let radio := {| t_nodes := Some [heard_in_year_10000];
                  t_getMyNodeInfo := Ret InfoNone |} in
  let s := final (run_update_loop 6 signal_in_third_pass
                    (set_interface daemon (Some radio))) in
  ls_iteration s = 3%nat
  /\ ls_posts s = 0%nat
  /\ List.filter (fun e => match e with EvPublish _ => true | _ => false end)
                 (ls_trace s)
     = repeat (EvPublish false) 3.
Proof. vm_compute. auto. Qed.

(** X14 on a connected daemon with a signal in the third pass. *)
Lemma connected_daemon_never_reconnects :
  let s := final (run_update_loop 10 signal_in_third_pass connected_daemon) in
  ls_connects s = 0%nat /\ interface (ls_plugin s) = Some busy_radio.
Proof.
  cbv zeta.
  destruct (no_reconnect_after_success signal_in_third_pass
              (loop_start connected_daemon) busy_radio 10 at_1000 eq_refl)
    as (Hc & Hi & _).
  split; [exact Hc|exact Hi].
Defined.

(** X15 and X16 on the sample file. *)
Lemma sample_file_keeps_environment :
  load_env_file (Some env_file) environment !! "BYOS_URL"
  = Some "http://from.env:4567".
Proof.
  apply (env_file_never_overrides (Some env_file) environment). reflexivity.
Defined.

Lemma sample_file_first_assignment :
  load_env_file (Some env_file) ∅ !! "BYOS_URL"
  = Some "http://pi.local:4567/?a=b".
Proof.
  apply (env_file_first_assignment_wins
           (firstn 3 env_file)
           ("  BYOS_URL=http://pi.local:4567/?a=b  " ++ String "010" "")%string
           (skipn 4 env_file) ∅ "BYOS_URL" "http://pi.local:4567/?a=b").
  - reflexivity.
  - reflexivity.
  - reflexivity.
  - intros l k' v' Hin. simpl in Hin.
    destruct Hin as [<-|[<-|[<-|[]]]]; vm_compute; intros [= <- <-];
      split; [discriminate|reflexivity].
Defined.

(** X17 at a line with two [=] signs and white space around it. *)
Lemma sample_line_is_cut_once :
  strip ("  BYOS_URL=http://pi.local:4567/?a=b  " ++ String "010" "")%string
  = ("BYOS_URL" ++ "=" ++ "http://pi.local:4567/?a=b")%string.
Proof.
  apply (env_line_cuts_at_first_equals
           ("  BYOS_URL=http://pi.local:4567/?a=b  " ++ String "010" "")%string
           "BYOS_URL" "http://pi.local:4567/?a=b").
  reflexivity.
Defined.

(** X19 from a new daemon. *)
Lemma sample_stream_keeps_consistency :
  consistent (process connected_daemon
                [ConnectionEstablished; NodeUpdated (node 3 "C" 0);
                 PacketReceived 0 (text_packet (PyStr "!a1b2c3d4") 3 "hi")]).
Proof.
  apply (handlers_keep_stores_consistent connected_daemon).
  apply (new_plugin_consistent None None DEFAULT_UPDATE_INTERVAL).
Defined.

(** X20 with the sample file and environment and no options. *)
Lemma sample_sink_url :
  byos_url (new_plugin None (Some "http://from.env:4567") 60)
  = "http://from.env:4567".
Proof.
  apply (sink_url_precedence (fun _ => Ret 60) (Some env_file) environment no_options).
  reflexivity.
Defined.

(** X21 on the radio with two nodes and one channel. *)
Lemma test_mode_on_busy_radio :
  exists st, test_mode_daemon daemon (fun _ => Ret busy_radio) = Some st
             /\ PyDict.keys (nodes st) = [1; 2]
             /\ PyDict.keys (channels st) = [1%nat].
Proof.
  destruct (test_mode_publishes_refreshed_snapshot None None DEFAULT_UPDATE_INTERVAL
              (fun _ => Ret busy_radio) (inject_Z 1000) at_1000
              (fun _ _ => Raise ConnectionError))
    as [_ Hopen].
  destruct (Hopen busy_radio (fun _ => eq_refl)) as (st & Ht & _).
  exists st. split; [exact Ht|]. injection Ht as <-. split; reflexivity.
Defined.

(** Test mode on that radio with the sink down, and on a radio that
    reports a node heard in the year 10000. *)
Example test_mode_outcomes :
  main_test daemon (fun _ => Ret busy_radio) (inject_Z 1000) at_1000
            (fun _ _ => Raise ConnectionError) = Ret (Some false)
  /\ main_test daemon (fun _ => Ret busy_radio) (inject_Z 1000) at_1000
               (fun _ _ => Ret {| status_code := 201; text := "" |}) = Ret (Some true)
  /\ main_test daemon
               (fun _ => Ret {| t_nodes := Some [heard_in_year_10000];
                                t_getMyNodeInfo := Ret InfoNone |})
               (inject_Z 1000) at_1000
               (fun _ _ => Ret {| status_code := 200; text := "" |})
     = Raise ValueError.
Proof. vm_compute. auto. Qed.

(** X22 on three nodes of which two are online. *)
Lemma sample_online_ids_distinct :
  let st := process daemon [NodeUpdated (node 1 "A" (inject_Z 1000));
                            NodeUpdated (node 2 "B" (inject_Z 1010));
                            NodeUpdated (node 3 "C" 0)] in
  exists online, get_online_nodes st (inject_Z 2000) = Ret online
                 /\ List.NoDup (map o_id online)
                 /\ length online = 2%nat.
Proof.
  cbv zeta.
  set (st := process daemon [NodeUpdated (node 1 "A" (inject_Z 1000));
                             NodeUpdated (node 2 "B" (inject_Z 1010));
                             NodeUpdated (node 3 "C" 0)]).
  destruct (get_online_nodes st (inject_Z 2000)) as [online|e] eqn:Eo;
    [|vm_compute in Eo; discriminate].
  exists online. split; [reflexivity|]. split.
  - apply (online_list_has_distinct_ids st (inject_Z 2000) online); [|exact Eo].
    repeat constructor; simpl; intuition discriminate.
  - vm_compute in Eo. injection Eo as <-. reflexivity.
Defined.

(** X23 on two nodes that were online, after an update of node 1
    that carries no last-heard time. *)
Lemma sample_update_takes_node_offline :
  let st := process daemon [NodeUpdated (node 1 "A" (inject_Z 5000));
                            NodeUpdated (node 2 "B" (inject_Z 5000))] in
  exists online,
    get_online_nodes (on_node_updated st bare_update) (inject_Z 5000) = Ret online
    /\ length online = 1%nat
    /\ forall o, In o online -> o_id o <> 1.
Proof.
  cbv zeta.
  set (st := process daemon [NodeUpdated (node 1 "A" (inject_Z 5000));
                             NodeUpdated (node 2 "B" (inject_Z 5000))]).
  destruct (get_online_nodes (on_node_updated st bare_update) (inject_Z 5000))
    as [online|e] eqn:Eo; [|vm_compute in Eo; discriminate].
  exists online. split; [reflexivity|]. split.
  - vm_compute in Eo. injection Eo as <-. reflexivity.
  - intros o Hin.
    apply (update_without_last_heard_takes_node_offline st bare_update
             (inject_Z 5000) online o).
    + repeat constructor; simpl; intuition discriminate.
    + discriminate.
    + reflexivity.
    + vm_compute. discriminate.
    + exact Eo.
    + exact Hin.
Defined.

Example bare_update_leaves_one_online :
  exists online,
    get_online_nodes
      (process daemon [NodeUpdated (node 1 "A" (inject_Z 5000));
                       NodeUpdated (node 2 "B" (inject_Z 5000));
                       NodeUpdated bare_update])
      (inject_Z 5000) = Ret online
    /\ map o_id online = [2].
Proof. eexists. split; vm_compute; reflexivity. Qed.

(** X25 on a node that ages out between the two readings. *)
Lemma count_can_fall_behind_the_list :
  let st := process daemon [NodeUpdated (node 1 "A" (inject_Z 1000))] in
  exists d,
    prepare_display_data st split_second = Ret d
    /\ (ns_online_nodes (d_network_stats d) <= length (d_online_nodes d))%nat
    /\ ns_online_nodes (d_network_stats d) = 0%nat
    /\ length (d_online_nodes d) = 1%nat.
Proof.
  cbv zeta.
  set (st := process daemon [NodeUpdated (node 1 "A" (inject_Z 1000))]).
  destruct (prepare_display_data st split_second) as [d|e] eqn:Ed;
    [|vm_compute in Ed; discriminate].
  exists d. split; [reflexivity|]. split.
  - destruct (online_count_at_most_listed st split_second d) as (shown & Hs & _ & Hcap).
    + vm_compute. discriminate.
    + exact Ed.
    + apply Hcap. vm_compute in Hs. injection Hs as <-. simpl. lia.
  - vm_compute in Ed. injection Ed as <-. split; reflexivity.
Defined.

(** Where the clocks go back, the threshold falls by an hour between the
    two readings: a node that was not online at the first reading is
    online at the second, so that the snapshot counts one online node and
    lists none. *)
Example count_exceeds_the_list_after_fall_back :
  let st := @process Berlin2024.platform daemon [NodeUpdated heard_before_fall_back] in
  exists d,
    @prepare_display_data Berlin2024.platform st around_fall_back = Ret d
    /\ ns_online_nodes (d_network_stats d) = 1%nat
    /\ d_online_nodes d = [].
Proof. eexists. split; [vm_compute; reflexivity|]. split; reflexivity. Qed.

End MoreEvaluation.
